(** * Hyperliquid order signing and submission: a shallow embedding

    The development follows the Python programs of the repository:

    - [hyperliquid_minimal_order.py], the standalone script that signs and
      posts one order (module [Minimal]);
    - [hyperliquid_bot_executable_orders.py], the trading bot, of which the
      signing method, [execute_real_order], [set_leverage] and the three
      metadata helpers are embedded (module [Bot]), and then
      [get_portfolio_state], [risk_management_check] and
      [execute_executable_order] (module [Orders]);
    - [technical_analyzer_simple.py], of which the indicators
      [calculate_ema], [calculate_macd] and [calculate_rsi] are embedded
      (module [Analyzer]).

    Conventions of the embedding.

    - A Python [bytes] value is a [list byte]; a Python [int] is a [Z].
    - A Python [str] is a Rocq [string], one character per code point; only
      code points below 256 are represented.
    - A Python [float] is an exact rational ([Q]): arithmetic is the exact
      one, non-finite floats are not represented.
    - A Python object built from [None], [bool], [int], [str], [list] and
      [dict] with [str] keys is a [value]; a [dict] is the list of its items
      in insertion order.  This is the shape of every action the programs
      sign and of every JSON document they read (JSON numbers with a
      fraction are not represented: the exchange sends them as strings).
    - A Python exception is a constructor of [exn]; a computation that may
      raise returns a [result].
    - The libraries the programs call are modelled next to the code:
      [msgpack.packb] and Keccak-256 ([Crypto.Hash.keccak]) are defined in
      full; [eth_account] (key import, typed-data encoding, ECDSA) is a
      parameter of the sections that sign. *)

From Stdlib Require Import ZArith List String Ascii Bool Lia QArith Qround Qabs Lqa Permutation.
From Stdlib Require Import Strings.Byte.

Local Open Scope string_scope.
Local Open Scope list_scope.
Import ListNotations.
Local Open Scope Z_scope.

(** ** Exceptions and results *)

Inductive exn : Type :=
| OverflowError
| ValueError
| TypeError
| AttributeError
| KeyError
| NameError
| RequestException.

Inductive result (A : Type) : Type :=
| Ok (a : A)
| Raise (e : exn).

Arguments Ok {A} a.
Arguments Raise {A} e.

Definition rbind {A B : Type} (r : result A) (f : A -> result B) : result B :=
  match r with
  | Ok a => f a
  | Raise e => Raise e
  end.

Declare Scope result_scope.
Delimit Scope result_scope with result.
Notation "x <- c ;; k" := (rbind c (fun x => k))
  (at level 61, c at next level, right associativity) : result_scope.

(** ** Bytes *)

Definition bytes : Type := list byte.

Definition byte_of_Z (z : Z) : byte :=
  match Byte.of_N (Z.to_N (z mod 256)) with
  | Some b => b
  | None => x00
  end.

Definition Z_of_byte (b : byte) : Z := Z.of_N (Byte.to_N b).

(** [be_bytes n z]: the [n] low-order bytes of [z], most significant first. *)
Fixpoint be_bytes (n : nat) (z : Z) : bytes :=
  match n with
  | O => []
  | S k => byte_of_Z (Z.shiftr z (8 * Z.of_nat k)) :: be_bytes k z
  end.

(** [le_bytes n z]: the [n] low-order bytes of [z], least significant first. *)
Fixpoint le_bytes (n : nat) (z : Z) : bytes :=
  match n with
  | O => []
  | S k => byte_of_Z z :: le_bytes k (Z.shiftr z 8)
  end.

(** The unsigned value of a byte string read most significant byte first. *)
Definition Z_of_be (bs : bytes) : Z :=
  fold_left (fun acc b => acc * 256 + Z_of_byte b) bs 0.

(** The unsigned value of a byte string read least significant byte first. *)
Fixpoint Z_of_le (bs : bytes) : Z :=
  match bs with
  | [] => 0
  | b :: r => Z_of_byte b + 256 * Z_of_le r
  end.

(** [int.to_bytes(length, "big")]: raises [OverflowError] on a negative
    integer and on one that does not fit. *)
Definition to_bytes_big (z : Z) (len : nat) : result bytes :=
  if (z <? 0) || (2 ^ (8 * Z.of_nat len) <=? z)
  then Raise OverflowError
  else Ok (be_bytes len z).

(** ** Strings *)

Definition code (c : ascii) : Z := Z.of_N (N_of_ascii c).
Definition chr (z : Z) : ascii := ascii_of_N (Z.to_N (z mod 256)).

(** [str.lower] on code points below 256: the ASCII capitals and the
    Latin-1 capitals (0xC0..0xDE but the multiplication sign 0xD7). *)
Definition lower_char (c : ascii) : ascii :=
  let n := code c in
  if ((65 <=? n) && (n <=? 90))
     || ((192 <=? n) && (n <=? 222) && negb (n =? 215))
  then chr (n + 32) else c.

Fixpoint lower (s : string) : string :=
  match s with
  | EmptyString => EmptyString
  | String c r => String (lower_char c) (lower r)
  end.

(** [s[n:]] *)
Fixpoint drop (n : nat) (s : string) : string :=
  match n, s with
  | O, _ => s
  | S k, EmptyString => EmptyString
  | S k, String _ r => drop k r
  end.

(** UTF-8 encoding of a string of code points below 256. *)
Fixpoint utf8 (s : string) : bytes :=
  match s with
  | EmptyString => []
  | String c r =>
      let n := code c in
      if n <? 128 then byte_of_Z n :: utf8 r
      else byte_of_Z (Z.lor 192 (Z.shiftr n 6))
             :: byte_of_Z (Z.lor 128 (Z.land n 63)) :: utf8 r
  end.

(** ** Hexadecimal *)

Definition hex_digit (z : Z) : ascii :=
  if z <? 10 then chr (48 + z) else chr (87 + z).

(** [bytes.hex()]: two lowercase digits per byte. *)
Fixpoint bytes_hex (bs : bytes) : string :=
  match bs with
  | [] => EmptyString
  | b :: r =>
      String (hex_digit (Z_of_byte b / 16))
        (String (hex_digit (Z_of_byte b mod 16)) (bytes_hex r))
  end.

Definition hex_value (c : ascii) : option Z :=
  let n := code c in
  if (48 <=? n) && (n <=? 57) then Some (n - 48)
  else if (97 <=? n) && (n <=? 102) then Some (n - 87)
  else if (65 <=? n) && (n <=? 70) then Some (n - 55)
  else None.

Definition is_space (c : ascii) : bool :=
  let n := code c in
  (n =? 32) || ((9 <=? n) && (n <=? 13)).

(** [bytes.fromhex]: ASCII whitespace is skipped between bytes; each byte
    is two adjacent hexadecimal digits; anything else is a [ValueError]. *)
Fixpoint fromhex (s : string) : result bytes :=
  match s with
  | EmptyString => Ok []
  | String c r =>
      if is_space c then fromhex r
      else
        match hex_value c, r with
        | Some h, String c' r' =>
            match hex_value c' with
            | Some l =>
                match fromhex r' with
                | Ok bs => Ok (byte_of_Z (16 * h + l) :: bs)
                | Raise e => Raise e
                end
            | None => Raise ValueError
            end
        | _, _ => Raise ValueError
        end
  end.

(** Digits of a positive integer in a base up to 16, most significant
    first.  [fuel] bounds the number of digits. *)
Fixpoint digits_aux (base : Z) (fuel : nat) (z : Z) (acc : string) : string :=
  match fuel with
  | O => acc
  | S k =>
      if z <? base then String (hex_digit z) acc
      else digits_aux base k (z / base) (String (hex_digit (z mod base)) acc)
  end.

Definition digits (base : Z) (z : Z) : string :=
  digits_aux base (S (Z.to_nat (Z.log2 z))) z EmptyString.

(** [hex(n)] for an [int]. *)
Definition hex (z : Z) : string :=
  if z <? 0 then append "-0x" (digits 16 (- z)) else append "0x" (digits 16 z).

(** [str(n)] for an [int]. *)
Definition str_int (z : Z) : string :=
  if z <? 0 then append "-" (digits 10 (- z)) else digits 10 z.

(** ** Python objects *)

#[local] Set Warnings "-register-all".
#[local] Unset Elimination Schemes.

Inductive value : Type :=
| VNone
| VBool (b : bool)
| VInt (z : Z)
| VStr (s : string)
| VList (l : list value)
| VDict (d : list (string * value)).

#[local] Set Elimination Schemes.

(** [d.get(k)] on the items of a dict: the value of the first item whose
    key is [k]. *)
Fixpoint assoc (k : string) (d : list (string * value)) : option value :=
  match d with
  | [] => None
  | (k', v) :: r => if String.eqb k k' then Some v else assoc k r
  end.

(** ** msgpack.packb

    The encoding of the msgpack format as the Python package writes it with
    its default options ([use_bin_type=True]): every integer in its shortest
    form, a [str] as its UTF-8 bytes behind a length header, a [dict] as a
    map header followed by each key and value in the dict's iteration
    (insertion) order. *)

Module Msgpack.

Definition ITEM_LIMIT : Z := 2 ^ 32 - 1.

(** Nesting deeper than this raises [ValueError]. *)
Definition DEFAULT_RECURSE_LIMIT : nat := 511.

Definition pack_int (z : Z) : result bytes :=
  if (0 <=? z) && (z <? 128) then Ok [byte_of_Z z]
  else if (-32 <=? z) && (z <? 0) then Ok [byte_of_Z z]
  else if (128 <=? z) && (z <? 2 ^ 8) then Ok (xcc :: be_bytes 1 z)
  else if (-128 <=? z) && (z <? 0) then Ok (xd0 :: be_bytes 1 z)
  else if (2 ^ 8 <=? z) && (z <? 2 ^ 16) then Ok (xcd :: be_bytes 2 z)
  else if (- 2 ^ 15 <=? z) && (z <? -128) then Ok (xd1 :: be_bytes 2 z)
  else if (2 ^ 16 <=? z) && (z <? 2 ^ 32) then Ok (xce :: be_bytes 4 z)
  else if (- 2 ^ 31 <=? z) && (z <? - 2 ^ 15) then Ok (xd2 :: be_bytes 4 z)
  else if (2 ^ 32 <=? z) && (z <? 2 ^ 64) then Ok (xcf :: be_bytes 8 z)
  else if (- 2 ^ 63 <=? z) && (z <? - 2 ^ 31) then Ok (xd3 :: be_bytes 8 z)
  else Raise OverflowError.

Definition str_header (n : Z) : result bytes :=
  if n <? 32 then Ok [byte_of_Z (160 + n)]
  else if n <? 2 ^ 8 then Ok (xd9 :: be_bytes 1 n)
  else if n <? 2 ^ 16 then Ok (xda :: be_bytes 2 n)
  else if n <=? ITEM_LIMIT then Ok (xdb :: be_bytes 4 n)
  else Raise ValueError.

Definition pack_str (s : string) : result bytes :=
  let raw := utf8 s in
  match str_header (Z.of_nat (List.length raw)) with
  | Ok h => Ok (h ++ raw)
  | Raise e => Raise e
  end.

Definition array_header (n : Z) : result bytes :=
  if n <? 16 then Ok [byte_of_Z (144 + n)]
  else if n <? 2 ^ 16 then Ok (xdc :: be_bytes 2 n)
  else if n <=? ITEM_LIMIT then Ok (xdd :: be_bytes 4 n)
  else Raise ValueError.

Definition map_header (n : Z) : result bytes :=
  if n <? 16 then Ok [byte_of_Z (128 + n)]
  else if n <? 2 ^ 16 then Ok (xde :: be_bytes 2 n)
  else if n <=? ITEM_LIMIT then Ok (xdf :: be_bytes 4 n)
  else Raise ValueError.

(** The items of a list, packed one after the other with [f]. *)
Fixpoint pack_items (f : value -> result bytes) (l : list value) : result bytes :=
  match l with
  | [] => Ok []
  | v :: r =>
      match f v with
      | Ok a =>
          match pack_items f r with
          | Ok b => Ok (a ++ b)
          | Raise e => Raise e
          end
      | Raise e => Raise e
      end
  end.

(** The items of a dict: each key as a [str], then its value. *)
Fixpoint pack_pairs (f : value -> result bytes) (d : list (string * value))
  : result bytes :=
  match d with
  | [] => Ok []
  | (k, v) :: r =>
      match f (VStr k) with
      | Ok a =>
          match f v with
          | Ok b =>
              match pack_pairs f r with
              | Ok c => Ok (a ++ b ++ c)
              | Raise e => Raise e
              end
          | Raise e => Raise e
          end
      | Raise e => Raise e
      end
  end.

(** [Packer._pack(o, nest_limit)]; [fuel = S nest_limit], so that
    [fuel = 0] is the test [nest_limit < 0]. *)
Fixpoint pack (fuel : nat) (o : value) : result bytes :=
  match fuel with
  | O => Raise ValueError
  | S nest =>
      match o with
      | VNone => Ok [xc0]
      | VBool b => Ok [if b then xc3 else xc2]
      | VInt z => pack_int z
      | VStr s => pack_str s
      | VList l =>
          match array_header (Z.of_nat (List.length l)) with
          | Ok h =>
              match pack_items (pack nest) l with
              | Ok body => Ok (h ++ body)
              | Raise e => Raise e
              end
          | Raise e => Raise e
          end
      | VDict d =>
          match map_header (Z.of_nat (List.length d)) with
          | Ok h =>
              match pack_pairs (pack nest) d with
              | Ok body => Ok (h ++ body)
              | Raise e => Raise e
              end
          | Raise e => Raise e
          end
      end
  end.

Definition packb (o : value) : result bytes :=
  pack (S DEFAULT_RECURSE_LIMIT) o.

End Msgpack.

(** ** Keccak-256

    [keccak.new(data=data, digest_bits=256).digest()]: the sponge over
    Keccak-f[1600] with rate 136 bytes and the original Keccak padding
    (first padding byte 0x01, not the 0x06 of SHA3-256). *)

Module Keccak.

Definition mask64 : Z := 2 ^ 64 - 1.

Definition rotl64 (x : Z) (n : Z) : Z :=
  Z.land (Z.lor (Z.shiftl x n) (Z.shiftr x (64 - n))) mask64.

(** The state is the list of its 25 lanes, lane (x, y) at index x + 5 y. *)
Definition lane (st : list Z) (x y : nat) : Z :=
  nth ((x mod 5) + 5 * (y mod 5))%nat st 0.

Definition RC : list Z :=
  [ 0x0000000000000001; 0x0000000000008082; 0x800000000000808A;
    0x8000000080008000; 0x000000000000808B; 0x0000000080000001;
    0x8000000080008081; 0x8000000000008009; 0x000000000000008A;
    0x0000000000000088; 0x0000000080008009; 0x000000008000000A;
    0x000000008000808B; 0x800000000000008B; 0x8000000000008089;
    0x8000000000008003; 0x8000000000008002; 0x8000000000000080;
    0x000000000000800A; 0x800000008000000A; 0x8000000080008081;
    0x8000000000008080; 0x0000000080000001; 0x8000000080008008 ].

(** Rotation offsets, at index x + 5 y. *)
Definition ROT : list Z :=
  [  0;  1; 62; 28; 27;
    36; 44;  6; 55; 20;
     3; 10; 43; 25; 39;
    41; 45; 15; 21;  8;
    18;  2; 61; 56; 14 ].

Definition coords : list (nat * nat) :=
  flat_map (fun y => map (fun x => (x, y)) [0; 1; 2; 3; 4]%nat) [0; 1; 2; 3; 4]%nat.

Definition theta (st : list Z) : list Z :=
  let c := fun x =>
    Z.lxor (lane st x 0) (Z.lxor (lane st x 1) (Z.lxor (lane st x 2)
      (Z.lxor (lane st x 3) (lane st x 4)))) in
  let d := fun x => Z.lxor (c (x + 4)%nat) (rotl64 (c (x + 1)%nat) 1) in
  map (fun '(x, y) => Z.lxor (lane st x y) (d x)) coords.

(** rho and pi together: the lane written at (x, y) is the rotated lane
    read at (x + 3 y, x). *)
Definition rho_pi (st : list Z) : list Z :=
  map (fun '(x, y) =>
         let sx := ((x + 3 * y) mod 5)%nat in
         let sy := x in
         rotl64 (lane st sx sy) (nth (sx + 5 * sy)%nat ROT 0)) coords.

Definition chi (st : list Z) : list Z :=
  map (fun '(x, y) =>
         Z.lxor (lane st x y)
           (Z.land (Z.lxor (lane st (x + 1) y) mask64) (lane st (x + 2) y)))
      coords.

Definition iota (rc : Z) (st : list Z) : list Z :=
  match st with
  | [] => []
  | a :: r => Z.lxor a rc :: r
  end.

Definition round (st : list Z) (rc : Z) : list Z :=
  iota rc (chi (rho_pi (theta st))).

Definition keccak_f (st : list Z) : list Z := fold_left round RC st.

Definition rate : nat := 136.

(** pad10*1 with the Keccak domain bits: 0x01, zeros, 0x80 (0x81 when a
    single byte is missing). *)
Definition pad (data : bytes) : bytes :=
  let q := (rate - (List.length data mod rate))%nat in
  if (q =? 1)%nat then data ++ [x81]
  else data ++ x01 :: repeat x00 (q - 2) ++ [x80].

(** The lanes of a block, 8 little-endian bytes each. *)
Fixpoint lanes_of (n : nat) (bs : bytes) : list Z :=
  match n with
  | O => []
  | S k => Z_of_le (firstn 8 bs) :: lanes_of k (skipn 8 bs)
  end.

Fixpoint xor_lanes (st blk : list Z) : list Z :=
  match st, blk with
  | s :: st', b :: blk' => Z.lxor s b :: xor_lanes st' blk'
  | _, _ => st
  end.

(** Absorbs the padded message, [fuel] blocks at most. *)
Fixpoint absorb (fuel : nat) (st : list Z) (bs : bytes) : list Z :=
  match fuel with
  | O => st
  | S k =>
      match bs with
      | [] => st
      | _ => absorb k (keccak_f (xor_lanes st (lanes_of 17 (firstn rate bs))))
               (skipn rate bs)
      end
  end.

Definition keccak256 (data : bytes) : bytes :=
  let padded := pad data in
  let st := absorb (S (List.length padded / rate)) (repeat 0 25) padded in
  le_bytes 8 (nth 0 st 0) ++ le_bytes 8 (nth 1 st 0)
    ++ le_bytes 8 (nth 2 st 0) ++ le_bytes 8 (nth 3 st 0).

End Keccak.

(** ** Numbers: [float] as exact rationals *)

Definition Qltb (a b : Q) : bool := negb (Qle_bool b a).

(** The builtin [min] and [max] of two arguments: the first one unless the
    second is strictly smaller (larger). *)
Definition py_min (a b : Q) : Q := if Qltb b a then b else a.
Definition py_max (a b : Q) : Q := if Qltb a b then b else a.

(** [round(x)] of a float: the nearest integer, a tie to the even one. *)
Definition round_half_even (q : Q) : Z :=
  let f := Qfloor q in
  let d := Qred (q - inject_Z f) in
  if Qltb d (1 # 2) then f
  else if Qltb (1 # 2) d then f + 1
  else if Z.even f then f else f + 1.

(** [int(x)] of a float: truncation toward zero. *)
Definition int_of_float (q : Q) : Z :=
  if Qltb q 0 then Qceiling q else Qfloor q.

Definition pow10 (n : nat) : Z := 10 ^ Z.of_nat n.

(** A Python number that is an [int] or a [float]. *)
Inductive num : Type :=
| Int (z : Z)
| Float (q : Q).

Definition num_Q (x : num) : Q :=
  match x with
  | Int z => inject_Z z
  | Float q => q
  end.

(** [10 ** (-n)] for an [int] [n >= 0]: the int [1] when [n = 0], a float
    otherwise. *)
Definition ten_pow_neg (n : nat) : num :=
  match n with
  | O => Int 1
  | _ => Float (1 # Z.to_pos (pow10 n))
  end.

(** [k * t] for an int [k]. *)
Definition int_mul_num (k : Z) (t : num) : num :=
  match t with
  | Int z => Int (k * z)
  | Float q => Float (Qred (inject_Z k * q))
  end.

(** [round(x, ndigits)] for [ndigits >= 0]: an int is returned unchanged. *)
Definition round_ndigits (x : num) (ndigits : nat) : num :=
  match x with
  | Int z => Int z
  | Float q =>
      Float (Qred (inject_Z (round_half_even (q * inject_Z (pow10 ndigits)))
               / inject_Z (pow10 ndigits)))
  end.

(** *** Parsing: [float(s)]

    An optional sign, digits with an optional fraction, an optional
    exponent, surrounded by optional whitespace.  The literals of the
    non-finite floats and digit-group underscores are not represented. *)

Definition digit_value (c : ascii) : option Z :=
  let n := code c in
  if (48 <=? n) && (n <=? 57) then Some (n - 48) else None.

(** Reads a run of digits: the value, the number of digits, the rest. *)
Fixpoint read_digits (s : string) (acc : Z) (count : nat) : Z * nat * string :=
  match s with
  | EmptyString => (acc, count, s)
  | String c r =>
      match digit_value c with
      | Some d => read_digits r (10 * acc + d) (S count)
      | None => (acc, count, s)
      end
  end.

Fixpoint lstrip (s : string) : string :=
  match s with
  | EmptyString => s
  | String c r => if is_space c then lstrip r else s
  end.

Fixpoint all_space (s : string) : bool :=
  match s with
  | EmptyString => true
  | String c r => is_space c && all_space r
  end.

Definition read_sign (s : string) : bool * string :=
  match s with
  | String "-" r => (true, r)
  | String "+" r => (false, r)
  | _ => (false, s)
  end.

Definition scale10 (m : Z) (e : Z) : Q :=
  if 0 <=? e then inject_Z (m * 10 ^ e)
  else Qred (m # Z.to_pos (10 ^ (- e))).

Definition read_exponent (s : string) : option (Z * string) :=
  match s with
  | String c r =>
      if (code c =? 101) || (code c =? 69) then
        let '(neg, r1) := read_sign r in
        let '(e, n, r2) := read_digits r1 0 O in
        match n with
        | O => None
        | _ => Some (if neg then - e else e, r2)
        end
      else Some (0, s)
  | EmptyString => Some (0, s)
  end.

Definition float_of_str (s : string) : result Q :=
  let '(neg, s1) := read_sign (lstrip s) in
  let '(ip, n1, s2) := read_digits s1 0 O in
  let '(m, n2, s3) :=
    match s2 with
    | String "." r => read_digits r ip O
    | _ => (ip, O, s2)
    end in
  match (n1 + n2)%nat with
  | O => Raise ValueError
  | _ =>
      match read_exponent s3 with
      | Some (e, s4) =>
          if all_space s4
          then Ok (scale10 (if neg then - m else m) (e - Z.of_nat n2))
          else Raise ValueError
      | None => Raise ValueError
      end
  end.

(** *** Printing *)

Fixpoint zeros (n : nat) : string :=
  match n with
  | O => EmptyString
  | S k => String "0" (zeros k)
  end.

(** A natural number in exactly [width] decimal digits (or more). *)
Definition pad_digits (width : nat) (z : Z) : string :=
  let d := digits 10 z in
  append (zeros (width - String.length d)) d.

(** [f"{x:.{nd}f}"] *)
Definition format_fixed (q : Q) (nd : nat) : string :=
  let r := round_half_even (Qabs q * inject_Z (pow10 nd)) in
  let body :=
    match nd with
    | O => digits 10 r
    | _ => append (digits 10 (r / pow10 nd))
             (String "." (pad_digits nd (r mod pow10 nd)))
    end in
  if Qltb q 0 then String "-" body else body.

(** [s.rstrip(c)] for a single character [c]. *)
Fixpoint rstrip (c : ascii) (s : string) : string :=
  match s with
  | EmptyString => EmptyString
  | String a r =>
      match rstrip c r with
      | EmptyString => if Ascii.eqb a c then EmptyString else String a EmptyString
      | r' => String a r'
      end
  end.

(** [c in s] for a single character [c]. *)
Fixpoint has_char (c : ascii) (s : string) : bool :=
  match s with
  | EmptyString => false
  | String a r => Ascii.eqb a c || has_char c r
  end.

(** [s.split(c)] for a single character [c]. *)
Fixpoint split (c : ascii) (s : string) : list string :=
  match s with
  | EmptyString => [EmptyString]
  | String a r =>
      if Ascii.eqb a c then EmptyString :: split c r
      else
        match split c r with
        | [] => [String a EmptyString]
        | h :: t => String a h :: t
        end
  end.

(** [t in s] for strings. *)
Fixpoint contains (t s : string) : bool :=
  String.prefix t s ||
  match s with
  | EmptyString => false
  | String _ r => contains t r
  end.

(** The position of the decimal point of a positive rational: the [e]
    with [10^(e-1) <= q < 10^e]. *)
Fixpoint decpt_up (fuel : nat) (q : Q) (e : Z) : Z :=
  match fuel with
  | O => e
  | S k => if Qltb q (inject_Z (10 ^ e)) then e else decpt_up k q (e + 1)
  end.

Fixpoint decpt_down (fuel : nat) (q : Q) (e : Z) : Z :=
  match fuel with
  | O => e
  | S k =>
      if Qle_bool (1 # Z.to_pos (10 ^ (1 - e))) q then e
      else decpt_down k q (e - 1)
  end.

Definition decpt (q : Q) : Z :=
  if Qle_bool 1 q
  then decpt_up (S (Z.to_nat (Z.log2 (Qnum q)))) q 1
  else decpt_down (S (Z.to_nat (Z.log2 (Zpos (Qden q))))) q 0.

Fixpoint strip_zeros (fuel : nat) (z : Z) : Z :=
  match fuel with
  | O => z
  | S k => if (z mod 10 =? 0) && negb (z =? 0) then strip_zeros k (z / 10) else z
  end.

(** [repr(x)], which is [str(x)], of a float: its digits (17 significant
    ones at most), positional when the decimal point lies within
    [-4 < decpt <= 16] and in exponent notation otherwise. *)
Definition float_repr (q : Q) : string :=
  if Qeq_bool q 0 then "0.0"
  else
    let a := Qabs (Qred q) in
    let e0 := decpt a in
    let m0 := round_half_even (a * scale10 1 (17 - e0)) in
    let e := if 10 ^ 17 <=? m0 then e0 + 1 else e0 in
    let d := digits 10 (strip_zeros 18 m0) in
    let n := Z.of_nat (String.length d) in
    let body :=
      if (-4 <? e) && (e <=? 16) then
        if e <=? 0 then append "0." (append (zeros (Z.to_nat (- e))) d)
        else if n <=? e then append d (append (zeros (Z.to_nat (e - n))) ".0")
        else append (substring 0 (Z.to_nat e) d)
               (String "." (substring (Z.to_nat e) (Z.to_nat (n - e)) d))
      else
        let x := e - 1 in
        let mant :=
          match d with
          | String c EmptyString => d
          | String c r => String c (String "." r)
          | EmptyString => d
          end in
        append mant
          (append (if x <? 0 then "e-" else "e+") (pad_digits 2 (Z.abs x))) in
    if Qltb q 0 then String "-" body else body.

(** [str(x)] of a number. *)
Definition str_num (x : num) : string :=
  match x with
  | Int z => str_int z
  | Float q => float_repr q
  end.

(** ** Operations on Python objects *)

(** [v == s] for a [str] [s]: only the same string is equal to it. *)
Definition eq_str (v : value) (s : string) : bool :=
  match v with
  | VStr t => String.eqb t s
  | _ => false
  end.

(** [o.get(k, default)]: defined on a dict only. *)
Definition py_get (o : value) (k : string) (default : value) : result value :=
  match o with
  | VDict d =>
      match assoc k d with
      | Some v => Ok v
      | None => Ok default
      end
  | _ => Raise AttributeError
  end.

(** [o.get(k, default)] where the default is not a [value]: the item found,
    if any. *)
Definition py_lookup (o : value) (k : string) : result (option value) :=
  match o with
  | VDict d => Ok (assoc k d)
  | _ => Raise AttributeError
  end.

(** The items a [for] loop over [o] visits: the elements of a list, the
    keys of a dict, the characters of a string. *)
Definition py_iter (o : value) : result (list value) :=
  match o with
  | VList l => Ok l
  | VDict d => Ok (map (fun kv => VStr (fst kv)) d)
  | VStr s => Ok (map (fun c => VStr (String c EmptyString)) (list_ascii_of_string s))
  | _ => Raise TypeError
  end.

(** Truth value of an object. *)
Definition truthy (o : value) : bool :=
  match o with
  | VNone => false
  | VBool b => b
  | VInt z => negb (z =? 0)
  | VStr s => negb (String.eqb s "")
  | VList l => match l with [] => false | _ => true end
  | VDict d => match d with [] => false | _ => true end
  end.

(** [k in o] for a [str] [k]: a key of a dict, an element of a list, a
    substring of a string. *)
Definition py_in (k : string) (o : value) : result bool :=
  match o with
  | VDict d => Ok (match assoc k d with Some _ => true | None => false end)
  | VList l => Ok (existsb (fun v => eq_str v k) l)
  | VStr s => Ok (contains k s)
  | _ => Raise TypeError
  end.

(** [o[k]] for a [str] [k]. *)
Definition py_item (o : value) (k : string) : result value :=
  match o with
  | VDict d =>
      match assoc k d with
      | Some v => Ok v
      | None => Raise KeyError
      end
  | _ => Raise TypeError
  end.

(** [float(o)] *)
Definition py_float (o : value) : result Q :=
  match o with
  | VStr s => float_of_str s
  | VInt z => Ok (inject_Z z)
  | VBool b => Ok (if b then 1%Q else 0%Q)
  | _ => Raise TypeError
  end.

(** The integer a number-like object stands for in a comparison; [None]
    for the objects an [int] cannot be ordered against. *)
Definition as_int (o : value) : option Z :=
  match o with
  | VInt z => Some z
  | VBool b => Some (if b then 1 else 0)
  | _ => None
  end.

(** [a > b] for an int [a]. *)
Definition py_gt (a : Z) (b : value) : result bool :=
  match as_int b with
  | Some z => Ok (z <? a)
  | None => Raise TypeError
  end.

(** ** The outside world

    What a run of the programs reads and writes: the outcomes of the HTTP
    requests it will make (in the order it makes them), the requests it
    has posted, the records it has logged or printed, and the clock. *)

Inductive level : Type := PRINT | INFO | WARNING | ERROR.

Record http_response : Type := {
  status_code : Z;
  json : result value  (* [response.json()]: raises on a body that is not JSON *)
}.

Record world : Type := {
  network : list (result http_response);
  posted : list (string * value);
  log : list (level * string);
  now_ms : Z  (* [int(time.time() * 1000)] *)
}.

(** A program: it may read and change the world, and it returns or raises.
    Whatever it did to the world before raising stays done. *)
Definition M (A : Type) : Type := world -> result A * world.

Definition ret {A : Type} (a : A) : M A := fun w => (Ok a, w).

Definition bind {A B : Type} (c : M A) (f : A -> M B) : M B :=
  fun w =>
    match c w with
    | (Ok a, w') => f a w'
    | (Raise e, w') => (Raise e, w')
    end.

Definition raise {A : Type} (e : exn) : M A := fun w => (Raise e, w).

Definition lift {A : Type} (r : result A) : M A := fun w => (r, w).

(** [try: c except Exception as e: h e] *)
Definition try_except {A : Type} (c : M A) (h : exn -> M A) : M A :=
  fun w =>
    match c w with
    | (Ok a, w') => (Ok a, w')
    | (Raise e, w') => h e w'
    end.

Declare Scope prog_scope.
Delimit Scope prog_scope with prog.
Notation "x <- c ;; k" := (bind c (fun x => k))
  (at level 61, c at next level, right associativity) : prog_scope.
Notation "c ;; k" := (bind c (fun _ => k))
  (at level 61, right associativity) : prog_scope.

(** A log record keeps its level and the constant text of its message. *)
Definition emit (l : level) (msg : string) : M unit :=
  fun w =>
    (Ok tt, {| network := network w; posted := posted w;
               log := log w ++ [(l, msg)]; now_ms := now_ms w |}).

(** [requests.post(url, json=payload)]: the request is recorded and the
    next outcome of the network is consumed; with no outcome left the
    request fails to connect. *)
Definition requests_post (url : string) (payload : value) : M http_response :=
  fun w =>
    let w' := {| network := tl (network w);
                 posted := posted w ++ [(url, payload)];
                 log := log w; now_ms := now_ms w |} in
    match network w with
    | r :: _ => (r, w')
    | [] => (Raise RequestException, w')
    end.

Definition get_time_ms : M Z := fun w => (Ok (now_ms w), w).

(** ** eth_account

    [Account.from_key], [encode_typed_data] and [LocalAccount.sign_message]
    are functions of their arguments: the signature scheme derives its
    nonce from the key and the message. *)

Class EthAccount : Type := {
  account : Type;
  signable : Type;
  from_key : option string -> result account;
  address : account -> string;
  encode_typed_data : value -> result signable;
  sign_message : account -> signable -> result (Z * Z * Z)
}.

(** * hyperliquid_minimal_order.py *)

Module Minimal.

Section WithAccount.
Context {EA : EthAccount}.

Definition BASE_URL : string := "https://api.hyperliquid.xyz".

Definition address_to_bytes (address : string) : result bytes :=
  fromhex (lower (drop 2 address)).

Definition action_hash (action : value) (vault_address : option string)
    (nonce : Z) (expires_after : option Z) : result bytes :=
  (data <- Msgpack.packb action ;;
   n <- to_bytes_big nonce 8 ;;
   let data := data ++ n in
   data <- match vault_address with
           | None => Ok (data ++ [x00])
           | Some a =>
               let data := data ++ [x01] in
               b <- address_to_bytes a ;;
               Ok (data ++ b)
           end ;;
   data <- match expires_after with
           | Some e =>
               let data := data ++ [x00] in
               b <- to_bytes_big e 8 ;;
               Ok (data ++ b)
           | None => Ok data
           end ;;
   Ok (Keccak.keccak256 data))%result.

Definition construct_phantom_agent (hash_bytes : bytes) (is_mainnet : bool) : value :=
  VDict [ ("source", VStr (if is_mainnet then "a" else "b"));
          ("connectionId", VStr (append "0x" (bytes_hex hash_bytes))) ].

Definition l1_payload (phantom_agent : value) : value :=
  VDict
    [ ("domain",
       VDict [ ("chainId", VInt 1337);
               ("name", VStr "Exchange");
               ("verifyingContract", VStr "0x0000000000000000000000000000000000000000");
               ("version", VStr "1") ]);
      ("types",
       VDict [ ("Agent",
                VList [ VDict [("name", VStr "source"); ("type", VStr "string")];
                        VDict [("name", VStr "connectionId"); ("type", VStr "bytes32")] ]);
               ("EIP712Domain",
                VList [ VDict [("name", VStr "name"); ("type", VStr "string")];
                        VDict [("name", VStr "version"); ("type", VStr "string")];
                        VDict [("name", VStr "chainId"); ("type", VStr "uint256")];
                        VDict [("name", VStr "verifyingContract"); ("type", VStr "address")] ]) ]);
      ("primaryType", VStr "Agent");
      ("message", phantom_agent) ].

Definition sign_l1_action_exact (wallet : account) (action : value)
    (vault_address : option string) (nonce : Z) (expires_after : option Z)
    (is_mainnet : bool) : result value :=
  (hash_bytes <- action_hash action vault_address nonce expires_after ;;
   let phantom_agent := construct_phantom_agent hash_bytes is_mainnet in
   let data := l1_payload phantom_agent in
   structured_data <- encode_typed_data data ;;
   signed <- sign_message wallet structured_data ;;
   let '(r, s, v) := signed in
   Ok (VDict [ ("r", VStr (hex r)); ("s", VStr (hex s)); ("v", VInt v) ]))%result.


(** The loop of [get_asset_id]: the index of the first asset named
    [coin]. *)
Fixpoint find_asset (coin : string) (universe : list value) (i : Z)
  : result (option Z) :=
  match universe with
  | [] => Ok None
  | asset :: rest =>
      match py_get asset "name" VNone with
      | Ok name => if eq_str name coin then Ok (Some i) else find_asset coin rest (i + 1)
      | Raise e => Raise e
      end
  end.

Definition get_asset_id (coin : string) : M (option Z) :=
  (response <- requests_post (append BASE_URL "/info") (VDict [("type", VStr "meta")]) ;;
   if status_code response =? 200 then
     meta <- lift (json response) ;;
     universe <- lift (py_get meta "universe" (VList [])) ;;
     items <- lift (py_iter universe) ;;
     lift (find_asset coin items 0)
   else ret None)%prog.



End WithAccount.

End Minimal.

(** * hyperliquid_bot_executable_orders.py *)

Module Bot.

(** The attributes of [HyperliquidTradingBotExecutable] the embedded
    methods read. *)
Record bot : Type := {
  wallet_address : string;
  private_key : string;
  base_url : string
}.

Definition INFO_URL : string := "https://api.hyperliquid.xyz/info".

(** The functions nested in [sign_l1_action_exact]. *)

Definition address_to_bytes (address : string) : result bytes :=
  fromhex (lower (drop 2 address)).

Definition action_hash (action : value) (vault_address : option string)
    (nonce : Z) (expires_after : option Z) : result bytes :=
  match Msgpack.packb action with
  | Raise e => Raise e
  | Ok data =>
      match to_bytes_big nonce 8 with
      | Raise e => Raise e
      | Ok n =>
          let data := data ++ n in
          let with_vault :=
            match vault_address with
            | None => Ok (data ++ [x00])
            | Some a =>
                match address_to_bytes a with
                | Ok b => Ok ((data ++ [x01]) ++ b)
                | Raise e => Raise e
                end
            end in
          match with_vault with
          | Raise e => Raise e
          | Ok data =>
              match expires_after with
              | Some e =>
                  match to_bytes_big e 8 with
                  | Ok b => Ok (Keccak.keccak256 ((data ++ [x00]) ++ b))
                  | Raise e => Raise e
                  end
              | None => Ok (Keccak.keccak256 data)
              end
          end
      end
  end.

Definition construct_phantom_agent (hash_bytes : bytes) (is_mainnet : bool) : value :=
  VDict [ ("source", VStr (if is_mainnet then "a" else "b"));
          ("connectionId", VStr (append "0x" (bytes_hex hash_bytes))) ].

Definition l1_payload (phantom_agent : value) : value :=
  VDict
    [ ("domain",
       VDict [ ("chainId", VInt 1337);
               ("name", VStr "Exchange");
               ("verifyingContract", VStr "0x0000000000000000000000000000000000000000");
               ("version", VStr "1") ]);
      ("types",
       VDict [ ("Agent",
                VList [ VDict [("name", VStr "source"); ("type", VStr "string")];
                        VDict [("name", VStr "connectionId"); ("type", VStr "bytes32")] ]);
               ("EIP712Domain",
                VList [ VDict [("name", VStr "name"); ("type", VStr "string")];
                        VDict [("name", VStr "version"); ("type", VStr "string")];
                        VDict [("name", VStr "chainId"); ("type", VStr "uint256")];
                        VDict [("name", VStr "verifyingContract"); ("type", VStr "address")] ]) ]);
      ("primaryType", VStr "Agent");
      ("message", phantom_agent) ].

(** The loop of [_get_asset_id]. *)
Fixpoint find_index (coin : string) (universe : list value) (index : Z)
  : result (option Z) :=
  match universe with
  | [] => Ok None
  | asset :: rest =>
      match py_get asset "name" VNone with
      | Ok name =>
          if eq_str name coin then Ok (Some index)
          else find_index coin rest (index + 1)
      | Raise e => Raise e
      end
  end.

(** The loop of [_get_max_leverage]: the [maxLeverage] of the first asset
    named [coin], 10 when the asset does not carry one. *)
Fixpoint find_max_leverage (coin : string) (universe : list value)
  : result (option value) :=
  match universe with
  | [] => Ok None
  | asset :: rest =>
      match py_get asset "name" VNone with
      | Ok name =>
          if eq_str name coin then
            match py_get asset "maxLeverage" (VInt 10) with
            | Ok m => Ok (Some m)
            | Raise e => Raise e
            end
          else find_max_leverage coin rest
      | Raise e => Raise e
      end
  end.

(** The loop of [execute_real_order] that looks the reference price up:
    [float(markPx)] of the first asset named [coin], with [price] for an
    asset without [markPx]; [None] when no asset is named [coin]. *)
Fixpoint find_mark_price (coin : string) (universe : list value) (price : Q)
  : result (option Q) :=
  match universe with
  | [] => Ok None
  | asset :: rest =>
      match py_get asset "name" VNone with
      | Ok name =>
          if eq_str name coin then
            match py_lookup asset "markPx" with
            | Raise e => Raise e
            | Ok None => Ok (Some price)
            | Ok (Some v) =>
                match py_float v with
                | Ok q => Ok (Some q)
                | Raise e => Raise e
                end
            end
          else find_mark_price coin rest price
      | Raise e => Raise e
      end
  end.

(** [asset_id_to_coin.get(asset_id)] *)
Definition asset_id_to_coin (asset_id : Z) : option string :=
  if asset_id =? 0 then Some "BTC"
  else if asset_id =? 1 then Some "ETH"
  else if asset_id =? 5 then Some "SOL"
  else if asset_id =? 7 then Some "BNB"
  else if asset_id =? 65 then Some "ADA"
  else None.

(** [default_tick_sizes.get(asset_id, 0.01)] *)
Definition default_tick_sizes (asset_id : Z) : num :=
  if asset_id =? 0 then Float (1 # 10)
  else if asset_id =? 1 then Float (1 # 100)
  else if asset_id =? 5 then Float (1 # 1000)
  else if asset_id =? 7 then Float (1 # 100)
  else if asset_id =? 65 then Float (1 # 100000)
  else Float (1 # 100).

(** [default_precision.get(asset_id, 2)] *)
Definition default_precision (asset_id : Z) : nat :=
  if asset_id =? 0 then 1
  else if asset_id =? 1 then 2
  else if asset_id =? 5 then 3
  else if asset_id =? 7 then 2
  else if asset_id =? 65 then 5
  else 2.

(** The number of decimals of a market price, lines 1234 and 1235. *)
Definition decimal_places_of (price_float : Q) : nat :=
  let price_str_clean := rstrip "." (rstrip "0" (format_fixed price_float 10)) in
  if has_char "." price_str_clean
  then String.length (nth 1 (split "." price_str_clean) EmptyString)
  else O.

(** The loop over [statuses] of [execute_real_order]: [false] when an
    entry holds an error, which is logged before the method returns
    [False]; [true] when the loop ends without finding one. *)
Fixpoint statuses_ok (statuses : list value) : M bool :=
  match statuses with
  | [] => ret true
  | status :: rest =>
      (found <- lift (py_in "error" status) ;;
       if found then
         _ <- lift (py_item status "error") ;;
         emit ERROR "Order rejected by Hyperliquid" ;;
         ret false
       else statuses_ok rest)%prog
  end.

Section WithAccount.
Context {EA : EthAccount}.

Definition sign_l1_action_exact (self : bot) (action : value)
    (vault_address : option string) (nonce : Z) (expires_after : option Z)
    (is_mainnet : bool) : M value :=
  (account <- lift (from_key (Some (private_key self))) ;;
   emit INFO "Wallet generada desde private key" ;;
   emit INFO "Wallet address esperada" ;;
   hash_bytes <- lift (action_hash action vault_address nonce expires_after) ;;
   let phantom_agent := construct_phantom_agent hash_bytes is_mainnet in
   let data := l1_payload phantom_agent in
   structured_data <- lift (encode_typed_data data) ;;
   signed <- lift (sign_message account structured_data) ;;
   let '(r, s, v) := signed in
   ret (VDict [ ("r", VStr (hex r)); ("s", VStr (hex s)); ("v", VInt v) ]))%prog.

Definition _get_asset_id (self : bot) (coin : string) : M (option Z) :=
  try_except
    (response <- requests_post INFO_URL (VDict [("type", VStr "meta")]) ;;
     if status_code response =? 200 then
       data <- lift (json response) ;;
       universe <- lift (py_get data "universe" (VList [])) ;;
       items <- lift (py_iter universe) ;;
       found <- lift (find_index coin items 0) ;;
       match found with
       | Some index => emit INFO "Found asset ID" ;; ret (Some index)
       | None => emit ERROR "Coin not found in Hyperliquid universe" ;; ret None
       end
     else
       emit ERROR "Failed to get asset IDs" ;; ret None)%prog
    (fun e => emit ERROR "Error getting asset ID" ;; ret None)%prog.

Definition _get_tick_size_and_precision (self : bot) (asset_id : Z) : M (num * nat) :=
  try_except
    (response <- requests_post INFO_URL (VDict [("type", VStr "allMids")]) ;;
     from_market <-
       (if status_code response =? 200 then
          market_data <- lift (json response) ;;
          match asset_id_to_coin asset_id with
          | Some coin =>
              listed <- lift (py_in coin market_data) ;;
              if listed then
                price_str <- lift (py_item market_data coin) ;;
                if truthy price_str then
                  price_float <- lift (py_float price_str) ;;
                  let decimal_places := decimal_places_of price_float in
                  let tick_size := ten_pow_neg decimal_places in
                  emit INFO "Asset ID: tick_size, precision (market price)" ;;
                  ret (Some (tick_size, decimal_places))
                else ret None
              else ret None
          | None => ret None
          end
        else ret None) ;;
     match from_market with
     | Some r => ret r
     | None =>
         let tick_size := default_tick_sizes asset_id in
         let precision := default_precision asset_id in
         emit INFO "Using market-based default for asset ID" ;;
         ret (tick_size, precision)
     end)%prog
    (fun e =>
       emit ERROR "Error getting tick size for asset" ;;
       if asset_id =? 65 then ret (Float (1 # 100000), 5%nat)
       else ret (Float (1 # 100), 2%nat))%prog.

Definition _get_max_leverage (self : bot) (coin : string) : M value :=
  try_except
    (response <- requests_post INFO_URL (VDict [("type", VStr "meta")]) ;;
     if status_code response =? 200 then
       data <- lift (json response) ;;
       universe <- lift (py_get data "universe" (VList [])) ;;
       items <- lift (py_iter universe) ;;
       found <- lift (find_max_leverage coin items) ;;
       match found with
       | Some max_leverage => emit INFO "Max leverage" ;; ret max_leverage
       | None =>
           emit WARNING "Could not find max leverage, using default 10x" ;;
           ret (VInt 10)
       end
     else
       emit WARNING "Failed to get max leverage, using default 10x" ;;
       ret (VInt 10))%prog
    (fun e => emit ERROR "Error getting max leverage" ;; ret (VInt 10))%prog.

(** Lines 962 to 1000 of [execute_real_order]: the limit price, and the
    reference price when the block has bound it (line 973).  The source has
    one handler; it is written twice here, once for the statements before
    line 973, where [reference_price] is still unbound, and once for those
    after it. *)
Definition limit_price_block (coin : string) (is_buy : bool) (price : Q)
  : M (Q * option Q) :=
  let handler : M unit :=
    emit WARNING "Error getting reference price, using market price" in
  try_except
    (response <- requests_post INFO_URL (VDict [("type", VStr "meta")]) ;;
     if status_code response =? 200 then
       data <- lift (json response) ;;
       universe <- lift (py_get data "universe" (VList [])) ;;
       try_except
         (items <- lift (py_iter universe) ;;
          found <- lift (find_mark_price coin items price) ;;
          reference_price <-
            match found with
            | Some q => emit INFO "Hyperliquid reference price" ;; ret q
            | None => ret price
            end ;;
          let max_deviation := (reference_price * (5 # 100))%Q in
          let limit_price :=
            if is_buy
            then py_min price (reference_price + max_deviation * (5 # 10))%Q
            else py_max price (reference_price - max_deviation * (5 # 10))%Q in
          let limit_price :=
            py_max (reference_price - max_deviation)%Q
              (py_min limit_price (reference_price + max_deviation)%Q) in
          ret (limit_price, Some reference_price))
         (fun e => handler ;; ret (price, Some price))
     else
       emit WARNING "Could not get reference price, using market price" ;;
       ret (price, None))%prog
    (fun e => handler ;; ret (price, None))%prog.

(** Lines 1004 and 1005: rounding to the tick size, then to the precision. *)
Definition round_to_tick (limit_price : Q) (tick_size : num) (precision : nat) : num :=
  let limit_price :=
    int_mul_num (round_half_even (limit_price / num_Q tick_size)) tick_size in
  round_ndigits limit_price precision.

(** Lines 1011 to 1038: the wire order. *)
Definition order_wire (coin : string) (asset_id : Z) (is_buy : bool)
    (limit_price : num) (size : Q) : value :=
  if String.eqb coin "ADA" then
    VDict [ ("a", VInt asset_id);
            ("b", VBool is_buy);
            ("p", VStr (str_num limit_price));
            ("s", VStr (str_int (int_of_float size)));
            ("r", VBool false);
            ("t", VDict [("limit", VDict [("tif", VStr "Gtc")])]) ]
  else
    VDict [ ("a", VInt asset_id);
            ("b", VBool is_buy);
            ("p", VStr (str_num limit_price));
            ("s", VStr (float_repr size));
            ("r", VBool false);
            ("t", VDict [("limit", VDict [("tif", VStr "Gtc")])]) ].

(** Lines 1087 to 1107: what the method returns for the response of the
    exchange. *)
Definition order_outcome (response : http_response) : M bool :=
  (if status_code response =? 200 then
     result <- lift (json response) ;;
     status <- lift (py_get result "status" VNone) ;;
     if eq_str status "ok" then
       response_data <- lift (py_get result "response" (VDict [])) ;;
       data <- lift (py_get response_data "data" (VDict [])) ;;
       statuses <- lift (py_get data "statuses" (VList [])) ;;
       clean <-
         (if truthy statuses then
            items <- lift (py_iter statuses) ;;
            statuses_ok items
          else ret true) ;;
       if clean then emit INFO "ORDEN REAL EXITOSA!" ;; ret true
       else ret false
     else
       emit ERROR "Order failed" ;; ret false
   else
     emit ERROR "HTTP Error" ;; ret false)%prog.

Definition execute_real_order (self : bot) (coin side : string) (size price : Q)
  : M bool :=
  try_except
    (emit INFO "EXECUTING REAL ORDER" ;;
     asset_id <- _get_asset_id self coin ;;
     match asset_id with
     | None => emit ERROR "Could not find asset ID" ;; ret false
     | Some asset_id =>
         let is_buy := String.eqb (lower side) "buy" in
         emit INFO "Getting reference price from Hyperliquid..." ;;
         priced <- limit_price_block coin is_buy price ;;
         let '(limit_price, reference_price) := priced in
         ticks <- _get_tick_size_and_precision self asset_id ;;
         let '(tick_size, precision) := ticks in
         let limit_price := round_to_tick limit_price tick_size precision in
         match reference_price with
         | Some _ => emit INFO "Using limit price"
         | None => raise NameError
         end ;;
         let order_wire := order_wire coin asset_id is_buy limit_price size in
         let action :=
           VDict [ ("type", VStr "order");
                   ("orders", VList [order_wire]);
                   ("grouping", VStr "na") ] in
         nonce <- get_time_ms ;;
         emit INFO "Firmando con esquema EIP-712 exacto..." ;;
         signature <- sign_l1_action_exact self action None nonce None true ;;
         emit INFO "Firma EIP-712 generada correctamente" ;;
         let payload :=
           VDict [ ("action", action);
                   ("nonce", VInt nonce);
                   ("signature", signature);
                   ("vaultAddress", VNone) ] in
         emit INFO "Payload completo" ;;
         response <- requests_post (append (base_url self) "/exchange") payload ;;
         emit INFO "Status" ;;
         emit INFO "Response" ;;
         order_outcome response
     end)%prog
    (fun e => emit ERROR "Error executing real order" ;; ret false)%prog.

Definition set_leverage (self : bot) (coin : string) (leverage : Z) : M bool :=
  try_except
    (asset_id <- _get_asset_id self coin ;;
     match asset_id with
     | None => emit ERROR "Could not find asset ID" ;; ret false
     | Some asset_id =>
         max_leverage <- _get_max_leverage self coin ;;
         above <- lift (py_gt leverage max_leverage) ;;
         leverage <-
           (if above then
              emit WARNING "Leverage limited" ;; ret max_leverage
            else ret (VInt leverage)) ;;
         let action :=
           VDict [ ("type", VStr "updateLeverage");
                   ("asset", VInt asset_id);
                   ("isCross", VBool true);
                   ("leverage", leverage) ] in
         nonce <- get_time_ms ;;
         signature <- sign_l1_action_exact self action None nonce None true ;;
         let payload :=
           VDict [ ("action", action);
                   ("nonce", VInt nonce);
                   ("signature", signature);
                   ("vaultAddress", VNone) ] in
         emit INFO "Setting leverage" ;;
         response <- requests_post (append (base_url self) "/exchange") payload ;;
         if status_code response =? 200 then
           result <- lift (json response) ;;
           status <- lift (py_get result "status" VNone) ;;
           if eq_str status "ok" then
             emit INFO "Leverage set successfully" ;; ret true
           else
             emit ERROR "Failed to set leverage" ;; ret false
         else
           emit ERROR "HTTP Error setting leverage" ;; ret false
     end)%prog
    (fun e => emit ERROR "Error setting leverage" ;; ret false)%prog.

End WithAccount.

End Bot.

(** * Vocabulary of the statements *)

(** Hexadecimal digits, of either case. *)
Definition is_hex (c : ascii) : bool :=
  match hex_value c with Some _ => true | None => false end.

Fixpoint all_hex (s : string) : bool :=
  match s with
  | EmptyString => true
  | String c r => is_hex c && all_hex r
  end.

Definition hex_char_ok (c : ascii) : bool :=
  if is_hex c then
    negb (is_space (lower_char c)) &&
    match hex_value (lower_char c) with
    | Some h => (0 <=? h) && (h <? 16) && Ascii.eqb (hex_digit h) (lower_char c)
    | None => false
    end
  else true.

(** A well-formed account address: [0x] and forty hexadecimal digits. *)
Definition is_address (a : string) : bool :=
  String.prefix "0x" a && (String.length a =? 42)%nat && all_hex (drop 2 a).

(** [bs] is [n] as 8 bytes, big-endian, unsigned. *)
Definition is_u64_be (bs : bytes) (n : Z) : Prop :=
  List.length bs = 8%nat /\ Z_of_be bs = n.

(** [bs] is the 20 raw bytes of the address [a]: the bytes whose
    hexadecimal form is [a] lowercased and stripped of its prefix. *)
Definition is_raw_address (bs : bytes) (a : string) : Prop :=
  List.length bs = 20%nat /\ bytes_hex bs = lower (drop 2 a).

(** The vault marker of the hashed layout. *)
Definition is_vault_marker (bs : bytes) (vault_address : option string) : Prop :=
  match vault_address with
  | None => bs = [x00]
  | Some a => exists raw, is_raw_address raw a /\ bs = x01 :: raw
  end.

(** The expiry marker of the hashed layout. *)
Definition is_expiry_marker (bs : bytes) (expires_after : option Z) : Prop :=
  match expires_after with
  | None => bs = []
  | Some e => exists b, is_u64_be b e /\ bs = x00 :: b
  end.

Definition vault_ok (vault_address : option string) : Prop :=
  match vault_address with
  | None => True
  | Some a => is_address a = true
  end.

Definition expiry_ok (expires_after : option Z) : Prop :=
  match expires_after with
  | None => True
  | Some e => 0 <= e < 2 ^ 64
  end.

(** The action of the end-to-end scenario of the specification. *)
Definition sample_order : value :=
  VDict [ ("type", VStr "order");
          ("orders",
           VList [ VDict [ ("a", VInt 0); ("b", VBool true);
                           ("p", VStr "100.00"); ("s", VStr "0.01");
                           ("r", VBool false);
                           ("t", VDict [("limit", VDict [("tif", VStr "Gtc")])]) ] ]);
          ("grouping", VStr "na") ].

Definition sample_vault : string := "0xAbCdEf0123456789aBcDeF0123456789abcdef01".

(** The fixed parts of the typed-data document. *)
Definition fixed_domain : value :=
  VDict [ ("chainId", VInt 1337);
          ("name", VStr "Exchange");
          ("verifyingContract", VStr (append "0x" (zeros 40)));
          ("version", VStr "1") ].

Definition field (name type : string) : value :=
  VDict [("name", VStr name); ("type", VStr type)].

Definition fixed_types : value :=
  VDict [ ("Agent", VList [ field "source" "string";
                            field "connectionId" "bytes32" ]);
          ("EIP712Domain", VList [ field "name" "string";
                                   field "version" "string";
                                   field "chainId" "uint256";
                                   field "verifyingContract" "address" ]) ].

Definition phantom_agent (digest : bytes) (is_mainnet : bool) : value :=
  VDict [ ("source", VStr (if is_mainnet then "a" else "b"));
          ("connectionId", VStr (append "0x" (bytes_hex digest))) ].

Definition is_lower_hex (c : ascii) : bool :=
  let n := code c in
  ((48 <=? n) && (n <=? 57)) || ((97 <=? n) && (n <=? 102)).

Fixpoint all_lower_hex (s : string) : bool :=
  match s with
  | EmptyString => true
  | String c r => is_lower_hex c && all_lower_hex r
  end.

Definition hex_digit_ok (z : Z) : bool :=
  is_lower_hex (hex_digit z) && negb (is_space (hex_digit z)) &&
  match hex_value (hex_digit z) with
  | Some h => h =? z
  | None => false
  end.

(** A stand-in for [eth_account], used to run the programs on concrete
    inputs: an account is its key, and a signature is made of two Keccak
    digests of the key and the encoded message.  It is not ECDSA. *)
Definition toy_digest (bs : bytes) (doc : value) : Z :=
  match Msgpack.packb doc with
  | Ok ser => Z_of_be (Keccak.keccak256 (bs ++ ser))
  | Raise _ => 0
  end.

Definition toy_account : EthAccount := {|
  account := string;
  signable := value;
  from_key := fun k =>
    match k with
    | Some s => Ok s
    | None => Raise TypeError
    end;
  address := fun a => a;
  encode_typed_data := fun doc => Ok doc;
  sign_message := fun a doc =>
    Ok (toy_digest (utf8 a) doc, toy_digest (x01 :: utf8 a) doc, 27)
|}.

Definition sample_bot : Bot.bot := {|
  Bot.wallet_address := sample_vault;
  Bot.private_key := "0x0101010101010101010101010101010101010101010101010101010101010101";
  Bot.base_url := "https://api.hyperliquid.xyz"
|}.

Definition empty_world : world :=
  {| network := []; posted := []; log := []; now_ms := 1700000000000 |}.

(** The UTF-8 bytes of one character, and their decoding. *)
Definition utf8_char (c : ascii) : bytes := utf8 (String c EmptyString).

Definition utf8_decode1 (bs : bytes) : option (ascii * bytes) :=
  match bs with
  | [] => None
  | b :: r =>
      let n := Z_of_byte b in
      if n <? 128 then Some (chr n, r)
      else
        match r with
        | [] => None
        | b2 :: r2 =>
            Some (chr (Z.lor (Z.shiftl (Z.land n 3) 6) (Z.land (Z_of_byte b2) 63)), r2)
        end
  end.

Definition utf8_char_ok (c : ascii) : bool :=
  match utf8_decode1 (utf8_char c) with
  | Some (c', []) => Ascii.eqb c' c
  | _ => false
  end.

(** The length a string header announces. *)
Definition str_header_decode (bs : bytes) : option Z :=
  match bs with
  | [] => None
  | b :: r =>
      let n := Z_of_byte b in
      if (160 <=? n) && (n <? 192) then Some (n - 160)
      else if n =? 217 then Some (Z_of_be (firstn 1 r))
      else if n =? 218 then Some (Z_of_be (firstn 2 r))
      else if n =? 219 then Some (Z_of_be (firstn 4 r))
      else None
  end.

(** The items of a dict. *)
Definition items (o : value) : list (string * value) :=
  match o with
  | VDict d => d
  | _ => []
  end.

(** The sample order with its fields inserted in the opposite order. *)
Definition reordered_order : value := VDict (rev (items sample_order)).





(** The value of a field of a dict. *)
Definition field_of (k : string) (o : value) : option value := assoc k (items o).

(** No entry of the statuses holds an error. *)
Definition no_error (entries : list value) : Prop :=
  Forall (fun entry => py_in "error" entry = Ok false) entries.

(** What the bot accepts as a successful answer of the exchange: HTTP 200,
    a body whose status is ok, and statuses (when there are any) without an
    error. *)
Definition accepted (response : http_response) : Prop :=
  status_code response = 200 /\
  exists result status response_data data statuses,
    json response = Ok result /\
    py_get result "status" VNone = Ok status /\ eq_str status "ok" = true /\
    py_get result "response" (VDict []) = Ok response_data /\
    py_get response_data "data" (VDict []) = Ok data /\
    py_get data "statuses" (VList []) = Ok statuses /\
    (truthy statuses = false \/
     exists entries, py_iter statuses = Ok entries /\ no_error entries).

(** The two information requests of the bot. *)
Definition meta_request : string * value :=
  (Bot.INFO_URL, VDict [("type", VStr "meta")]).

Definition mids_request : string * value :=
  (Bot.INFO_URL, VDict [("type", VStr "allMids")]).

(** [w'] is [w] after some logging and nothing else. *)
Definition only_logs (w w' : world) : Prop :=
  network w' = network w /\ posted w' = posted w /\ now_ms w' = now_ms w /\
  exists l, log w' = log w ++ l.

(** [w'] is [w] after the one request [req], its answer consumed, and some
    logging. *)
Definition requested (req : string * value) (w w' : world) : Prop :=
  network w' = tl (network w) /\ posted w' = posted w ++ [req] /\
  now_ms w' = now_ms w /\ exists l, log w' = log w ++ l.

(** The next request of the world fails: it raises or is answered with a
    status other than 200. *)
Definition fetch_fails (w : world) : Prop :=
  match network w with
  | [] => True
  | Raise _ :: _ => True
  | Ok response :: _ => status_code response <> 200
  end.

(** The asset is named [coin]. *)
Definition named (coin : string) (asset : value) : Prop :=
  exists name, py_get asset "name" VNone = Ok name /\ eq_str name coin = true.

(** The entries of the universe of a metadata answer. *)
Definition universe_of (response : http_response) (entries : list value) : Prop :=
  status_code response = 200 /\
  exists data universe,
    json response = Ok data /\
    py_get data "universe" (VList []) = Ok universe /\
    py_iter universe = Ok entries.

(** [limit] lies within 5 percent of [reference]. *)
Definition in_band (reference limit : Q) : Prop :=
  (Qabs (limit - reference) <= (5 # 100) * Qabs reference)%Q.

(** The bias of the limit price: a buy is capped 2.5 percent above a
    non-negative reference, a sell is floored 2.5 percent below it. *)
Definition biased (is_buy : bool) (reference limit : Q) : Prop :=
  (0 <= reference)%Q ->
  if is_buy then (limit <= reference + (25 # 1000) * reference)%Q
  else (reference - (25 # 1000) * reference <= limit)%Q.

(** Where a reference price comes from: the mark price of an asset named
    [coin] in the answer [outcome] to the metadata request, or else the
    price the caller intends. *)
Definition reference_source (coin : string) (price : Q)
    (outcome : option (result http_response)) (reference : Q) : Prop :=
  reference = price \/
  exists response entries asset v,
    outcome = Some (Ok response) /\ universe_of response entries /\
    In asset entries /\ named coin asset /\
    py_lookup asset "markPx" = Ok (Some v) /\ py_float v = Ok reference.

(** The tick size and precision the bot falls back to when it cannot read
    the market prices: its table when the request is answered with a
    status other than 200, the pair of its handler when the request
    raises. *)
Definition fallback_ticks (w : world) (asset_id : Z) : num * nat :=
  match network w with
  | Ok _ :: _ => (Bot.default_tick_sizes asset_id, Bot.default_precision asset_id)
  | _ => if asset_id =? 65 then (Float (1 # 100000), 5%nat) else (Float (1 # 100), 2%nat)
  end.

(** The level of the record logged on that fallback. *)
Definition fallback_level (w : world) : level :=
  match network w with
  | Ok _ :: _ => INFO
  | _ => ERROR
  end.

(** The payload the bot posts to the exchange. *)
Definition signed_payload (action : value) (nonce : Z) (signature : value) : value :=
  VDict [ ("action", action);
          ("nonce", VInt nonce);
          ("signature", signature);
          ("vaultAddress", VNone) ].

Definition order_action (wire : value) : value :=
  VDict [ ("type", VStr "order"); ("orders", VList [wire]); ("grouping", VStr "na") ].

Definition leverage_action (asset_id : Z) (leverage : value) : value :=
  VDict [ ("type", VStr "updateLeverage");
          ("asset", VInt asset_id);
          ("isCross", VBool true);
          ("leverage", leverage) ].

(** Where a maximum leverage comes from: the [maxLeverage] of an asset
    named [coin] in the answer [outcome] to the metadata request (10 when
    the asset carries none), or else the default 10. *)
Definition max_leverage_source (coin : string)
    (outcome : option (result http_response)) (max_leverage : value) : Prop :=
  max_leverage = VInt 10 \/
  exists response entries asset,
    outcome = Some (Ok response) /\ universe_of response entries /\
    In asset entries /\ named coin asset /\
    py_get asset "maxLeverage" (VInt 10) = Ok max_leverage.

Definition exchange_url (self : Bot.bot) : string :=
  append (Bot.base_url self) "/exchange".

(** The side of an order is a buy. *)
Definition is_buy_side (side : string) : bool := String.eqb (lower side) "buy".

(** A request that carries a signed action, and those posted between two
    worlds. *)
Definition carries_action (req : string * value) : bool :=
  match field_of "action" (snd req) with
  | Some _ => true
  | None => false
  end.

Definition signed_requests (w w' : world) : list (string * value) :=
  filter carries_action (skipn (List.length (posted w)) (posted w')).

(** Answers of the exchange used to run the bot. *)
Definition priced_meta_response : http_response := {|
  status_code := 200;
  json := Ok (VDict [ ("universe",
                       VList [ VDict [ ("name", VStr "BTC"); ("maxLeverage", VInt 40);
                                       ("markPx", VStr "100000") ];
                               VDict [ ("name", VStr "ETH"); ("maxLeverage", VInt 25);
                                       ("markPx", VStr "100") ];
                               VDict [ ("name", VStr "XRP"); ("maxLeverage", VInt 20) ] ]) ])
|}.

Definition mids_response : http_response := {|
  status_code := 200;
  json := Ok (VDict [ ("BTC", VStr "100000.5"); ("ETH", VStr "100.25");
                      ("XRP", VStr "0.5231") ])
|}.

Definition unavailable_response : http_response :=
  {| status_code := 503; json := Raise ValueError |}.

Definition accepted_response : http_response := {|
  status_code := 200;
  json := Ok (VDict [ ("status", VStr "ok");
                      ("response",
                       VDict [ ("type", VStr "order");
                               ("data",
                                VDict [ ("statuses",
                                         VList [ VDict [("resting",
                                                         VDict [("oid", VInt 77)])] ]) ]) ]) ])
|}.

Definition leverage_response : http_response := {|
  status_code := 200;
  json := Ok (VDict [ ("status", VStr "ok");
                      ("response", VDict [ ("type", VStr "default") ]) ])
|}.

(** The world of an order that goes through. *)
Definition trading_world : world := {|
  network := [ Ok priced_meta_response; Ok priced_meta_response;
               Ok mids_response; Ok accepted_response ];
  posted := [];
  log := [];
  now_ms := 1700000000000
|}.

(** The same world, but the market prices cannot be fetched. *)
Definition no_mids_world : world := {|
  network := [ Ok priced_meta_response; Ok priced_meta_response;
               Ok unavailable_response; Ok accepted_response ];
  posted := [];
  log := [];
  now_ms := 1700000000000
|}.


(** The wire order, the price string and the leverage a request carries. *)
Definition wire_of (req : string * value) : option value :=
  match field_of "action" (snd req) with
  | Some action =>
      match field_of "orders" action with
      | Some (VList (wire :: _)) => Some wire
      | _ => None
      end
  | None => None
  end.

Definition price_of (req : string * value) : option value :=
  match wire_of req with
  | Some wire => field_of "p" wire
  | None => None
  end.

Definition leverage_of (req : string * value) : option value :=
  match field_of "action" (snd req) with
  | Some action => field_of "leverage" action
  | None => None
  end.

Definition is_warning (record : level * string) : bool :=
  match fst record with
  | WARNING => true
  | _ => false
  end.

(** A world in which the mark price of ETH is 100.001. *)
Definition fine_world : world := {|
  network :=
    [ Ok priced_meta_response;
      Ok {| status_code := 200;
            json := Ok (VDict [ ("universe",
                                 VList [ VDict [ ("name", VStr "ETH");
                                                 ("markPx", VStr "100.001") ] ]) ]) |};
      Ok mids_response; Ok accepted_response ];
  posted := [];
  log := [];
  now_ms := 1700000000000
|}.

(** * technical_analyzer_simple.py

    The indicators of [SimpleTechnicalFetcher], which the bot's
    [get_all_market_data] calls through [get_technical_indicators].  A
    list of floats is a [list Q]; a period is a non-negative [int]; a
    computation that divides or indexes returns an [option], where [None]
    stands for the [ZeroDivisionError] or the [IndexError] it raises. *)

Module Analyzer.

(** [a / b] *)
Definition py_div (a b : Q) : option Q :=
  if Qeq_bool b 0 then None else Some (a / b)%Q.

(** [sum(l)] *)
Definition sum (l : list Q) : Q := fold_left Qplus l 0%Q.

(** The loop of [calculate_ema] over [i]. *)
Fixpoint ema_loop (prices : list Q) (multiplier : Q) (indices : list nat)
    (ema_values : list Q) : option (list Q) :=
  match indices with
  | [] => Some ema_values
  | i :: rest =>
      match nth_error prices i, nth_error ema_values (i - 1) with
      | Some p, Some previous =>
          let ema := (p * multiplier + previous * (1 - multiplier))%Q in
          ema_loop prices multiplier rest (ema_values ++ [ema])
      | _, _ => None
      end
  end.

Definition calculate_ema (prices : list Q) (period : nat) : option (list Q) :=
  if (List.length prices <? period)%nat then Some (repeat 0%Q (List.length prices))
  else
    match py_div 2 (inject_Z (Z.of_nat period + 1)) with
    | None => None
    | Some multiplier =>
        match py_div (sum (firstn period prices)) (inject_Z (Z.of_nat period)) with
        | None => None
        | Some sma =>
            let ema_values := repeat sma (period - 1) ++ [sma] in
            ema_loop prices multiplier
              (seq period (List.length prices - period)) ema_values
        end
    end.

Definition calculate_macd (prices : list Q) (fast slow signal : nat)
  : option (list Q * list Q * list Q) :=
  match calculate_ema prices fast with
  | None => None
  | Some ema_fast =>
      match calculate_ema prices slow with
      | None => None
      | Some ema_slow =>
          let macd_line :=
            map (fun '(fast_val, slow_val) => (fast_val - slow_val)%Q)
              (combine ema_fast ema_slow) in
          match calculate_ema macd_line signal with
          | None => None
          | Some signal_line =>
              let histogram :=
                map (fun '(macd, signal) => (macd - signal)%Q)
                  (combine macd_line signal_line) in
              Some (macd_line, signal_line, histogram)
          end
      end
  end.

(** The inner loop of [calculate_rsi] over [j]. *)
Fixpoint rsi_window (prices : list Q) (js : list nat) (gains losses : list Q)
  : option (list Q * list Q) :=
  match js with
  | [] => Some (gains, losses)
  | j :: rest =>
      let change :=
        if (0 <? j)%nat then
          match nth_error prices j, nth_error prices (j - 1) with
          | Some a, Some b => Some (a - b)%Q
          | _, _ => None
          end
        else Some 0%Q in
      match change with
      | None => None
      | Some change =>
          if Qltb 0 change then rsi_window prices rest (gains ++ [change]) losses
          else rsi_window prices rest gains (losses ++ [Qabs change])
      end
  end.

(** The value appended for one [i]. *)
Definition rsi_at (prices : list Q) (period i : nat) : option Q :=
  match rsi_window prices (seq (i - period + 1) period) [] [] with
  | None => None
  | Some (gains, losses) =>
      let avg_gain :=
        match gains with
        | [] => Some 0%Q
        | _ => py_div (sum gains) (inject_Z (Z.of_nat period))
        end in
      let avg_loss :=
        match losses with
        | [] => Some 0%Q
        | _ => py_div (sum losses) (inject_Z (Z.of_nat period))
        end in
      match avg_gain, avg_loss with
      | Some avg_gain, Some avg_loss =>
          if Qeq_bool avg_loss 0 then Some 100%Q
          else
            match py_div avg_gain avg_loss with
            | None => None
            | Some rs =>
                match py_div 100 (1 + rs) with
                | None => None
                | Some q => Some (100 - q)%Q
                end
            end
      | _, _ => None
      end
  end.

(** The outer loop of [calculate_rsi] over [i]. *)
Fixpoint rsi_loop (prices : list Q) (period : nat) (indices : list nat)
    (rsi_values : list Q) : option (list Q) :=
  match indices with
  | [] => Some rsi_values
  | i :: rest =>
      match rsi_at prices period i with
      | None => None
      | Some rsi => rsi_loop prices period rest (rsi_values ++ [rsi])
      end
  end.

Definition calculate_rsi (prices : list Q) (period : nat) : option (list Q) :=
  if (List.length prices <=? period)%nat then Some (repeat 50%Q (List.length prices))
  else
    rsi_loop prices period (seq period (List.length prices - period))
      (repeat 50%Q period).

End Analyzer.

(** * hyperliquid_bot_executable_orders.py: the portfolio, the risk check
      and the executable orders

    More conventions.

    - A [Decimal] is an exact rational: the precision and the exponent
      range of the decimal context and the non-finite decimals are not
      represented.  The strings [Decimal(...)] reads are those [float(...)]
      reads.  [decimal.InvalidOperation], which [Decimal(...)] raises
      inside [get_portfolio_state] and which its handler does not tell
      from another exception, is [ValueError] there.
    - An order of the language model is a dict that holds the fields of
      [ExecutableOrder] with their types: the action and the reasoning are
      [str], the size and the confidence are [float], the leverage is an
      [int]. *)

Module Orders.

(** The fields of the dict a position is stored as. *)
Record position : Type := {
  position_size : Q;
  entry_price : Q;
  unrealized_pnl : Q;
  margin_used : Q;
  position_leverage : Q;
  position_value : Q
}.

Record PortfolioState : Type := {
  total_balance : Q;
  available_balance : Q;
  margin_usage : Q;
  positions : list (value * position)  (* a dict, in insertion order *)
}.

Record order : Type := {
  action : string;
  size : Q;
  leverage : Z;
  confidence : Q;
  reasoning : string
}.

(** [PortfolioState(Decimal('0'), Decimal('0'), Decimal('0'), {})] *)
Definition empty_portfolio : PortfolioState :=
  {| total_balance := 0; available_balance := 0; margin_usage := 0; positions := [] |}.

(** [Decimal(str(v))] *)
Definition decimal_of (v : value) : result Q :=
  match v with
  | VStr s => float_of_str s
  | VInt z => Ok (inject_Z z)
  | _ => Raise ValueError
  end.

(** [Decimal(str(o.get(k, default)))] *)
Definition decimal_get (o : value) (k : string) (default : Q) : result Q :=
  (v <- py_lookup o k ;;
   match v with
   | Some v => decimal_of v
   | None => Ok default
   end)%result.

(** Keys of a dict: [True] and [1] are the same key. *)
Definition key_eqb (a b : value) : bool :=
  match a, b with
  | VStr s, VStr t => String.eqb s t
  | _, _ =>
      match as_int a, as_int b with
      | Some x, Some y => x =? y
      | _, _ => false
      end
  end.

(** [d[k] = v]: a list or a dict is not hashable. *)
Fixpoint dict_update {A : Type} (d : list (value * A)) (k : value) (v : A)
  : list (value * A) :=
  match d with
  | [] => [(k, v)]
  | (k', v') :: r =>
      if key_eqb k' k then (k', v) :: r else (k', v') :: dict_update r k v
  end.

Definition dict_set {A : Type} (d : list (value * A)) (k : value) (v : A)
  : result (list (value * A)) :=
  match k with
  | VList _ | VDict _ => Raise TypeError
  | _ => Ok (dict_update d k v)
  end.

(** [d.get(k)] for a [str] [k]. *)
Fixpoint dict_get {A : Type} (d : list (value * A)) (k : string) : option A :=
  match d with
  | [] => None
  | (k', v) :: r => if key_eqb k' (VStr k) then Some v else dict_get r k
  end.

(** The loop over [asset_positions], lines 179 to 202. *)
Fixpoint read_positions (asset_positions : list value)
    (positions : list (value * position)) : result (list (value * position)) :=
  match asset_positions with
  | [] => Ok positions
  | position :: rest =>
      (position_data <- py_get position "position" (VDict []) ;;
       coin <- py_get position_data "coin" (VStr "") ;;
       if truthy coin then
         size <- decimal_get position_data "szi" 0 ;;
         entry_price <- decimal_get position_data "entryPx" 0 ;;
         unrealized_pnl <- decimal_get position_data "unrealizedPnl" 0 ;;
         margin_used <- decimal_get position_data "marginUsed" 0 ;;
         leverage_data <- py_get position_data "leverage" (VDict []) ;;
         leverage <- (if truthy leverage_data
                      then decimal_get leverage_data "value" 1
                      else Ok 1%Q) ;;
         let position_value := (size * entry_price)%Q in
         let calculated_leverage :=
           if Qltb 0 margin_used then (position_value / margin_used)%Q else leverage in
         positions <- dict_set positions coin
                        {| position_size := size;
                           entry_price := entry_price;
                           unrealized_pnl := unrealized_pnl;
                           margin_used := margin_used;
                           position_leverage := calculated_leverage;
                           position_value := position_value |} ;;
         read_positions rest positions
       else read_positions rest positions)%result
  end.

(** Lines 164 to 202: the state read off the answer of the exchange. *)
Definition read_portfolio (data : value) : result PortfolioState :=
  (margin_summary <- py_get data "marginSummary" (VDict []) ;;
   total_balance <- decimal_get margin_summary "accountValue" 5 ;;
   available_balance <- decimal_get data "withdrawable" 5 ;;
   total_margin_used <- decimal_get margin_summary "totalMarginUsed" 0 ;;
   let margin_usage :=
     if Qltb 0 total_balance then (total_margin_used / total_balance)%Q else 0%Q in
   asset_positions <- py_get data "assetPositions" (VList []) ;;
   items <- py_iter asset_positions ;;
   positions <- read_positions items [] ;;
   Ok {| total_balance := total_balance;
         available_balance := available_balance;
         margin_usage := margin_usage;
         positions := positions |})%result.

(** Lines 205 to 213: the records logged for the positions. *)
Fixpoint log_each_position (positions : list (value * position)) : M unit :=
  match positions with
  | [] => ret tt
  | _ :: rest =>
      (emit INFO "position: size @ entry price" ;;
       emit INFO "PnL | Apalancamiento" ;;
       emit INFO "Margen usado | Valor posicion" ;;
       log_each_position rest)%prog
  end.

Definition log_positions (positions : list (value * position)) : M unit :=
  match positions with
  | [] => emit INFO "No hay posiciones reales abiertas"
  | _ =>
      (emit INFO "=== POSICIONES REALES ACTUALES ===" ;;
       log_each_position positions ;;
       emit INFO "==================================")%prog
  end.

Definition get_portfolio_state (self : Bot.bot) : M PortfolioState :=
  try_except
    (response <- requests_post Bot.INFO_URL
                   (VDict [ ("type", VStr "clearinghouseState");
                            ("user", VStr (Bot.wallet_address self)) ]) ;;
     if status_code response =? 200 then
       data <- lift (json response) ;;
       state <- lift (read_portfolio data) ;;
       log_positions (positions state) ;;
       emit INFO "Balance total" ;;
       emit INFO "Disponible" ;;
       emit INFO "Margen usado" ;;
       ret state
     else
       emit ERROR "Could not fetch real portfolio state" ;;
       ret empty_portfolio)%prog
    (fun e => emit ERROR "Error getting real portfolio state" ;; ret empty_portfolio)%prog.

(** The attributes [max_margin_usage] and [min_balance] that [__init__]
    sets. *)
Definition max_margin_usage : Q := 95 # 100.
Definition min_balance : Q := 1 # 100.

(** The signals of the decimal context that [risk_management_check] can
    raise; nothing in it catches them. *)
Inductive decimal_signal : Type := InvalidOperation | DivisionByZero.

Inductive outcome (A : Type) : Type :=
| Returns (a : A)
| Signals (s : decimal_signal).

Arguments Returns {A} a.
Arguments Signals {A} s.

(** [a / b] on decimals. *)
Definition decimal_div (a b : Q) : outcome Q :=
  if Qeq_bool b 0 then
    if Qeq_bool a 0 then Signals InvalidOperation else Signals DivisionByZero
  else Returns (a / b)%Q.

Definition sell_side (action : string) : bool :=
  String.eqb action "close_position" || String.eqb action "reduce_position"
  || String.eqb action "sell".

Definition buy_side (action : string) : bool :=
  String.eqb action "buy" || String.eqb action "increase_position".

Definition rejected (l : level) (msg : string) : world -> outcome bool * world :=
  fun w => (Returns false, snd (emit l msg w)).

(** Lines 562 to 568, the end of [risk_management_check]. *)
Definition confidence_check (o : order) : world -> outcome bool * world :=
  fun w =>
    if Qltb (confidence o) (1 # 10) then rejected WARNING "Confidence too low" w
    else (Returns true, w).

Definition risk_management_check (self : Bot.bot) (o : order)
    (portfolio_state : PortfolioState) (coin : string)
  : world -> outcome bool * world :=
  fun w =>
    let action := lower (action o) in
    if sell_side action then
      if Qltb 1 (margin_usage portfolio_state)
      then rejected WARNING "Margin usage > 100%, cannot execute" w
      else if Qltb (confidence o) (1 # 10)
      then rejected WARNING "Confidence too low for action" w
      else (Returns true, w)
    else if Qltb max_margin_usage (margin_usage portfolio_state)
    then rejected WARNING "Margin usage above the maximum" w
    else if Qltb (available_balance portfolio_state) min_balance
    then rejected WARNING "Available balance below the minimum" w
    else if buy_side action then
      match float_of_str (float_repr (size o)) with
      | Raise _ => (Signals InvalidOperation, w)
      | Ok size =>
          let leverage := inject_Z (leverage o) in
          if Qltb (total_balance portfolio_state) 10 then
            confidence_check o (snd (emit INFO "Small balance mode" w))
          else
            let market_price := 100%Q in
            match decimal_div (size * market_price) leverage with
            | Signals s => (Signals s, w)
            | Returns required_margin =>
                if Qltb (available_balance portfolio_state) required_margin
                then rejected WARNING "Required margin > available balance" w
                else confidence_check o w
            end
      end
    else confidence_check o w.

(** [coin in portfolio_state.positions] and [portfolio_state.positions[coin]] *)
Definition in_positions (coin : string) (portfolio_state : PortfolioState) : bool :=
  match dict_get (positions portfolio_state) coin with
  | Some _ => true
  | None => false
  end.

Definition positions_item (portfolio_state : PortfolioState) (coin : string)
  : result position :=
  match dict_get (positions portfolio_state) coin with
  | Some p => Ok p
  | None => Raise KeyError
  end.

Section WithAccount.
Context {EA : EthAccount}.

(** [last_price] is [market_data.last_price], a [float]. *)
Definition execute_executable_order (self : Bot.bot) (coin : string) (o : order)
    (last_price : Q) : M bool :=
  try_except
    (portfolio_state <- get_portfolio_state self ;;
     let action := lower (action o) in
     let size := size o in
     let leverage := leverage o in
     emit INFO "Processing executable order" ;;
     emit INFO "Reasoning" ;;
     if String.eqb action "hold" then
       emit INFO "Hold signal, no action taken" ;; ret false
     else if String.eqb action "close_position" && in_positions coin portfolio_state then
       existing_position <- lift (positions_item portfolio_state coin) ;;
       let coin_amount := position_size existing_position in
       emit INFO "CLOSING EXISTING POSITION" ;;
       try_except
         (success <- Bot.execute_real_order self coin "sell" coin_amount last_price ;;
          if success then
            emit INFO "REAL ORDER SUCCESS: Position closed" ;; ret true
          else
            emit ERROR "REAL ORDER FAILED: Could not close position" ;; ret false)
         (fun order_error => emit ERROR "Error executing real order" ;; ret false)
     else if String.eqb action "reduce_position" && in_positions coin portfolio_state then
       existing_position <- lift (positions_item portfolio_state coin) ;;
       let current_size := position_size existing_position in
       let reduce_amount := py_min size current_size in
       emit INFO "REDUCING POSITION" ;;
       try_except
         (success <- Bot.execute_real_order self coin "sell" reduce_amount last_price ;;
          if success then
            emit INFO "REAL ORDER SUCCESS: Position reduced" ;; ret true
          else
            emit ERROR "REAL ORDER FAILED: Could not reduce position" ;; ret false)
         (fun order_error => emit ERROR "Error executing real order" ;; ret false)
     else if String.eqb action "increase_position" && in_positions coin portfolio_state then
       emit INFO "INCREASING POSITION" ;;
       emit INFO "Setting leverage before increasing position" ;;
       leverage_success <- Bot.set_leverage self coin leverage ;;
       if negb leverage_success then
         emit ERROR "Failed to set leverage, cannot increase position" ;; ret false
       else
         try_except
           (emit INFO "REAL ORDER: Increasing position" ;;
            success <- Bot.execute_real_order self coin "buy" size last_price ;;
            if success then
              emit INFO "REAL ORDER SUCCESS: Position increased" ;; ret true
            else
              emit ERROR "REAL ORDER FAILED: Could not increase position" ;; ret false)
           (fun order_error => emit ERROR "Error executing real order" ;; ret false)
     else if String.eqb action "change_leverage" && in_positions coin portfolio_state then
       emit INFO "CHANGING LEVERAGE" ;;
       try_except
         (emit INFO "SIMULATED: Changing leverage" ;;
          emit INFO "SIMULATED SUCCESS: Leverage changed" ;;
          ret true)
         (fun order_error => emit ERROR "SIMULATED ERROR changing leverage" ;; ret false)
     else
       let side := if String.eqb action "buy" then "buy" else "sell" in
       emit INFO "Executing order" ;;
       emit INFO "Setting leverage before executing order" ;;
       leverage_success <- Bot.set_leverage self coin leverage ;;
       if negb leverage_success then
         emit ERROR "Failed to set leverage, cannot execute order" ;; ret false
       else
         try_except
           (emit INFO "REAL ORDER: Executing" ;;
            success <- Bot.execute_real_order self coin side size last_price ;;
            if success then
              emit INFO "REAL ORDER SUCCESS" ;; ret true
            else
              emit ERROR "REAL ORDER FAILED" ;; ret false)
           (fun order_error => emit ERROR "Error executing real order" ;; ret false))%prog
    (fun e => emit ERROR "Error executing executable order" ;; ret false)%prog.

End WithAccount.

End Orders.

(** * Further vocabulary *)

(** The bytes [action_hash] feeds to Keccak: the value of [data] when line
    41 of the script is reached. *)
Definition action_hash_data (action : value) (vault_address : option string)
    (nonce : Z) (expires_after : option Z) : result bytes :=
  (data <- Msgpack.packb action ;;
   n <- to_bytes_big nonce 8 ;;
   let data := data ++ n in
   data <- match vault_address with
           | None => Ok (data ++ [x00])
           | Some a =>
               let data := data ++ [x01] in
               b <- Minimal.address_to_bytes a ;;
               Ok (data ++ b)
           end ;;
   match expires_after with
   | Some e =>
       let data := data ++ [x00] in
       b <- to_bytes_big e 8 ;;
       Ok (data ++ b)
   | None => Ok data
   end)%result.

(** The lowercase form of the sample vault address. *)
Definition sample_vault_lower : string := "0xabcdef0123456789abcdef0123456789abcdef01".

(** The asset is a dict that carries another name than [coin]. *)
Definition named_otherwise (coin : string) (asset : value) : Prop :=
  exists name, py_get asset "name" VNone = Ok name /\ eq_str name coin = false.

(** What [set_leverage] accepts as a successful answer of the exchange:
    HTTP 200 and a body whose status is ok. *)
Definition leverage_accepted (response : http_response) : Prop :=
  status_code response = 200 /\
  exists result status,
    json response = Ok result /\
    py_get result "status" VNone = Ok status /\ eq_str status "ok" = true.

(** The [n] low-order decimal digits of [z], most significant first. *)
Fixpoint decimal_digits (n : nat) (z : Z) : string :=
  match n with
  | O => EmptyString
  | S k => append (decimal_digits k (z / 10)) (String (hex_digit (z mod 10)) EmptyString)
  end.

(** The request for the state of the account. *)
Definition portfolio_request (self : Bot.bot) : string * value :=
  (Bot.INFO_URL,
   VDict [ ("type", VStr "clearinghouseState");
           ("user", VStr (Bot.wallet_address self)) ]).

(** An answer of the exchange with one long position. *)
Definition portfolio_response : http_response := {|
  status_code := 200;
  json := Ok (VDict [ ("marginSummary",
                       VDict [ ("accountValue", VStr "250.5");
                               ("totalMarginUsed", VStr "50.1") ]);
                      ("withdrawable", VStr "200.4");
                      ("assetPositions",
                       VList [ VDict [ ("position",
                                        VDict [ ("coin", VStr "ETH");
                                                ("szi", VStr "0.5");
                                                ("entryPx", VStr "100");
                                                ("unrealizedPnl", VStr "1.5");
                                                ("marginUsed", VStr "10");
                                                ("leverage",
                                                 VDict [ ("type", VStr "cross");
                                                         ("value", VInt 5) ]) ]) ] ]) ])
|}.

(** What [get_portfolio_state] returns for the outcome of its request. *)
Definition portfolio_of (outcome : option (result http_response)) : Orders.PortfolioState :=
  match outcome with
  | Some (Ok response) =>
      if status_code response =? 200 then
        match json response with
        | Ok data =>
            match Orders.read_portfolio data with
            | Ok state => state
            | Raise _ => Orders.empty_portfolio
            end
        | Raise _ => Orders.empty_portfolio
        end
      else Orders.empty_portfolio
  | _ => Orders.empty_portfolio
  end.

(** Orders and portfolios used to run the risk check. *)
Definition buy_order : Orders.order := {|
  Orders.action := "BUY";
  Orders.size := 5 # 100;
  Orders.leverage := 5;
  Orders.confidence := 8 # 10;
  Orders.reasoning := "momentum"
|}.

Definition surer_buy_order : Orders.order := {|
  Orders.action := "BUY";
  Orders.size := 5 # 100;
  Orders.leverage := 5;
  Orders.confidence := 9 # 10;
  Orders.reasoning := "momentum"
|}.

Definition funded_portfolio : Orders.PortfolioState := {|
  Orders.total_balance := 250;
  Orders.available_balance := 200;
  Orders.margin_usage := 2 # 10;
  Orders.positions := []
|}.

Definition richer_portfolio : Orders.PortfolioState := {|
  Orders.total_balance := 250;
  Orders.available_balance := 240;
  Orders.margin_usage := 1 # 10;
  Orders.positions := []
|}.

(** What a run of [execute_real_order] from [w1] to [w'] with the result
    [r] has posted: the metadata request alone, the three information
    requests, or these and one signed order for [amount], on which the
    result depends. *)
Definition order_posted (self : Bot.bot) (coin side : string)
    (amount : Q) (w1 w' : world) (r : bool) : Prop :=
  (r = false /\ posted w' = posted w1 ++ [meta_request]) \/
  (r = false /\ posted w' = posted w1 ++ [meta_request; meta_request; mids_request]) \/
  (exists asset_id limit_price signature,
     posted w' = posted w1 ++
       [ meta_request; meta_request; mids_request;
         (exchange_url self,
          signed_payload
            (order_action (Bot.order_wire coin asset_id (is_buy_side side) limit_price amount))
            (now_ms w1) signature) ] /\
     (r = true <->
      exists response,
        nth_error (network w1) 3 = Some (Ok response) /\ accepted response)).

(** The same for [set_leverage]. *)
Definition leverage_posted (self : Bot.bot) (w1 w' : world) (r : bool) : Prop :=
  (r = false /\ posted w' = posted w1 ++ [meta_request]) \/
  (r = false /\ posted w' = posted w1 ++ [meta_request; meta_request]) \/
  (exists asset_id sent signature,
     posted w' = posted w1 ++
       [ meta_request; meta_request;
         (exchange_url self,
          signed_payload (leverage_action asset_id sent) (now_ms w1) signature) ] /\
     network w' = tl (tl (tl (network w1))) /\ now_ms w' = now_ms w1 /\
     (r = true <->
      exists response,
        nth_error (network w1) 2 = Some (Ok response) /\ leverage_accepted response)).

(** The branch [execute_executable_order] takes for an action, lowercased,
    and for whether the coin is among the positions. *)
Inductive branch : Type :=
| Hold
| ClosePosition
| ReducePosition
| IncreasePosition
| ChangeLeverage
| NewOrder.

Definition branch_of (action : string) (held : bool) : branch :=
  if String.eqb action "hold" then Hold
  else if String.eqb action "close_position" && held then ClosePosition
  else if String.eqb action "reduce_position" && held then ReducePosition
  else if String.eqb action "increase_position" && held then IncreasePosition
  else if String.eqb action "change_leverage" && held then ChangeLeverage
  else NewOrder.

(** A signed request that updates the leverage, and one that places an order. *)
Definition is_leverage_update (req : string * value) : Prop :=
  exists asset_id sent nonce signature,
    snd req = signed_payload (leverage_action asset_id sent) nonce signature.

Definition is_order_for (coin side : string) (amount : Q) (req : string * value) : Prop :=
  exists asset_id limit_price nonce signature,
    snd req = signed_payload
                (order_action
                   (Bot.order_wire coin asset_id (is_buy_side side) limit_price amount))
                nonce signature.

(** Worlds used to run [execute_executable_order]. *)
Definition opening_world : world := {|
  network := [ Ok portfolio_response;
               Ok priced_meta_response; Ok priced_meta_response; Ok leverage_response;
               Ok priced_meta_response; Ok priced_meta_response; Ok mids_response;
               Ok accepted_response ];
  posted := [];
  log := [];
  now_ms := 1700000000000
|}.

Definition closing_world : world := {|
  network := [ Ok portfolio_response;
               Ok priced_meta_response; Ok priced_meta_response; Ok mids_response;
               Ok accepted_response ];
  posted := [];
  log := [];
  now_ms := 1700000000000
|}.

Definition btc_buy_order : Orders.order := {|
  Orders.action := "buy";
  Orders.size := 1 # 10;
  Orders.leverage := 5;
  Orders.confidence := 8 # 10;
  Orders.reasoning := "breakout"
|}.

Definition eth_reduce_order : Orders.order := {|
  Orders.action := "reduce_position";
  Orders.size := 2;
  Orders.leverage := 5;
  Orders.confidence := 8 # 10;
  Orders.reasoning := "take profit"
|}.

(** The side of the order a branch places: an increase buys, a close or a
    reduce sells, and a new order buys on the action buy and sells on
    every other action. *)
Definition side_of (action : string) (held : bool) : string :=
  match branch_of action held with
  | IncreasePosition => "buy"
  | NewOrder => if String.eqb action "buy" then "buy" else "sell"
  | _ => "sell"
  end.

(** * Properties *)

(** ** The library models on known values *)

Example hex_255 : hex 255 = "0xff".
Proof. reflexivity. Qed.

Example str_int_1337 : str_int 1337 = "1337".
Proof. reflexivity. Qed.

Example str_int_neg : str_int (-40) = "-40".
Proof. reflexivity. Qed.

Example fromhex_example : fromhex "0aFf 10" = Ok [x0a; xff; x10].
Proof. reflexivity. Qed.

Example to_bytes_example : to_bytes_big 258 8 = Ok [x00; x00; x00; x00; x00; x00; x01; x02].
Proof. reflexivity. Qed.

Example keccak256_empty :
  bytes_hex (Keccak.keccak256 [])
  = "c5d2460186f7233c927e7db2dcc703c0e500b653ca82273b7bfad8045d85a470".
Proof. vm_compute. reflexivity. Qed.

Example keccak256_abc :
  bytes_hex (Keccak.keccak256 (utf8 "abc"))
  = "4e03657aea45a94fc7d47ba826c8d667c0d1e6e33a64a036ec44f58fa12d6c45".
Proof. vm_compute. reflexivity. Qed.

Example packb_example :
  match Msgpack.packb
          (VDict [ ("a", VInt 1);
                   ("b", VList [VBool true; VNone; VInt (-1); VInt 300; VStr "hi"]) ])
  with
  | Ok s => bytes_hex s
  | Raise _ => ""
  end = "82a16101a16295c3c0ffcd012ca26869".
Proof. vm_compute. reflexivity. Qed.

Example packb_integers :
  map (fun z => match Msgpack.pack_int z with Ok s => bytes_hex s | Raise _ => "" end)
      [127; 128; 256; 65536; 1700000000000; -32; -33; -129; -32769]
  = [ "7f"; "cc80"; "cd0100"; "ce00010000"; "cf0000018bcfe56800";
      "e0"; "d0df"; "d1ff7f"; "d2ffff7fff" ].
Proof. vm_compute. reflexivity. Qed.

Example float_repr_examples :
  map float_repr [96 # 1; 123 # 10000; 167 # 10; 1 # 100000; - (5 # 2)]%Q
  = ["96.0"; "0.0123"; "16.7"; "1e-05"; "-2.5"].
Proof. vm_compute. reflexivity. Qed.

Example float_of_str_examples :
  map float_of_str ["100"; " 1.5 "; "2.5E-2"; "abc"]
  = [Ok (100 # 1); Ok (3 # 2); Ok (1 # 40); Raise ValueError]%Q.
Proof. vm_compute. reflexivity. Qed.

(** ** Bytes and integers *)

Lemma Z_of_byte_range (b : byte) : 0 <= Z_of_byte b < 256.
Proof.
  unfold Z_of_byte. pose proof (Byte.to_N_bounded b) as H. lia.
Qed.

Lemma Z_of_byte_of_Z (z : Z) : Z_of_byte (byte_of_Z z) = z mod 256.
Proof.
  unfold Z_of_byte, byte_of_Z.
  assert (Hr : 0 <= z mod 256 < 256) by (apply Z.mod_pos_bound; lia).
  destruct (Byte.of_N (Z.to_N (z mod 256))) as [b|] eqn:E.
  - apply Byte.to_of_N in E. rewrite E. lia.
  - apply Byte.of_N_None_iff in E. lia.
Qed.

Lemma byte_of_Z_of_byte (b : byte) : byte_of_Z (Z_of_byte b) = b.
Proof.
  unfold byte_of_Z, Z_of_byte.
  pose proof (Byte.to_N_bounded b) as H.
  rewrite Z.mod_small by lia.
  rewrite N2Z.id, Byte.of_to_N. reflexivity.
Qed.

Lemma length_be_bytes (n : nat) (z : Z) : List.length (be_bytes n z) = n.
Proof. induction n; simpl; congruence. Qed.

Lemma length_le_bytes (n : nat) (z : Z) : List.length (le_bytes n z) = n.
Proof. revert z; induction n; intros; simpl; [reflexivity | now rewrite IHn]. Qed.

Lemma fold_be_shift (bs : bytes) (acc : Z) :
  fold_left (fun a b => a * 256 + Z_of_byte b) bs acc
  = acc * 256 ^ Z.of_nat (List.length bs) + Z_of_be bs.
Proof.
  unfold Z_of_be. revert acc.
  induction bs as [|b r IH]; intros acc.
  - simpl. lia.
  - cbn [fold_left List.length]. rewrite IH, (IH (0 * 256 + Z_of_byte b)).
    rewrite Nat2Z.inj_succ, Z.pow_succ_r by lia. ring.
Qed.

Lemma Z_of_be_cons (b : byte) (r : bytes) :
  Z_of_be (b :: r) = Z_of_byte b * 256 ^ Z.of_nat (List.length r) + Z_of_be r.
Proof.
  unfold Z_of_be at 1. cbn [fold_left]. rewrite fold_be_shift. ring.
Qed.

Lemma Z_of_be_be_bytes (n : nat) (z : Z) :
  Z_of_be (be_bytes n z) = z mod 2 ^ (8 * Z.of_nat n).
Proof.
  induction n as [|k IH].
  - simpl. now rewrite Z.mod_1_r.
  - cbn [be_bytes]. rewrite Z_of_be_cons, IH, length_be_bytes, Z_of_byte_of_Z.
    rewrite Z.shiftr_div_pow2 by lia.
    replace (8 * Z.of_nat (S k)) with (8 * Z.of_nat k + 8) by lia.
    rewrite Z.pow_add_r by lia.
    replace (256 ^ Z.of_nat k) with (2 ^ (8 * Z.of_nat k)).
    2:{ replace 256 with (2 ^ 8) by reflexivity. rewrite <- Z.pow_mul_r by lia. reflexivity. }
    change (2 ^ 8) with 256.
    rewrite (Z.rem_mul_r z (2 ^ (8 * Z.of_nat k)) 256) by lia.
    ring.
Qed.

Lemma Z_of_be_u64 (z : Z) : 0 <= z < 2 ^ 64 -> Z_of_be (be_bytes 8 z) = z.
Proof.
  intros H. rewrite Z_of_be_be_bytes. apply Z.mod_small.
  change (8 * Z.of_nat 8) with 64. exact H.
Qed.

Lemma to_bytes_big_ok (z : Z) (n : nat) :
  0 <= z < 2 ^ (8 * Z.of_nat n) -> to_bytes_big z n = Ok (be_bytes n z).
Proof.
  intros [H0 H1]. unfold to_bytes_big.
  destruct (z <? 0) eqn:E0; [apply Z.ltb_lt in E0; lia|].
  destruct (2 ^ (8 * Z.of_nat n) <=? z) eqn:E1; [apply Z.leb_le in E1; lia|].
  reflexivity.
Qed.

Lemma length_keccak256 (data : bytes) : List.length (Keccak.keccak256 data) = 32%nat.
Proof.
  unfold Keccak.keccak256. rewrite !length_app, !length_le_bytes. reflexivity.
Qed.

Lemma length_bytes_hex (bs : bytes) :
  String.length (bytes_hex bs) = (2 * List.length bs)%nat.
Proof.
  induction bs as [|b r IH]; simpl; [reflexivity | rewrite IH; lia].
Qed.

(** ** Hexadecimal strings *)

Lemma hex_char_ok_all (c : ascii) : hex_char_ok c = true.
Proof.
  destruct c as [[] [] [] [] [] [] [] []]; vm_compute; reflexivity.
Qed.

Lemma hex_char_lower (c : ascii) :
  is_hex c = true ->
  is_space (lower_char c) = false /\
  exists h, hex_value (lower_char c) = Some h /\ 0 <= h < 16 /\
            hex_digit h = lower_char c.
Proof.
  intros H. pose proof (hex_char_ok_all c) as K. unfold hex_char_ok in K.
  rewrite H in K. apply andb_prop in K as [K1 K2].
  split; [now apply negb_true_iff in K1|].
  destruct (hex_value (lower_char c)) as [h|]; [|discriminate].
  apply andb_prop in K2 as [K2 K3]. apply andb_prop in K2 as [K2 K4].
  exists h. split; [reflexivity|]. split; [lia|].
  now apply Ascii.eqb_eq.
Qed.

Lemma hex_pair_byte (h l : Z) :
  0 <= h < 16 -> 0 <= l < 16 ->
  Z_of_byte (byte_of_Z (16 * h + l)) / 16 = h /\
  Z_of_byte (byte_of_Z (16 * h + l)) mod 16 = l.
Proof.
  intros Hh Hl. rewrite Z_of_byte_of_Z, Z.mod_small by lia.
  split.
  - rewrite Z.mul_comm, Z.div_add_l by lia. rewrite Z.div_small by lia. lia.
  - rewrite Z.add_comm, Z.mul_comm, Z.mod_add by lia. apply Z.mod_small; lia.
Qed.

(** A string of [2 n] hexadecimal digits decodes to [n] bytes whose
    hexadecimal form is the lowercased string. *)
Lemma fromhex_lower (n : nat) : forall s : string,
  String.length s = (2 * n)%nat -> all_hex s = true ->
  exists bs, fromhex (lower s) = Ok bs /\ List.length bs = n /\
             bytes_hex bs = lower s.
Proof.
  induction n as [|k IH]; intros s Hlen Hhex.
  - destruct s; [|discriminate]. exists []. repeat split.
  - destruct s as [|c1 [|c2 r]]; cbn [String.length] in Hlen; try lia.
    cbn [all_hex] in Hhex.
    apply andb_prop in Hhex as [H1 Hhex]. apply andb_prop in Hhex as [H2 Hhex].
    destruct (hex_char_lower c1 H1) as [Hs1 [h [Hv1 [Hr1 Hd1]]]].
    destruct (hex_char_lower c2 H2) as [_ [l [Hv2 [Hr2 Hd2]]]].
    destruct (IH r) as [bs [Hbs [Hl Hx]]]; [lia | assumption |].
    exists (byte_of_Z (16 * h + l) :: bs).
    cbn [lower fromhex]. rewrite Hs1, Hv1, Hv2, Hbs.
    split; [reflexivity|]. split; [simpl; congruence|].
    cbn [bytes_hex]. destruct (hex_pair_byte h l Hr1 Hr2) as [Ha Hb].
    rewrite Ha, Hb, Hd1, Hd2, Hx. reflexivity.
Qed.

(** ** The action hash *)

Lemma drop_length (n : nat) : forall s : string,
  String.length (drop n s) = (String.length s - n)%nat.
Proof.
  induction n as [|k IH]; intros s.
  - simpl. lia.
  - destruct s as [|c r]; simpl; [reflexivity | apply IH].
Qed.

Lemma address_to_bytes_raw (a : string) :
  is_address a = true ->
  exists raw, Minimal.address_to_bytes a = Ok raw /\ is_raw_address raw a.
Proof.
  unfold is_address. intros H.
  apply andb_prop in H as [H Hhex]. apply andb_prop in H as [_ Hlen].
  apply Nat.eqb_eq in Hlen.
  destruct (fromhex_lower 20 (drop 2 a)) as [raw [Hraw [Hl Hx]]].
  - rewrite drop_length, Hlen. reflexivity.
  - exact Hhex.
  - exists raw. split; [exact Hraw | split; assumption].
Qed.

Lemma be_bytes_is_u64 (n : Z) : 0 <= n < 2 ^ 64 -> is_u64_be (be_bytes 8 n) n.
Proof.
  intros H. split; [apply length_be_bytes | now apply Z_of_be_u64].
Qed.

Lemma bot_action_hash_eq (action : value) (vault_address : option string)
    (nonce : Z) (expires_after : option Z) :
  Bot.action_hash action vault_address nonce expires_after
  = Minimal.action_hash action vault_address nonce expires_after.
Proof.
  unfold Bot.action_hash, Minimal.action_hash, rbind,
    Bot.address_to_bytes, Minimal.address_to_bytes.
  destruct (Msgpack.packb action) as [data|]; [|reflexivity].
  destruct (to_bytes_big nonce 8) as [n|]; [|reflexivity].
  destruct vault_address as [a|].
  - destruct (fromhex (lower (drop 2 a))) as [b|]; [|reflexivity].
    destruct expires_after as [e|]; [|reflexivity].
    destruct (to_bytes_big e 8); reflexivity.
  - destruct expires_after as [e|]; [|reflexivity].
    destruct (to_bytes_big e 8); reflexivity.
Qed.

(** C1.  For an action whose serialization is [ser], a nonce and an expiry
    that fit 64 unsigned bits and a well-formed vault address,
    [action_hash] (of the script and of the bot alike) returns the 32-byte
    Keccak-256 digest of [ser], followed by the nonce as 8 big-endian
    bytes, followed by the vault marker (0x00 when absent, 0x01 and the 20
    raw address bytes when present), followed by the expiry marker (nothing
    when absent, 0x00 and the expiry as 8 big-endian bytes when present). *)
Theorem action_hash_layout (action : value) (ser : bytes)
    (vault_address : option string) (nonce : Z) (expires_after : option Z) :
  Msgpack.packb action = Ok ser ->
  0 <= nonce < 2 ^ 64 ->
  vault_ok vault_address ->
  expiry_ok expires_after ->
  exists nb vb eb digest,
    is_u64_be nb nonce /\
    is_vault_marker vb vault_address /\
    is_expiry_marker eb expires_after /\
    digest = Keccak.keccak256 (ser ++ nb ++ vb ++ eb) /\
    List.length digest = 32%nat /\
    Minimal.action_hash action vault_address nonce expires_after = Ok digest /\
    Bot.action_hash action vault_address nonce expires_after = Ok digest.
Proof.
  intros Hser Hn Hv He.
  assert (Hnb : to_bytes_big nonce 8 = Ok (be_bytes 8 nonce))
    by (apply to_bytes_big_ok; exact Hn).
  assert (Hvb : exists vb, is_vault_marker vb vault_address /\
            match vault_address with
            | None => True
            | Some a => exists raw, Minimal.address_to_bytes a = Ok raw /\ vb = x01 :: raw
            end).
  { destruct vault_address as [a|].
    - destruct (address_to_bytes_raw a Hv) as [raw [Hraw Hr]].
      exists (x01 :: raw). split; [exists raw; auto | exists raw; auto].
    - exists [x00]. split; [reflexivity | constructor]. }
  destruct Hvb as [vb [Hvm Hvb]].
  assert (Heb : exists eb, is_expiry_marker eb expires_after /\
            match expires_after with
            | None => eb = []
            | Some e => to_bytes_big e 8 = Ok (be_bytes 8 e) /\ eb = x00 :: be_bytes 8 e
            end).
  { destruct expires_after as [e|].
    - exists (x00 :: be_bytes 8 e). split.
      + exists (be_bytes 8 e). split; [now apply be_bytes_is_u64 | reflexivity].
      + split; [apply to_bytes_big_ok; exact He | reflexivity].
    - exists []. split; reflexivity. }
  destruct Heb as [eb [Hem Heb]].
  exists (be_bytes 8 nonce), vb, eb, (Keccak.keccak256 (ser ++ be_bytes 8 nonce ++ vb ++ eb)).
  split; [now apply be_bytes_is_u64|].
  split; [exact Hvm|]. split; [exact Hem|]. split; [reflexivity|].
  split; [apply length_keccak256|].
  rewrite bot_action_hash_eq.
  assert (Hmin : Minimal.action_hash action vault_address nonce expires_after
                 = Ok (Keccak.keccak256 (ser ++ be_bytes 8 nonce ++ vb ++ eb))).
  { unfold Minimal.action_hash, rbind. rewrite Hser, Hnb.
    destruct vault_address as [a|].
    - destruct Hvb as [raw [Hraw ->]]. rewrite Hraw.
      destruct expires_after as [e|].
      + destruct Heb as [Hto ->]. rewrite Hto. do 2 f_equal.
        rewrite <- !app_assoc. reflexivity.
      + subst eb. do 2 f_equal. rewrite <- !app_assoc, app_nil_r. reflexivity.
    - simpl in Hvm. subst vb.
      destruct expires_after as [e|].
      + destruct Heb as [Hto ->]. rewrite Hto. do 2 f_equal.
        rewrite <- !app_assoc. reflexivity.
      + subst eb. do 2 f_equal. rewrite <- !app_assoc. reflexivity. }
  split; exact Hmin.
Qed.

Lemma action_hash_layout_witness :
  exists nb vb eb digest,
    is_u64_be nb 1700000000000 /\
    is_vault_marker vb (Some sample_vault) /\
    is_expiry_marker eb (Some 1700000060000) /\
    digest = Keccak.keccak256
               (match Msgpack.packb sample_order with Ok s => s | Raise _ => [] end
                ++ nb ++ vb ++ eb) /\
    List.length digest = 32%nat /\
    Minimal.action_hash sample_order (Some sample_vault) 1700000000000 (Some 1700000060000)
      = Ok digest /\
    Bot.action_hash sample_order (Some sample_vault) 1700000000000 (Some 1700000060000)
      = Ok digest.
Proof.
  apply (action_hash_layout sample_order _ (Some sample_vault) 1700000000000
           (Some 1700000060000)).
  - vm_compute. reflexivity.
  - lia.
  - vm_compute. reflexivity.
  - simpl. lia.
Defined.

(** ** The typed-data document *)

Lemma hex_digit_ok_all (z : Z) : 0 <= z < 16 -> hex_digit_ok z = true.
Proof.
  intros H.
  assert (K : z = 0 \/ z = 1 \/ z = 2 \/ z = 3 \/ z = 4 \/ z = 5 \/ z = 6 \/ z = 7 \/
              z = 8 \/ z = 9 \/ z = 10 \/ z = 11 \/ z = 12 \/ z = 13 \/ z = 14 \/ z = 15)
    by lia.
  repeat (destruct K as [-> | K]; [vm_compute; reflexivity|]).
  subst z. vm_compute. reflexivity.
Qed.

Lemma hex_digit_facts (z : Z) :
  0 <= z < 16 ->
  is_lower_hex (hex_digit z) = true /\ is_space (hex_digit z) = false /\
  hex_value (hex_digit z) = Some z.
Proof.
  intros H. pose proof (hex_digit_ok_all z H) as K. unfold hex_digit_ok in K.
  apply andb_prop in K as [K K3]. apply andb_prop in K as [K1 K2].
  split; [exact K1|]. split; [now apply negb_true_iff in K2|].
  destruct (hex_value (hex_digit z)) as [h|]; [|discriminate].
  apply Z.eqb_eq in K3. now subst.
Qed.

Lemma byte_nibbles (b : byte) :
  0 <= Z_of_byte b / 16 < 16 /\ 0 <= Z_of_byte b mod 16 < 16 /\
  byte_of_Z (16 * (Z_of_byte b / 16) + Z_of_byte b mod 16) = b.
Proof.
  pose proof (Z_of_byte_range b) as H.
  split; [split; [apply Z.div_pos; lia | apply Z.div_lt_upper_bound; lia]|].
  split; [apply Z.mod_pos_bound; lia|].
  rewrite <- Z.div_mod by lia. apply byte_of_Z_of_byte.
Qed.

Lemma all_lower_hex_bytes_hex (bs : bytes) : all_lower_hex (bytes_hex bs) = true.
Proof.
  induction bs as [|b r IH]; [reflexivity|].
  destruct (byte_nibbles b) as [Hh [Hl _]].
  cbn [bytes_hex all_lower_hex].
  destruct (hex_digit_facts _ Hh) as [-> _].
  destruct (hex_digit_facts _ Hl) as [-> _].
  exact IH.
Qed.

(** Decoding the hexadecimal form of a byte string gives the bytes back. *)
Lemma fromhex_bytes_hex (bs : bytes) : fromhex (bytes_hex bs) = Ok bs.
Proof.
  induction bs as [|b r IH]; [reflexivity|].
  destruct (byte_nibbles b) as [Hh [Hl Hb]].
  cbn [bytes_hex fromhex].
  destruct (hex_digit_facts _ Hh) as [_ [-> ->]].
  destruct (hex_digit_facts _ Hl) as [_ [_ ->]].
  rewrite IH, Hb. reflexivity.
Qed.

(** C4.  For every digest and network flag, the document that is signed
    has the fixed domain (chainId 1337, name Exchange, the zero address as
    verifying contract, version 1), the fixed Agent and EIP712Domain
    schema, the primary type Agent, and as message the phantom agent
    (source a on mainnet and b otherwise, connectionId 0x followed by the
    lowercase hexadecimal form of the digest, two digits per byte, which
    decodes back to the digest).  Everything but the message is the same
    for all inputs. *)
Theorem typed_data_document (digest : bytes) (is_mainnet : bool) :
  Minimal.construct_phantom_agent digest is_mainnet = phantom_agent digest is_mainnet /\
  Minimal.l1_payload (Minimal.construct_phantom_agent digest is_mainnet)
  = VDict [ ("domain", fixed_domain);
            ("types", fixed_types);
            ("primaryType", VStr "Agent");
            ("message", phantom_agent digest is_mainnet) ] /\
  String.length (bytes_hex digest) = (2 * List.length digest)%nat /\
  all_lower_hex (bytes_hex digest) = true /\
  fromhex (bytes_hex digest) = Ok digest.
Proof.
  split; [reflexivity|]. split; [reflexivity|].
  split; [apply length_bytes_hex|].
  split; [apply all_lower_hex_bytes_hex | apply fromhex_bytes_hex].
Qed.

(** ** Signing *)

Section Signing.
Context {EA : EthAccount}.



(** The run of the bot's method, for a key that imports: the script's
    result, and two log records. *)
Lemma bot_sign_l1_action_exact_run (self : Bot.bot) (wallet : account)
    (action : value) (vault_address : option string) (nonce : Z)
    (expires_after : option Z) (is_mainnet : bool) (w : world) :
  from_key (Some (Bot.private_key self)) = Ok wallet ->
  Bot.sign_l1_action_exact self action vault_address nonce expires_after is_mainnet w
  = (Minimal.sign_l1_action_exact wallet action vault_address nonce expires_after
       is_mainnet,
     {| network := network w; posted := posted w;
        log := (log w ++ [(INFO, "Wallet generada desde private key")])
                 ++ [(INFO, "Wallet address esperada")];
        now_ms := now_ms w |}).
Proof.
  intros Hkey.
  unfold Bot.sign_l1_action_exact, Minimal.sign_l1_action_exact, bind, lift, emit, ret, rbind.
  rewrite Hkey. cbn [network posted log now_ms].
  rewrite bot_action_hash_eq.
  destruct (Minimal.action_hash action vault_address nonce expires_after) as [h|]; [|reflexivity].
  change (Bot.l1_payload (Bot.construct_phantom_agent h is_mainnet))
    with (Minimal.l1_payload (Minimal.construct_phantom_agent h is_mainnet)).
  destruct (encode_typed_data _) as [sd|]; [|reflexivity].
  destruct (sign_message wallet sd) as [[[r s] v]|]; reflexivity.
Qed.

(** C9.  With the account of the bot's private key, the bot's method
    returns what the script's function returns, in every world: the same
    signature triple or the same exception.  Its nested helpers compute the
    same action hash, phantom agent and typed-data payload, and the method
    leaves the network and the posted requests as they were. *)
Theorem bot_sign_l1_action_exact_agrees (self : Bot.bot) (wallet : account)
    (action : value) (vault_address : option string) (nonce : Z)
    (expires_after : option Z) (is_mainnet : bool) (w : world) :
  from_key (Some (Bot.private_key self)) = Ok wallet ->
  fst (Bot.sign_l1_action_exact self action vault_address nonce expires_after is_mainnet w)
  = Minimal.sign_l1_action_exact wallet action vault_address nonce expires_after is_mainnet
  /\ Bot.action_hash action vault_address nonce expires_after
     = Minimal.action_hash action vault_address nonce expires_after
  /\ (forall h, Bot.construct_phantom_agent h is_mainnet
                = Minimal.construct_phantom_agent h is_mainnet)
  /\ (forall p, Bot.l1_payload p = Minimal.l1_payload p)
  /\ network (snd (Bot.sign_l1_action_exact self action vault_address nonce
                     expires_after is_mainnet w)) = network w
  /\ posted (snd (Bot.sign_l1_action_exact self action vault_address nonce
                    expires_after is_mainnet w)) = posted w.
Proof.
  intros Hkey.
  rewrite (bot_sign_l1_action_exact_run self wallet _ _ _ _ _ w Hkey).
  split; [reflexivity|].
  split; [apply bot_action_hash_eq|].
  repeat (split; [reflexivity|]). reflexivity.
Qed.

End Signing.


Lemma bot_sign_l1_action_exact_agrees_witness :
  @from_key toy_account (Some (Bot.private_key sample_bot))
  = Ok (Bot.private_key sample_bot) /\
  fst (@Bot.sign_l1_action_exact toy_account sample_bot sample_order None
         1700000000000 None true empty_world)
  = @Minimal.sign_l1_action_exact toy_account (Bot.private_key sample_bot) sample_order
      None 1700000000000 None true.
Proof.
  split; [reflexivity|].
  apply (@bot_sign_l1_action_exact_agrees toy_account sample_bot
           (Bot.private_key sample_bot) sample_order None 1700000000000 None true
           empty_world).
  reflexivity.
Defined.

(** ** Serialization and insertion order *)

Lemma utf8_char_ok_all (c : ascii) : utf8_char_ok c = true.
Proof.
  destruct c as [[] [] [] [] [] [] [] []]; vm_compute; reflexivity.
Qed.

Lemma utf8_cons (c : ascii) (r : string) :
  utf8 (String c r) = utf8_char c ++ utf8 r.
Proof.
  unfold utf8_char. cbn [utf8]. destruct (code c <? 128); reflexivity.
Qed.

Lemma utf8_decode1_char (c : ascii) (rest : bytes) :
  utf8_decode1 (utf8_char c ++ rest) = Some (c, rest).
Proof.
  pose proof (utf8_char_ok_all c) as K. unfold utf8_char_ok in K.
  unfold utf8_char in *. cbn [utf8] in *.
  destruct (code c <? 128).
  - cbn [utf8_decode1 app] in *.
    destruct (Z_of_byte (byte_of_Z (code c)) <? 128); [|discriminate].
    apply Ascii.eqb_eq in K. now rewrite K.
  - cbn [utf8_decode1 app] in *.
    destruct (Z_of_byte (byte_of_Z (Z.lor 192 (Z.shiftr (code c) 6))) <? 128);
      [discriminate|].
    apply Ascii.eqb_eq in K. now rewrite K.
Qed.

Lemma utf8_injective : forall s1 s2 : string, utf8 s1 = utf8 s2 -> s1 = s2.
Proof.
  induction s1 as [|c1 r1 IH]; intros [|c2 r2] H.
  - reflexivity.
  - rewrite utf8_cons in H. apply (f_equal utf8_decode1) in H.
    rewrite utf8_decode1_char in H. discriminate.
  - rewrite utf8_cons in H. apply (f_equal utf8_decode1) in H.
    rewrite utf8_decode1_char in H. discriminate.
  - rewrite !utf8_cons in H. apply (f_equal utf8_decode1) in H.
    rewrite !utf8_decode1_char in H. injection H as -> H.
    f_equal. now apply IH.
Qed.

Lemma firstn_be_bytes (k : nat) (n : Z) (rest : bytes) :
  0 <= n < 2 ^ (8 * Z.of_nat k) ->
  Z_of_be (firstn k (be_bytes k n ++ rest)) = n.
Proof.
  intros H. rewrite firstn_app, length_be_bytes, Nat.sub_diag, firstn_O, app_nil_r.
  rewrite firstn_all2 by (rewrite length_be_bytes; lia).
  rewrite Z_of_be_be_bytes. now apply Z.mod_small.
Qed.

Lemma str_header_decode_header (n : Z) (h rest : bytes) :
  0 <= n -> Msgpack.str_header n = Ok h -> str_header_decode (h ++ rest) = Some n.
Proof.
  intros Hn. unfold Msgpack.str_header, Msgpack.ITEM_LIMIT.
  destruct (n <? 32) eqn:E1.
  { apply Z.ltb_lt in E1. intros H.
    assert (Hh : h = [byte_of_Z (160 + n)]) by congruence. subst h. clear H.
    change (str_header_decode ([byte_of_Z (160 + n)] ++ rest))
      with (let m := Z_of_byte (byte_of_Z (160 + n)) in
            if (160 <=? m) && (m <? 192) then Some (m - 160)
            else if m =? 217 then Some (Z_of_be (firstn 1 rest))
            else if m =? 218 then Some (Z_of_be (firstn 2 rest))
            else if m =? 219 then Some (Z_of_be (firstn 4 rest))
            else None).
    cbv zeta. rewrite Z_of_byte_of_Z, Z.mod_small by lia.
    replace ((160 <=? 160 + n) && (160 + n <? 192)) with true.
    - f_equal. lia.
    - symmetry. apply andb_true_intro. split; [apply Z.leb_le | apply Z.ltb_lt]; lia. }
  apply Z.ltb_ge in E1.
  destruct (n <? 2 ^ 8) eqn:E2.
  { apply Z.ltb_lt in E2. intros H.
    assert (Hh : h = xd9 :: be_bytes 1 n) by congruence. subst h. clear H.
    change (str_header_decode ((xd9 :: be_bytes 1 n) ++ rest))
      with (Some (Z_of_be (firstn 1 (be_bytes 1 n ++ rest)))).
    f_equal. apply firstn_be_bytes. change (8 * Z.of_nat 1) with 8. lia. }
  apply Z.ltb_ge in E2.
  destruct (n <? 2 ^ 16) eqn:E3.
  { apply Z.ltb_lt in E3. intros H.
    assert (Hh : h = xda :: be_bytes 2 n) by congruence. subst h. clear H.
    change (str_header_decode ((xda :: be_bytes 2 n) ++ rest))
      with (Some (Z_of_be (firstn 2 (be_bytes 2 n ++ rest)))).
    f_equal. apply firstn_be_bytes. change (8 * Z.of_nat 2) with 16. lia. }
  apply Z.ltb_ge in E3.
  destruct (n <=? 2 ^ 32 - 1) eqn:E4; [|discriminate].
  apply Z.leb_le in E4. intros H.
  assert (Hh : h = xdb :: be_bytes 4 n) by congruence. subst h. clear H.
  change (str_header_decode ((xdb :: be_bytes 4 n) ++ rest))
    with (Some (Z_of_be (firstn 4 (be_bytes 4 n ++ rest)))).
  f_equal. apply firstn_be_bytes. change (8 * Z.of_nat 4) with 32. lia.
Qed.

Lemma app_inv_length {A : Type} : forall (a b x y : list A),
  List.length a = List.length b -> a ++ x = b ++ y -> a = b /\ x = y.
Proof.
  induction a as [|u a IH]; intros [|v b] x y Hl H; try discriminate.
  - auto.
  - simpl in *. injection H as -> H. injection Hl as Hl.
    destruct (IH b x y Hl H) as [-> ->]. auto.
Qed.

(** No packed string is a proper prefix of another. *)
Lemma pack_str_prefix_free (k1 k2 : string) (a1 a2 x y : bytes) :
  Msgpack.pack_str k1 = Ok a1 -> Msgpack.pack_str k2 = Ok a2 ->
  a1 ++ x = a2 ++ y -> k1 = k2 /\ x = y.
Proof.
  unfold Msgpack.pack_str.
  destruct (Msgpack.str_header (Z.of_nat (List.length (utf8 k1)))) as [h1|] eqn:E1;
    [|discriminate].
  destruct (Msgpack.str_header (Z.of_nat (List.length (utf8 k2)))) as [h2|] eqn:E2;
    [|discriminate].
  intros [= <-] [= <-] H. rewrite <- !app_assoc in H.
  pose proof (str_header_decode_header _ _ (utf8 k1 ++ x) (Nat2Z.is_nonneg _) E1) as D1.
  pose proof (str_header_decode_header _ _ (utf8 k2 ++ y) (Nat2Z.is_nonneg _) E2) as D2.
  rewrite H, D2 in D1. injection D1 as D1. apply Nat2Z.inj in D1.
  rewrite <- D1, E2 in E1. injection E1 as <-.
  apply app_inv_head in H.
  destruct (app_inv_length _ _ _ _ (eq_sym D1) H) as [Hu ->].
  split; [now apply utf8_injective | reflexivity].
Qed.

Lemma pack_VStr (n : nat) (k : string) (a : bytes) :
  Msgpack.pack n (VStr k) = Ok a -> Msgpack.pack_str k = Ok a.
Proof. destruct n; [discriminate | exact (fun H => H)]. Qed.

Lemma NoDup_keys_value (d : list (string * value)) (k : string) (v1 v2 : value)
    (r : list (string * value)) :
  NoDup (map fst ((k, v2) :: r)) -> In (k, v1) ((k, v2) :: r) -> v1 = v2.
Proof.
  intros Hnd [H | H].
  - now injection H.
  - cbn [map fst] in Hnd. apply NoDup_cons_iff in Hnd as [Hnot _].
    exfalso. apply Hnot. now apply (in_map fst) in H.
Qed.

(** Among dicts with the same items, the packed items determine the
    order. *)
Lemma pack_pairs_order (n : nat) : forall (d1 d2 : list (string * value)) (b : bytes),
  NoDup (map fst d1) -> Permutation d1 d2 ->
  Msgpack.pack_pairs (Msgpack.pack n) d1 = Ok b ->
  Msgpack.pack_pairs (Msgpack.pack n) d2 = Ok b ->
  d1 = d2.
Proof.
  induction d1 as [|[k1 v1] r1 IH]; intros d2 b Hnd Hperm H1 H2.
  - apply Permutation_nil in Hperm. now subst.
  - destruct d2 as [|[k2 v2] r2].
    + apply Permutation_sym, Permutation_nil in Hperm. discriminate.
    + cbn [Msgpack.pack_pairs] in H1, H2.
      destruct (Msgpack.pack n (VStr k1)) as [a1|] eqn:A1; [|discriminate].
      destruct (Msgpack.pack n v1) as [c1|] eqn:V1; [|discriminate].
      destruct (Msgpack.pack_pairs (Msgpack.pack n) r1) as [t1|] eqn:T1; [|discriminate].
      destruct (Msgpack.pack n (VStr k2)) as [a2|] eqn:A2; [|discriminate].
      destruct (Msgpack.pack n v2) as [c2|] eqn:V2; [|discriminate].
      destruct (Msgpack.pack_pairs (Msgpack.pack n) r2) as [t2|] eqn:T2; [|discriminate].
      injection H1 as <-. injection H2 as H2.
      apply pack_VStr in A1, A2.
      destruct (pack_str_prefix_free _ _ _ _ _ _ A2 A1 H2) as [-> Hrest].
      assert (Hnd2 : NoDup (map fst ((k1, v2) :: r2))).
      { eapply Permutation_NoDup; [apply Permutation_map; exact Hperm | exact Hnd]. }
      assert (Hv : v1 = v2).
      { apply (NoDup_keys_value r2 k1 v1 v2 r2 Hnd2).
        eapply Permutation_in; [exact Hperm | left; reflexivity]. }
      subst v2. rewrite V1 in V2. injection V2 as <-.
      apply app_inv_head in Hrest. subst t2.
      apply Permutation_cons_inv in Hperm.
      cbn [map fst] in Hnd. apply NoDup_cons_iff in Hnd as [_ Hnd].
      f_equal. exact (IH r2 t1 Hnd Hperm eq_refl T2).
Qed.

Lemma pack_dict_order (n : nat) (d1 d2 : list (string * value)) (s : bytes) :
  NoDup (map fst d1) -> Permutation d1 d2 ->
  Msgpack.pack (S n) (VDict d1) = Ok s -> Msgpack.pack (S n) (VDict d2) = Ok s ->
  d1 = d2.
Proof.
  intros Hnd Hperm. cbn [Msgpack.pack].
  rewrite <- (Permutation_length Hperm).
  destruct (Msgpack.map_header (Z.of_nat (List.length d1))) as [h|]; [|discriminate].
  destruct (Msgpack.pack_pairs (Msgpack.pack n) d1) as [b1|] eqn:B1; [|discriminate].
  destruct (Msgpack.pack_pairs (Msgpack.pack n) d2) as [b2|] eqn:B2; [|discriminate].
  intros [= <-] [= H]. apply app_inv_head in H. subst b2.
  exact (pack_pairs_order n d1 d2 b1 Hnd Hperm B1 B2).
Qed.

Lemma action_hash_of_serialization (a1 a2 : value) (vault_address : option string)
    (nonce : Z) (expires_after : option Z) :
  Msgpack.packb a1 = Msgpack.packb a2 ->
  Minimal.action_hash a1 vault_address nonce expires_after
  = Minimal.action_hash a2 vault_address nonce expires_after.
Proof. intros H. unfold Minimal.action_hash. now rewrite H. Qed.

(** C3, as the code has it.  The serialization keeps the insertion order
    of the fields: two actions made of the same key-value pairs (with
    distinct keys) serialize to the same bytes exactly when the pairs were
    inserted in the same order; and actions with the same serialization
    have the same action hash under equal nonce, vault address and
    expiry. *)
Theorem serialization_keeps_insertion_order (d1 d2 : list (string * value)) (s : bytes)
    (vault_address : option string) (nonce : Z) (expires_after : option Z) :
  NoDup (map fst d1) ->
  Permutation d1 d2 ->
  Msgpack.packb (VDict d1) = Ok s ->
  (Msgpack.packb (VDict d2) = Ok s <-> d1 = d2) /\
  (Msgpack.packb (VDict d2) = Ok s ->
   Minimal.action_hash (VDict d1) vault_address nonce expires_after
   = Minimal.action_hash (VDict d2) vault_address nonce expires_after).
Proof.
  intros Hnd Hperm H1. split.
  - split.
    + intros H2. unfold Msgpack.packb in *.
      exact (pack_dict_order _ d1 d2 s Hnd Hperm H1 H2).
    + intros <-. exact H1.
  - intros H2. apply action_hash_of_serialization. congruence.
Qed.

Lemma serialization_keeps_insertion_order_witness :
  NoDup (map fst (items sample_order)) /\
  Permutation (items sample_order) (items reordered_order) /\
  (Msgpack.packb reordered_order = Msgpack.packb sample_order
   <-> items sample_order = items reordered_order).
Proof.
  assert (Hnd : NoDup (map fst (items sample_order))).
  { cbn. repeat constructor; cbn; intuition discriminate. }
  assert (Hperm : Permutation (items sample_order) (items reordered_order))
    by apply Permutation_rev.
  split; [exact Hnd|]. split; [exact Hperm|].
  destruct (Msgpack.packb sample_order) as [s|] eqn:E; [|vm_compute in E; discriminate].
  exact (proj1 (serialization_keeps_insertion_order (items sample_order)
                  (items reordered_order) s None 0 None Hnd Hperm E)).
Defined.

(** C3, as stated, fails: the sample order and the same order with its
    fields inserted in the opposite order hold the same key-value pairs,
    yet serialize to different bytes and hash to different digests. *)
Lemma insertion_order_changes_serialization :
  Permutation (items sample_order) (items reordered_order) /\
  Msgpack.packb sample_order <> Msgpack.packb reordered_order /\
  Minimal.action_hash sample_order None 1700000000000 None
  <> Minimal.action_hash reordered_order None 1700000000000 None.
Proof.
  split; [apply Permutation_rev|].
  split; vm_compute; discriminate.
Qed.

(** ** Order sizes *)

Lemma Qltb_lt (a b : Q) : Qltb a b = true <-> (a < b)%Q.
Proof.
  unfold Qltb. rewrite negb_true_iff. split.
  - intros H. apply Qnot_le_lt. intros K. apply Qle_bool_iff in K. congruence.
  - intros H. destruct (Qle_bool b a) eqn:E; [|reflexivity].
    apply Qle_bool_iff in E. exfalso. exact (Qlt_not_le _ _ H E).
Qed.

Lemma Qltb_ge (a b : Q) : Qltb a b = false <-> (b <= a)%Q.
Proof.
  unfold Qltb. rewrite negb_false_iff. apply Qle_bool_iff.
Qed.

(** [int(x)] truncates toward zero. *)
Lemma int_of_float_truncates (q : Q) :
  ((0 <= q)%Q ->
   0 <= int_of_float q /\
   (inject_Z (int_of_float q) <= q)%Q /\ (q < inject_Z (int_of_float q) + 1)%Q) /\
  ((q < 0)%Q ->
   int_of_float q <= 0 /\
   (inject_Z (int_of_float q) - 1 < q)%Q /\ (q <= inject_Z (int_of_float q))%Q).
Proof.
  unfold int_of_float. split; intros H.
  - destruct (Qltb q 0) eqn:E; [apply Qltb_lt in E; lra|].
    pose proof (Qfloor_le q) as H1. pose proof (Qlt_floor q) as H2.
    rewrite inject_Z_plus in H2. change (inject_Z 1) with 1%Q in H2.
    split; [|split; assumption].
    assert (K : (inject_Z (-1) < inject_Z (Qfloor q))%Q)
      by (change (inject_Z (-1)) with (-1)%Q; lra).
    rewrite <- Zlt_Qlt in K. lia.
  - destruct (Qltb q 0) eqn:E; [|apply Qltb_ge in E; lra].
    pose proof (Qle_ceiling q) as H1. pose proof (Qceiling_lt q) as H2.
    replace (Qceiling q - 1) with (Qceiling q + -1) in H2 by lia.
    rewrite inject_Z_plus in H2.
    change (inject_Z (-1)) with (-1)%Q in H2.
    split; [|split; [lra | assumption]].
    assert (K : (inject_Z (Qceiling q) < inject_Z 1)%Q)
      by (change (inject_Z 1) with 1%Q; lra).
    rewrite <- Zlt_Qlt in K. lia.
Qed.

(** C7, as the code has it.  The size of the wire order is a decimal
    string.  For ADA, the one asset the method treats as integer-size (by
    its symbol), it is the size truncated toward zero: 16.7 gives "16".
    For every other asset it is [str(size)], the float printed in full
    without rounding to a size precision: 0.0123 gives "0.0123". *)
Theorem order_size_format (coin : string) (asset_id : Z) (is_buy : bool)
    (limit_price : num) (size : Q) :
  field_of "s" (Bot.order_wire coin asset_id is_buy limit_price size)
  = Some (VStr (if String.eqb coin "ADA"
                then str_int (int_of_float size)
                else float_repr size)) /\
  ((0 <= size)%Q ->
   0 <= int_of_float size /\
   (inject_Z (int_of_float size) <= size)%Q /\
   (size < inject_Z (int_of_float size) + 1)%Q) /\
  ((size < 0)%Q ->
   int_of_float size <= 0 /\
   (inject_Z (int_of_float size) - 1 < size)%Q /\
   (size <= inject_Z (int_of_float size))%Q) /\
  field_of "s" (Bot.order_wire "ADA" 65 is_buy limit_price (167 # 10))
  = Some (VStr "16") /\
  field_of "s" (Bot.order_wire "ETH" 1 is_buy limit_price (123 # 10000))
  = Some (VStr "0.0123").
Proof.
  split.
  - unfold Bot.order_wire. destruct (String.eqb coin "ADA"); reflexivity.
  - destruct (int_of_float_truncates size) as [H1 H2].
    split; [exact H1|]. split; [exact H2|]. split; reflexivity.
Qed.

(** C7, as stated, fails for a standard asset: the size 0.0123 is sent as
    "0.0123", not formatted to three decimals. *)
Lemma standard_size_keeps_all_digits :
  field_of "s" (Bot.order_wire "ETH" 1 true (Float 4000) (123 # 10000))
  = Some (VStr "0.0123") /\
  field_of "s" (Bot.order_wire "ETH" 1 true (Float 4000) (123 # 10000))
  <> Some (VStr "0.012").
Proof.
  split; [reflexivity | vm_compute; discriminate].
Qed.

(** ** The answer of the exchange *)

Lemma statuses_ok_true (entries : list value) : forall w : world,
  fst (Bot.statuses_ok entries w) = Ok true <-> no_error entries.
Proof.
  unfold no_error.
  induction entries as [|entry rest IH]; intros w.
  - split; [constructor | reflexivity].
  - cbn [Bot.statuses_ok]. unfold bind, lift.
    destruct (py_in "error" entry) as [[|]|e] eqn:E.
    + split.
      * destruct (py_item entry "error"); cbn; discriminate.
      * intros H. apply Forall_inv in H. congruence.
    + rewrite IH. split.
      * intros H. now constructor.
      * intros H. now apply Forall_inv_tail in H.
    + split; [cbn; discriminate|].
      intros H. apply Forall_inv in H. congruence.
Qed.

(** The bot reports success exactly on an accepted answer. *)
Lemma order_outcome_true (response : http_response) (w : world) :
  fst (Bot.order_outcome response w) = Ok true <-> accepted response.
Proof.
  unfold Bot.order_outcome, accepted, bind, lift. split.
  - destruct (status_code response =? 200) eqn:E200; [|cbn; discriminate].
    apply Z.eqb_eq in E200.
    destruct (json response) as [result|e]; [|cbn; discriminate].
    destruct (py_get result "status" VNone) as [status|e] eqn:Es; [|cbn; discriminate].
    destruct (eq_str status "ok") eqn:Eok; [|cbn; discriminate].
    destruct (py_get result "response" (VDict [])) as [rd|e] eqn:Er; [|cbn; discriminate].
    destruct (py_get rd "data" (VDict [])) as [data|e] eqn:Ed; [|cbn; discriminate].
    destruct (py_get data "statuses" (VList [])) as [statuses|e] eqn:Et; [|cbn; discriminate].
    intros H. split; [exact E200|].
    exists result, status, rd, data, statuses.
    repeat (split; [first [reflexivity | assumption]|]).
    destruct (truthy statuses); [|now left].
    right. destruct (py_iter statuses) as [entries|e]; [|cbn in H; discriminate].
    exists entries. split; [reflexivity|].
    apply (statuses_ok_true entries w).
    destruct (Bot.statuses_ok entries w) as [[[|]|e] w1]; cbn in H |- *;
      first [reflexivity | discriminate].
  - intros [E200 [result [status [rd [data [statuses
      [Hj [Hs [Hok [Hr [Hd [Ht Hst]]]]]]]]]]]].
    rewrite E200, Hj. cbn [Z.eqb Pos.eqb]. rewrite Hs, Hok, Hr, Hd, Ht.
    destruct Hst as [Hf | [entries [Hi Hno]]].
    + rewrite Hf. reflexivity.
    + destruct (truthy statuses); [|reflexivity].
      rewrite Hi. apply (statuses_ok_true entries w) in Hno.
      destruct (Bot.statuses_ok entries w) as [[[|]|e] w1]; cbn in Hno |- *;
        first [reflexivity | discriminate].
Qed.


(** ** Runs of the bot's helpers *)

Lemma only_logs_refl (w : world) : only_logs w w.
Proof.
  split; [reflexivity|]. split; [reflexivity|]. split; [reflexivity|].
  exists []. now rewrite app_nil_r.
Qed.

Lemma only_logs_trans (w1 w2 w3 : world) :
  only_logs w1 w2 -> only_logs w2 w3 -> only_logs w1 w3.
Proof.
  intros [N1 [P1 [T1 [l1 L1]]]] [N2 [P2 [T2 [l2 L2]]]].
  split; [congruence|]. split; [congruence|]. split; [congruence|].
  exists (l1 ++ l2). rewrite L2, L1, app_assoc. reflexivity.
Qed.

Lemma requested_only_logs (req : string * value) (w1 w2 w3 : world) :
  requested req w1 w2 -> only_logs w2 w3 -> requested req w1 w3.
Proof.
  intros [N1 [P1 [T1 [l1 L1]]]] [N2 [P2 [T2 [l2 L2]]]].
  split; [congruence|]. split; [congruence|]. split; [congruence|].
  exists (l1 ++ l2). rewrite L2, L1, app_assoc. reflexivity.
Qed.

Lemma emit_only_logs (l : level) (msg : string) (w : world) :
  only_logs w (snd (emit l msg w)).
Proof.
  split; [reflexivity|]. split; [reflexivity|]. split; [reflexivity|].
  now exists [(l, msg)].
Qed.

Lemma requests_post_requested (url : string) (payload : value) (w : world) :
  requested (url, payload) w (snd (requests_post url payload w)).
Proof.
  unfold requests_post, requested.
  destruct (network w) as [|r rest];
    (split; [reflexivity|]; split; [reflexivity|]; split; [reflexivity|];
     exists []; cbn; now rewrite app_nil_r).
Qed.

Lemma requests_post_outcome (url : string) (payload : value) (w : world) :
  fst (requests_post url payload w)
  = match network w with
    | r :: _ => r
    | [] => Raise RequestException
    end.
Proof. unfold requests_post. destruct (network w); reflexivity. Qed.

Lemma requests_post_log (url : string) (payload : value) (w : world) :
  log (snd (requests_post url payload w)) = log w.
Proof. unfold requests_post. destruct (network w); reflexivity. Qed.

(** [_get_asset_id] never raises; it makes one metadata request; it
    returns [None] when that request fails. *)
Lemma get_asset_id_run (self : Bot.bot) (coin : string) (w : world) :
  exists r w',
    Bot._get_asset_id self coin w = (Ok r, w') /\
    requested meta_request w w' /\
    (fetch_fails w -> r = None).
Proof.
  unfold Bot._get_asset_id, try_except, bind, lift, fetch_fails.
  pose proof (requests_post_requested Bot.INFO_URL (VDict [("type", VStr "meta")]) w) as Hreq.
  pose proof (requests_post_outcome Bot.INFO_URL (VDict [("type", VStr "meta")]) w) as Hout.
  destruct (requests_post Bot.INFO_URL (VDict [("type", VStr "meta")]) w) as [o w1].
  cbn [fst snd] in Hreq, Hout.
  assert (Hlog : forall l msg, requested meta_request w (snd (emit l msg w1)))
    by (intros; eapply requested_only_logs; [exact Hreq | apply emit_only_logs]).
  destruct o as [response|e].
  2:{ eexists _, _. split; [reflexivity|]. split; [apply Hlog | intros _; reflexivity]. }
  destruct (status_code response =? 200) eqn:E200.
  2:{ eexists _, _. split; [reflexivity|]. split; [apply Hlog | intros _; reflexivity]. }
  assert (Hnf : match network w with
                | [] => True
                | Raise _ :: _ => True
                | Ok response0 :: _ => status_code response0 <> 200
                end -> forall r : option Z, r = None).
  { destruct (network w) as [|[resp|e] rest]; try discriminate.
    injection Hout as ->. apply Z.eqb_eq in E200. intros H. contradiction. }
  destruct (json response) as [data|e].
  2:{ eexists _, _. split; [reflexivity|]. split; [apply Hlog | intros H; now apply Hnf]. }
  destruct (py_get data "universe" (VList [])) as [universe|e].
  2:{ eexists _, _. split; [reflexivity|]. split; [apply Hlog | intros H; now apply Hnf]. }
  destruct (py_iter universe) as [entries|e].
  2:{ eexists _, _. split; [reflexivity|]. split; [apply Hlog | intros H; now apply Hnf]. }
  destruct (Bot.find_index coin entries 0) as [[index|]|e].
  - eexists _, _. split; [reflexivity|]. split; [apply Hlog | intros H; now apply Hnf].
  - eexists _, _. split; [reflexivity|]. split; [apply Hlog | intros H; now apply Hnf].
  - eexists _, _. split; [reflexivity|]. split; [apply Hlog | intros H; now apply Hnf].
Qed.

Lemma py_min_cases (a b : Q) :
  (py_min a b = a /\ (a <= b)%Q) \/ (py_min a b = b /\ (b < a)%Q).
Proof.
  unfold py_min. destruct (Qltb b a) eqn:E.
  - right. split; [reflexivity | now apply Qltb_lt].
  - left. split; [reflexivity | now apply Qltb_ge].
Qed.

Lemma py_max_cases (a b : Q) :
  (py_max a b = a /\ (b <= a)%Q) \/ (py_max a b = b /\ (a < b)%Q).
Proof.
  unfold py_max. destruct (Qltb a b) eqn:E.
  - right. split; [reflexivity | now apply Qltb_lt].
  - left. split; [reflexivity | now apply Qltb_ge].
Qed.

Lemma in_band_iff (reference limit : Q) :
  in_band reference limit <->
  ((0 <= reference)%Q /\
   (reference - (5 # 100) * reference <= limit <= reference + (5 # 100) * reference)%Q) \/
  ((reference < 0)%Q /\
   (reference + (5 # 100) * reference <= limit <= reference - (5 # 100) * reference)%Q).
Proof.
  unfold in_band. rewrite Qabs_Qle_condition.
  destruct (Qlt_le_dec reference 0) as [Hneg | Hpos].
  - rewrite (Qabs_neg reference) by lra. split.
    + intros H. right. split; [exact Hneg | lra].
    + intros [[H _] | [_ H]]; lra.
  - rewrite (Qabs_pos reference) by lra. split.
    + intros H. left. split; [exact Hpos | lra].
    + intros [[_ H] | [H _]]; lra.
Qed.

(** The clamp of lines 982 to 992. *)
Lemma clamp_in_band (is_buy : bool) (price reference : Q) :
  let max_deviation := (reference * (5 # 100))%Q in
  let limit_price :=
    if is_buy
    then py_min price (reference + max_deviation * (5 # 10))%Q
    else py_max price (reference - max_deviation * (5 # 10))%Q in
  let limit_price :=
    py_max (reference - max_deviation)%Q
      (py_min limit_price (reference + max_deviation)%Q) in
  in_band reference limit_price /\ biased is_buy reference limit_price.
Proof.
  cbv zeta. split.
  - apply in_band_iff.
    destruct (Qlt_le_dec reference 0) as [Hneg | Hpos]; [right | left];
      (split; [assumption|]);
      match goal with
      | |- context [py_max ?a (py_min ?b ?c)] =>
          destruct (py_min_cases b c) as [[-> H1] | [-> H1]];
          [ destruct (py_max_cases a b) as [[-> H2] | [-> H2]]
          | destruct (py_max_cases a c) as [[-> H2] | [-> H2]] ]
      end; lra.
  - intros Hpos. destruct is_buy.
    + match goal with
      | |- context [py_max ?a (py_min (py_min ?p ?q) ?c)] =>
          destruct (py_min_cases p q) as [[-> H0] | [-> H0]];
          match goal with
          | |- context [py_max a (py_min ?b c)] =>
              destruct (py_min_cases b c) as [[-> H1] | [-> H1]];
              [ destruct (py_max_cases a b) as [[-> H2] | [-> H2]]
              | destruct (py_max_cases a c) as [[-> H2] | [-> H2]] ]
          end
      end; lra.
    + match goal with
      | |- context [py_max ?a (py_min (py_max ?p ?q) ?c)] =>
          destruct (py_max_cases p q) as [[-> H0] | [-> H0]];
          match goal with
          | |- context [py_max a (py_min ?b c)] =>
              destruct (py_min_cases b c) as [[-> H1] | [-> H1]];
              [ destruct (py_max_cases a b) as [[-> H2] | [-> H2]]
              | destruct (py_max_cases a c) as [[-> H2] | [-> H2]] ]
          end
      end; lra.
Qed.

Lemma in_band_self (price : Q) : in_band price price /\ forall b, biased b price price.
Proof.
  split.
  - apply in_band_iff. destruct (Qlt_le_dec price 0); [right | left]; split; lra.
  - intros [|] H; lra.
Qed.

Lemma find_mark_price_source (coin : string) (price : Q) :
  forall (entries : list value) (q : Q),
  Bot.find_mark_price coin entries price = Ok (Some q) ->
  q = price \/
  exists asset v, In asset entries /\ named coin asset /\
                  py_lookup asset "markPx" = Ok (Some v) /\ py_float v = Ok q.
Proof.
  induction entries as [|asset rest IH]; intros q H; [discriminate|].
  cbn [Bot.find_mark_price] in H.
  destruct (py_get asset "name" VNone) as [name|] eqn:En; [|discriminate].
  destruct (eq_str name coin) eqn:Ec.
  - destruct (py_lookup asset "markPx") as [[v|]|] eqn:El; try discriminate.
    + destruct (py_float v) as [q'|] eqn:Ef; [|discriminate].
      injection H as <-. right. exists asset, v.
      split; [now left|]. split; [now exists name|]. split; assumption.
    + injection H as <-. now left.
  - destruct (IH q H) as [-> | [a [v [Hin Ha]]]]; [now left|].
    right. exists a, v. split; [now right | exact Ha].
Qed.

(** The price block never raises; it makes one metadata request; when it
    binds a reference price, the limit price lies in the band around it
    and is biased as the side demands, and the reference is the listed mark
    price or the caller's price; when the request fails no reference is
    bound. *)
Lemma limit_price_block_run (coin : string) (is_buy : bool) (price : Q) (w : world) :
  exists limit reference w',
    Bot.limit_price_block coin is_buy price w = (Ok (limit, reference), w') /\
    requested meta_request w w' /\
    (forall r, reference = Some r ->
       in_band r limit /\ biased is_buy r limit /\
       reference_source coin price (hd_error (network w)) r) /\
    (fetch_fails w -> reference = None).
Proof.
  unfold Bot.limit_price_block, try_except, bind, lift, fetch_fails.
  pose proof (requests_post_requested Bot.INFO_URL (VDict [("type", VStr "meta")]) w) as Hreq.
  pose proof (requests_post_outcome Bot.INFO_URL (VDict [("type", VStr "meta")]) w) as Hout.
  destruct (requests_post Bot.INFO_URL (VDict [("type", VStr "meta")]) w) as [o w1].
  cbn [fst snd] in Hreq, Hout.
  assert (Hlog : forall l msg, requested meta_request w (snd (emit l msg w1)))
    by (intros; eapply requested_only_logs; [exact Hreq | apply emit_only_logs]).
  assert (Hself : forall r, Some price = Some r ->
            in_band r price /\ biased is_buy r price /\
            reference_source coin price (hd_error (network w)) r).
  { intros r [= <-]. destruct (in_band_self price) as [H1 H2].
    split; [exact H1|]. split; [apply H2 | now left]. }
  destruct o as [response|e].
  2:{ eexists _, _, _. split; [reflexivity|]. split; [apply Hlog|].
      split; [discriminate | reflexivity]. }
  destruct (status_code response =? 200) eqn:E200.
  2:{ eexists _, _, _. split; [reflexivity|]. split; [apply Hlog|].
      split; [discriminate | reflexivity]. }
  apply Z.eqb_eq in E200.
  assert (Hhead : hd_error (network w) = Some (Ok response)).
  { destruct (network w) as [|x rest]; [discriminate | now subst x]. }
  assert (Hnf : match network w with
                | [] => True
                | Raise _ :: _ => True
                | Ok response0 :: _ => status_code response0 <> 200
                end -> forall r : option Q, r = None).
  { destruct (network w) as [|[resp|e] rest]; try discriminate.
    injection Hhead as ->. intros H. contradiction. }
  destruct (json response) as [data|e] eqn:Ej.
  2:{ eexists _, _, _. split; [reflexivity|]. split; [apply Hlog|].
      split; [discriminate | reflexivity]. }
  destruct (py_get data "universe" (VList [])) as [universe|e] eqn:Eu.
  2:{ eexists _, _, _. split; [reflexivity|]. split; [apply Hlog|].
      split; [discriminate | reflexivity]. }
  destruct (py_iter universe) as [entries|e] eqn:Ei.
  2:{ eexists _, _, _. split; [reflexivity|]. split; [apply Hlog|].
      split; [exact Hself | intros H; now apply Hnf]. }
  assert (Hsrc : forall q, Bot.find_mark_price coin entries price = Ok (Some q) ->
            reference_source coin price (hd_error (network w)) q).
  { intros q Hq. destruct (find_mark_price_source _ _ _ _ Hq) as [-> | [a [v [Hin Ha]]]];
      [now left|].
    right. exists response, entries, a, v. split; [exact Hhead|].
    split; [|split; [exact Hin | exact Ha]].
    split; [exact E200|]. exists data, universe. auto. }
  destruct (Bot.find_mark_price coin entries price) as [[q|]|e] eqn:Ef.
  - eexists _, _, _. split; [reflexivity|]. split; [apply Hlog|].
    split; [|intros H; now apply Hnf].
    intros r [= <-]. destruct (clamp_in_band is_buy price q) as [H1 H2].
    split; [exact H1|]. split; [exact H2 | now apply Hsrc].
  - eexists _, _, _. split; [reflexivity|]. split; [exact Hreq|].
    split; [|intros H; now apply Hnf].
    intros r [= <-]. destruct (clamp_in_band is_buy price price) as [H1 H2].
    split; [exact H1|]. split; [exact H2 | now left].
  - eexists _, _, _. split; [reflexivity|]. split; [apply Hlog|].
    split; [exact Hself | intros H; now apply Hnf].
Qed.

(** [_get_tick_size_and_precision] never raises; it makes one request for
    the market prices; when that request fails it returns its fallback and
    logs one record, at INFO or ERROR level. *)
Lemma get_tick_size_and_precision_run (self : Bot.bot)
    (asset_id : Z) (w : world) :
  exists ticks w',
    Bot._get_tick_size_and_precision self asset_id w = (Ok ticks, w') /\
    requested mids_request w w' /\
    (fetch_fails w ->
     ticks = fallback_ticks w asset_id /\
     exists msg, log w' = log w ++ [(fallback_level w, msg)]).
Proof.
  unfold Bot._get_tick_size_and_precision, try_except, bind, lift, fetch_fails,
    fallback_ticks, fallback_level.
  pose proof (requests_post_requested Bot.INFO_URL (VDict [("type", VStr "allMids")]) w) as Hreq.
  pose proof (requests_post_outcome Bot.INFO_URL (VDict [("type", VStr "allMids")]) w) as Hout.
  pose proof (requests_post_log Bot.INFO_URL (VDict [("type", VStr "allMids")]) w) as Hl1.
  destruct (requests_post Bot.INFO_URL (VDict [("type", VStr "allMids")]) w) as [o w1].
  cbn [fst snd] in Hreq, Hout, Hl1.
  assert (Hlog : forall l msg, requested mids_request w (snd (emit l msg w1)))
    by (intros; eapply requested_only_logs; [exact Hreq | apply emit_only_logs]).
  destruct o as [response|e].
  2:{ destruct (asset_id =? 65);
        (eexists _, _; split; [reflexivity|]; split; [apply Hlog|]; intros _;
         destruct (network w) as [|[x|x] rest]; try discriminate;
         (split; [reflexivity|]; eexists; cbn; rewrite Hl1; reflexivity)). }
  assert (Hhead : exists rest, network w = Ok response :: rest).
  { destruct (network w) as [|x rest]; [discriminate | subst x; now exists rest]. }
  destruct Hhead as [rest Hhead]. rewrite Hhead.
  destruct (status_code response =? 200) eqn:E200.
  2:{ eexists _, _. split; [reflexivity|]. split; [apply Hlog|]. intros _.
      split; [reflexivity|]. eexists. cbn. rewrite Hl1. reflexivity. }
  apply Z.eqb_eq in E200.
  assert (Hnf : forall P : Prop, status_code response <> 200 -> P)
    by (intros P H; contradiction).
  destruct (json response) as [market_data|e].
  2:{ cbn. destruct (asset_id =? 65);
        (eexists _, _; split; [reflexivity|]; split; [apply Hlog | apply Hnf]). }
  destruct (Bot.asset_id_to_coin asset_id) as [coin|].
  2:{ eexists _, _. split; [reflexivity|]. split; [apply Hlog | apply Hnf]. }
  destruct (py_in coin market_data) as [[|]|e].
  3:{ cbn. destruct (asset_id =? 65);
        (eexists _, _; split; [reflexivity|]; split; [apply Hlog | apply Hnf]). }
  2:{ eexists _, _. split; [reflexivity|]. split; [apply Hlog | apply Hnf]. }
  destruct (py_item market_data coin) as [price_str|e].
  2:{ cbn. destruct (asset_id =? 65);
        (eexists _, _; split; [reflexivity|]; split; [apply Hlog | apply Hnf]). }
  destruct (truthy price_str).
  2:{ eexists _, _. split; [reflexivity|]. split; [apply Hlog | apply Hnf]. }
  destruct (py_float price_str) as [price_float|e].
  2:{ cbn. destruct (asset_id =? 65);
        (eexists _, _; split; [reflexivity|]; split; [apply Hlog | apply Hnf]). }
  eexists _, _. split; [reflexivity|]. split; [apply Hlog | apply Hnf].
Qed.

Lemma find_max_leverage_source (coin : string) :
  forall (entries : list value) (m : value),
  Bot.find_max_leverage coin entries = Ok (Some m) ->
  exists asset, In asset entries /\ named coin asset /\
                py_get asset "maxLeverage" (VInt 10) = Ok m.
Proof.
  induction entries as [|asset rest IH]; intros m H; [discriminate|].
  cbn [Bot.find_max_leverage] in H.
  destruct (py_get asset "name" VNone) as [name|] eqn:En; [|discriminate].
  destruct (eq_str name coin) eqn:Ec.
  - destruct (py_get asset "maxLeverage" (VInt 10)) as [m'|] eqn:El; [|discriminate].
    injection H as <-. exists asset.
    split; [now left|]. split; [now exists name | exact El].
  - destruct (IH m H) as [a [Hin Ha]]. exists a. split; [now right | exact Ha].
Qed.

(** [_get_max_leverage] never raises; it makes one metadata request; the
    maximum it returns is the listed one or the default 10, and it is the
    default when the request fails. *)
Lemma get_max_leverage_run (self : Bot.bot) (coin : string) (w : world) :
  exists m w',
    Bot._get_max_leverage self coin w = (Ok m, w') /\
    requested meta_request w w' /\
    max_leverage_source coin (hd_error (network w)) m /\
    (fetch_fails w -> m = VInt 10).
Proof.
  unfold Bot._get_max_leverage, try_except, bind, lift, fetch_fails.
  pose proof (requests_post_requested Bot.INFO_URL (VDict [("type", VStr "meta")]) w) as Hreq.
  pose proof (requests_post_outcome Bot.INFO_URL (VDict [("type", VStr "meta")]) w) as Hout.
  destruct (requests_post Bot.INFO_URL (VDict [("type", VStr "meta")]) w) as [o w1].
  cbn [fst snd] in Hreq, Hout.
  assert (Hlog : forall l msg, requested meta_request w (snd (emit l msg w1)))
    by (intros; eapply requested_only_logs; [exact Hreq | apply emit_only_logs]).
  assert (Hdef : max_leverage_source coin (hd_error (network w)) (VInt 10)) by now left.
  destruct o as [response|e].
  2:{ eexists _, _. split; [reflexivity|]. split; [apply Hlog|]. split; [exact Hdef | reflexivity]. }
  destruct (status_code response =? 200) eqn:E200.
  2:{ eexists _, _. split; [reflexivity|]. split; [apply Hlog|]. split; [exact Hdef | reflexivity]. }
  apply Z.eqb_eq in E200.
  assert (Hhead : hd_error (network w) = Some (Ok response)).
  { destruct (network w) as [|x rest]; [discriminate | now subst x]. }
  assert (Hnf : match network w with
                | [] => True
                | Raise _ :: _ => True
                | Ok response0 :: _ => status_code response0 <> 200
                end -> forall m : value, m = VInt 10).
  { destruct (network w) as [|[resp|e] rest]; try discriminate.
    injection Hhead as ->. intros H. contradiction. }
  destruct (json response) as [data|e] eqn:Ej.
  2:{ eexists _, _. split; [reflexivity|]. split; [apply Hlog|]. split; [exact Hdef | reflexivity]. }
  destruct (py_get data "universe" (VList [])) as [universe|e] eqn:Eu.
  2:{ eexists _, _. split; [reflexivity|]. split; [apply Hlog|]. split; [exact Hdef | reflexivity]. }
  destruct (py_iter universe) as [entries|e] eqn:Ei.
  2:{ eexists _, _. split; [reflexivity|]. split; [apply Hlog|]. split; [exact Hdef | reflexivity]. }
  destruct (Bot.find_max_leverage coin entries) as [[m|]|e] eqn:Ef.
  - eexists _, _. split; [reflexivity|]. split; [apply Hlog|].
    split; [|intros H; now apply Hnf].
    destruct (find_max_leverage_source _ _ _ Ef) as [a [Hin Ha]].
    right. exists response, entries, a. split; [exact Hhead|].
    split; [|split; [exact Hin | exact Ha]].
    split; [exact E200|]. exists data, universe. auto.
  - eexists _, _. split; [reflexivity|]. split; [apply Hlog|]. split; [exact Hdef | reflexivity].
  - eexists _, _. split; [reflexivity|]. split; [apply Hlog|]. split; [exact Hdef | reflexivity].
Qed.

Lemma hd_error_tl {A : Type} (l : list A) : hd_error (tl l) = nth_error l 1.
Proof. destruct l as [|a [|b r]]; reflexivity. Qed.

Lemma hd_error_tl3 {A : Type} (l : list A) : hd_error (tl (tl (tl l))) = nth_error l 3.
Proof. destruct l as [|a [|b [|c [|d r]]]]; reflexivity. Qed.

Lemma bot_sign_run {EA : EthAccount} (self : Bot.bot) (action : value)
    (vault_address : option string) (nonce : Z) (expires_after : option Z)
    (is_mainnet : bool) (w : world) :
  exists r w',
    Bot.sign_l1_action_exact self action vault_address nonce expires_after is_mainnet w
    = (r, w') /\
    only_logs w w' /\
    (forall signature, r = Ok signature ->
       exists wallet,
         from_key (Some (Bot.private_key self)) = Ok wallet /\
         Minimal.sign_l1_action_exact wallet action vault_address nonce expires_after
           is_mainnet = Ok signature).
Proof.
  destruct (from_key (Some (Bot.private_key self))) as [wallet|e] eqn:Ek.
  - rewrite (bot_sign_l1_action_exact_run self wallet _ _ _ _ _ w Ek).
    eexists _, _. split; [reflexivity|]. split.
    + split; [reflexivity|]. split; [reflexivity|]. split; [reflexivity|].
      eexists. cbn. rewrite <- app_assoc. reflexivity.
    + intros signature H. exists wallet. split; [reflexivity | exact H].
  - unfold Bot.sign_l1_action_exact, bind, lift. rewrite Ek.
    eexists _, _. split; [reflexivity|]. split; [apply only_logs_refl | discriminate].
Qed.

Lemma statuses_ok_only_logs (entries : list value) : forall w : world,
  only_logs w (snd (Bot.statuses_ok entries w)).
Proof.
  induction entries as [|entry rest IH]; intros w.
  - apply only_logs_refl.
  - cbn [Bot.statuses_ok]. unfold bind, lift.
    destruct (py_in "error" entry) as [[|]|e].
    + destruct (py_item entry "error"); [apply emit_only_logs | apply only_logs_refl].
    + apply IH.
    + apply only_logs_refl.
Qed.

Lemma order_outcome_only_logs (response : http_response) (w : world) :
  only_logs w (snd (Bot.order_outcome response w)).
Proof.
  unfold Bot.order_outcome, bind, lift.
  destruct (status_code response =? 200); [|apply emit_only_logs].
  destruct (json response) as [result|e]; [|apply only_logs_refl].
  destruct (py_get result "status" VNone) as [status|e]; [|apply only_logs_refl].
  destruct (eq_str status "ok"); [|apply emit_only_logs].
  destruct (py_get result "response" (VDict [])) as [rd|e]; [|apply only_logs_refl].
  destruct (py_get rd "data" (VDict [])) as [data|e]; [|apply only_logs_refl].
  destruct (py_get data "statuses" (VList [])) as [statuses|e]; [|apply only_logs_refl].
  destruct (truthy statuses).
  - destruct (py_iter statuses) as [entries|e]; [|apply only_logs_refl].
    pose proof (statuses_ok_only_logs entries w) as H.
    destruct (Bot.statuses_ok entries w) as [[[|]|e] w1]; cbn [fst snd] in H |- *.
    + eapply only_logs_trans; [exact H | apply emit_only_logs].
    + exact H.
    + exact H.
  - apply emit_only_logs.
Qed.

(** ** Runs of [execute_real_order] *)

(** Every run of [execute_real_order] returns; it posts the metadata
    request alone (the asset was not found), or the three information
    requests alone (no reference price was bound, or signing failed), or
    the three information requests and then one signed order.  In the last
    case the limit price was clamped around a reference price before it was
    rounded to the tick, and the method returns [True] exactly when the
    exchange accepted the order. *)
Lemma execute_real_order_run {EA : EthAccount} (self : Bot.bot) (coin side : string)
    (size price : Q) (w : world) :
  exists r w',
    Bot.execute_real_order self coin side size price w = (Ok r, w') /\
    ((r = false /\ posted w' = posted w ++ [meta_request]) \/
     (r = false /\ posted w' = posted w ++ [meta_request; meta_request; mids_request]) \/
     (exists asset_id reference limit tick_size precision signature wallet,
        posted w' = posted w ++
          [ meta_request; meta_request; mids_request;
            (exchange_url self,
             signed_payload
               (order_action
                  (Bot.order_wire coin asset_id (is_buy_side side)
                     (Bot.round_to_tick limit tick_size precision) size))
               (now_ms w) signature) ] /\
        in_band reference limit /\
        biased (is_buy_side side) reference limit /\
        reference_source coin price (nth_error (network w) 1) reference /\
        from_key (Some (Bot.private_key self)) = Ok wallet /\
        Minimal.sign_l1_action_exact wallet
          (order_action
             (Bot.order_wire coin asset_id (is_buy_side side)
                (Bot.round_to_tick limit tick_size precision) size))
          None (now_ms w) None true = Ok signature /\
        (r = true <->
         exists response,
           nth_error (network w) 3 = Some (Ok response) /\ accepted response))) /\
    (fetch_fails w -> r = false /\ posted w' = posted w ++ [meta_request]).
Proof.
  unfold Bot.execute_real_order, try_except, bind.
  unfold emit at 1. cbv beta iota.
  match goal with
  | |- context [Bot._get_asset_id self coin ?w0] =>
      destruct (get_asset_id_run self coin w0) as [aid [w1 [E1 [R1 F1]]]]
  end.
  rewrite E1. destruct R1 as [N1 [P1 [T1 _]]].
  cbn [network posted log now_ms] in N1, P1, T1, F1.
  destruct aid as [asset_id|].
  2:{ unfold emit, ret. cbv beta iota. eexists _, _. split; [reflexivity|].
      cbn [network posted log now_ms]. split; [left; split; [reflexivity | exact P1]|].
      intros _. split; [reflexivity | exact P1]. }
  assert (Hff : forall P : Prop, fetch_fails w -> P).
  { intros P H. apply F1 in H. discriminate. }
  unfold emit at 1. cbv beta iota.
  match goal with
  | |- context [Bot.limit_price_block coin ?b price ?w2] =>
      destruct (limit_price_block_run coin b price w2)
        as [limit [reference [w3 [E3 [R3 [B3 _]]]]]]
  end.
  rewrite E3. cbv beta iota. destruct R3 as [N3 [P3 [T3 _]]].
  cbn [network posted log now_ms] in N3, P3, T3, B3.
  destruct (get_tick_size_and_precision_run self asset_id w3)
    as [[tick_size precision] [w4 [E4 [[N4 [P4 [T4 _]]] _]]]].
  rewrite E4. cbv beta iota.
  destruct reference as [reference|].
  2:{ unfold raise, emit, ret. cbv beta iota. eexists _, _. split; [reflexivity|].
      cbn [network posted log now_ms]. split; [|apply Hff].
      right. left. split; [reflexivity|].
      rewrite P4, P3, P1, <- !app_assoc. reflexivity. }
  destruct (B3 reference eq_refl) as [Hband [Hbias Hsrc]].
  rewrite N1, hd_error_tl in Hsrc.
  unfold emit at 1. cbv beta iota. unfold get_time_ms. cbv beta iota.
  unfold emit at 1. cbv beta iota. cbn [network posted log now_ms].
  match goal with
  | |- context [Bot.sign_l1_action_exact self ?a None ?n None true ?w5] =>
      destruct (bot_sign_run self a None n None true w5)
        as [sg [w6 [E6 [[N6 [P6 [T6 _]]] S6]]]]
  end.
  rewrite E6. cbn [network posted log now_ms] in N6, P6, T6.
  destruct sg as [signature|e].
  2:{ unfold emit, ret. cbv beta iota. eexists _, _. split; [reflexivity|].
      cbn [network posted log now_ms]. split; [|apply Hff].
      right. left. split; [reflexivity|].
      rewrite P6, P4, P3, P1, <- !app_assoc. reflexivity. }
  destruct (S6 signature eq_refl) as [wallet [Hkey Hsig]].
  rewrite T4, T3, T1 in Hsig.
  unfold emit at 1. cbv beta iota. unfold emit at 1. cbv beta iota.
  match goal with
  | |- context [requests_post ?u ?p ?w7] =>
      pose proof (requests_post_requested u p w7) as R8;
      pose proof (requests_post_outcome u p w7) as O8;
      destruct (requests_post u p w7) as [o w8]
  end.
  cbn [fst snd network posted log now_ms] in R8, O8.
  destruct R8 as [N8 [P8 [T8 _]]].
  cbn [network posted log now_ms] in N8, P8, T8.
  rewrite N6, N4, N3, N1 in O8.
  assert (Hposted : forall w9, only_logs w8 w9 ->
    posted w9 = posted w ++
      [ meta_request; meta_request; mids_request;
        (exchange_url self,
         signed_payload
           (order_action
              (Bot.order_wire coin asset_id (is_buy_side side)
                 (Bot.round_to_tick limit tick_size precision) size))
           (now_ms w) signature) ]).
  { intros w9 [_ [P9 _]]. rewrite P9, P8, P6, P4, P3, P1, T4, T3, T1, <- !app_assoc.
    reflexivity. }
  assert (Hhead : forall response, o = Ok response ->
            nth_error (network w) 3 = Some (Ok response)).
  { intros response ->. rewrite <- hd_error_tl3.
    destruct (tl (tl (tl (network w)))) as [|x rest]; [discriminate | now subst x]. }
  assert (Hfinish : forall (r : bool) (w9 : world),
    only_logs w8 w9 ->
    (r = true <->
     exists response, nth_error (network w) 3 = Some (Ok response) /\ accepted response) ->
    ((r = false /\ posted w9 = posted w ++ [meta_request]) \/
     (r = false /\ posted w9 = posted w ++ [meta_request; meta_request; mids_request]) \/
     (exists asset_id reference limit tick_size precision signature wallet,
        posted w9 = posted w ++
          [ meta_request; meta_request; mids_request;
            (exchange_url self,
             signed_payload
               (order_action
                  (Bot.order_wire coin asset_id (is_buy_side side)
                     (Bot.round_to_tick limit tick_size precision) size))
               (now_ms w) signature) ] /\
        in_band reference limit /\
        biased (is_buy_side side) reference limit /\
        reference_source coin price (nth_error (network w) 1) reference /\
        from_key (Some (Bot.private_key self)) = Ok wallet /\
        Minimal.sign_l1_action_exact wallet
          (order_action
             (Bot.order_wire coin asset_id (is_buy_side side)
                (Bot.round_to_tick limit tick_size precision) size))
          None (now_ms w) None true = Ok signature /\
        (r = true <->
         exists response,
           nth_error (network w) 3 = Some (Ok response) /\ accepted response))) /\
    (fetch_fails w -> r = false /\ posted w9 = posted w ++ [meta_request])).
  { intros r w9 H9 Hr. split; [|apply Hff].
    right. right.
    exists asset_id, reference, limit, tick_size, precision, signature, wallet.
    split; [now apply Hposted|]. auto 10. }
  destruct o as [response|e].
  2:{ unfold emit, ret. cbv beta iota. eexists _, _. split; [reflexivity|].
      apply Hfinish.
      - apply emit_only_logs.
      - split; [discriminate|]. intros [response [Hn _]].
        destruct (tl (tl (tl (network w)))) as [|x rest] eqn:Et.
        + rewrite <- hd_error_tl3, Et in Hn. discriminate.
        + rewrite <- hd_error_tl3, Et in Hn. cbn in Hn. congruence. }
  unfold emit at 1. cbv beta iota. unfold emit at 1. cbv beta iota.
  match goal with
  | |- context [Bot.order_outcome response ?w9] =>
      pose proof (order_outcome_only_logs response w9) as L9;
      pose proof (order_outcome_true response w9) as A9;
      destruct (Bot.order_outcome response w9) as [[b|e] w10]
  end; cbn [fst snd] in L9, A9.
  - eexists _, _. split; [reflexivity|]. apply Hfinish.
    + eapply only_logs_trans; [|exact L9].
      eapply only_logs_trans; [apply emit_only_logs | apply emit_only_logs].
    + split.
      * intros ->. exists response. split; [now apply Hhead | now apply A9].
      * intros [resp [Hn Ha]]. rewrite (Hhead response eq_refl) in Hn.
        injection Hn as <-. apply A9 in Ha. congruence.
  - unfold emit, ret. cbv beta iota. eexists _, _. split; [reflexivity|].
    apply Hfinish.
    + eapply only_logs_trans; [|apply emit_only_logs].
      eapply only_logs_trans; [|exact L9].
      eapply only_logs_trans; [apply emit_only_logs | apply emit_only_logs].
    + split; [discriminate|].
      intros [resp [Hn Ha]]. rewrite (Hhead response eq_refl) in Hn.
      injection Hn as <-. apply A9 in Ha. discriminate.
Qed.

(** ** Runs of [set_leverage] *)


(** ** What the bot sends *)

Lemma signed_requests_app (w w' : world) (l : list (string * value)) :
  posted w' = posted w ++ l -> signed_requests w w' = filter carries_action l.
Proof.
  intros H. unfold signed_requests.
  rewrite H, skipn_app, skipn_all, Nat.sub_diag. reflexivity.
Qed.


(** The bot reports success only for an accepted answer of the exchange to
    its order. *)
Lemma execute_real_order_true {EA : EthAccount} (self : Bot.bot) (coin side : string)
    (size price : Q) (w : world) :
  fst (Bot.execute_real_order self coin side size price w) = Ok true ->
  exists response,
    nth_error (network w) 3 = Some (Ok response) /\ accepted response.
Proof.
  destruct (execute_real_order_run self coin side size price w)
    as [r [w' [E [[[-> _] | [[-> _] | H]] _]]]]; rewrite E; cbn [fst];
    try discriminate.
  destruct H as [? [? [? [? [? [? [? [_ [_ [_ [_ [_ [_ Hr]]]]]]]]]]]]].
  intros [= ->]. now apply Hr.
Qed.



(** The scenarios of the specification: a buy at 96 and a sell at 106
    against a reference of 100 and a tick of 0.01. *)
Example buy_96_reference_100 :
  map price_of
    (signed_requests trading_world
       (snd (@Bot.execute_real_order toy_account sample_bot "ETH" "buy"
               (1 # 100) 96 trading_world)))
  = [Some (VStr "96.0")].
Proof. vm_compute. reflexivity. Qed.

Example sell_106_reference_100 :
  map price_of
    (signed_requests trading_world
       (snd (@Bot.execute_real_order toy_account sample_bot "ETH" "sell"
               (1 # 100) 106 trading_world)))
  = [Some (VStr "105.0")].
Proof. vm_compute. reflexivity. Qed.

Example buy_106_reference_100 :
  map price_of
    (signed_requests trading_world
       (snd (@Bot.execute_real_order toy_account sample_bot "ETH" "buy"
               (1 # 100) 106 trading_world)))
  = [Some (VStr "102.5")].
Proof. vm_compute. reflexivity. Qed.

(** The band is a fact of the price before rounding.  With a mark price
    of 100.001 a very low buy is clamped to the lower bound 95.00095 and
    then rounded to the tick 0.01: the price sent is 95.0. *)
Example price_rounded_after_the_clamp :
  map price_of
    (signed_requests fine_world
       (snd (@Bot.execute_real_order toy_account sample_bot "ETH" "buy"
               (1 # 100) 1 fine_world)))
  = [Some (VStr "95.0")] /\
  in_band (100001 # 1000) (9500095 # 100000) /\
  ~ in_band (100001 # 1000) 95.
Proof.
  split; [vm_compute; reflexivity|]. split.
  - unfold in_band. apply Qle_bool_iff. vm_compute. reflexivity.
  - unfold in_band. intros H. apply Qle_bool_iff in H. vm_compute in H. discriminate.
Qed.

(** ** Failing metadata requests *)

Lemma fallback_ticks_unlisted (w : world) (asset_id : Z) :
  Bot.asset_id_to_coin asset_id = None ->
  fallback_ticks w asset_id = (Float (1 # 100), 2%nat).
Proof.
  unfold Bot.asset_id_to_coin, fallback_ticks, Bot.default_tick_sizes,
    Bot.default_precision.
  destruct (asset_id =? 0); [discriminate|].
  destruct (asset_id =? 1); [discriminate|].
  destruct (asset_id =? 5); [discriminate|].
  destruct (asset_id =? 7); [discriminate|].
  destruct (asset_id =? 65); [discriminate|].
  intros _. destruct (network w) as [|[x|x] rest]; reflexivity.
Qed.

(** C8, as the code has it.  When the metadata request that looks the
    asset up fails, [execute_real_order] returns [False] and posts nothing
    but that request: no order is built or sent.  When the request for the
    market prices fails, [_get_tick_size_and_precision] does not fail: it
    logs one record and returns its fallback tick size and precision (0.01
    and 2 for an asset that is not in its table), with which the order goes
    on. *)
Theorem failing_metadata_requests {EA : EthAccount} (self : Bot.bot)
    (coin side : string) (size price : Q) (asset_id : Z) (w : world) :
  fetch_fails w ->
  (exists w',
     Bot.execute_real_order self coin side size price w = (Ok false, w') /\
     posted w' = posted w ++ [meta_request] /\
     signed_requests w w' = []) /\
  (exists w' msg,
     Bot._get_tick_size_and_precision self asset_id w
     = (Ok (fallback_ticks w asset_id), w') /\
     posted w' = posted w ++ [mids_request] /\
     log w' = log w ++ [(fallback_level w, msg)] /\
     (Bot.asset_id_to_coin asset_id = None ->
      fallback_ticks w asset_id = (Float (1 # 100), 2%nat))).
Proof.
  intros Hfail. split.
  - destruct (execute_real_order_run self coin side size price w)
      as [r [w' [E [_ H]]]].
    destruct (H Hfail) as [-> P]. exists w'.
    split; [exact E|]. split; [exact P|].
    rewrite (signed_requests_app _ _ _ P). reflexivity.
  - destruct (get_tick_size_and_precision_run self asset_id w)
      as [ticks [w' [E [[_ [P _]] H]]]].
    destruct (H Hfail) as [-> [msg L]]. exists w', msg.
    split; [exact E|]. split; [exact P|]. split; [exact L|].
    apply fallback_ticks_unlisted.
Qed.

Lemma failing_metadata_requests_witness :
  fetch_fails empty_world /\
  (exists w',
     @Bot.execute_real_order toy_account sample_bot "XRP" "buy" 20 (5231 # 10000)
       empty_world = (Ok false, w') /\
     posted w' = posted empty_world ++ [meta_request] /\
     signed_requests empty_world w' = []) /\
  (exists w' msg,
     Bot._get_tick_size_and_precision sample_bot 2 empty_world
     = (Ok (fallback_ticks empty_world 2), w') /\
     posted w' = posted empty_world ++ [mids_request] /\
     log w' = log empty_world ++ [(fallback_level empty_world, msg)] /\
     (Bot.asset_id_to_coin 2 = None ->
      fallback_ticks empty_world 2 = (Float (1 # 100), 2%nat))).
Proof.
  split; [exact Logic.I|].
  apply (@failing_metadata_requests toy_account sample_bot "XRP" "buy" 20
           (5231 # 10000) 2 empty_world).
  exact Logic.I.
Defined.

(** C8, as stated, fails: the request for the market prices is answered
    with status 503, the asset is not in the bot's table, and yet the order
    is built, priced on the guessed tick 0.01, posted and reported
    successful, while the log holds no warning. *)
Lemma order_sent_on_guessed_tick :
  let run := @Bot.execute_real_order toy_account sample_bot "XRP" "buy" 20
               (5231 # 10000) no_mids_world in
  nth_error (network no_mids_world) 2 = Some (Ok unavailable_response) /\
  fst run = Ok true /\
  map price_of (signed_requests no_mids_world (snd run)) = [Some (VStr "0.52")] /\
  existsb is_warning (log (snd run)) = false.
Proof.
  cbv zeta. split; [reflexivity|].
  split; [vm_compute; reflexivity|].
  split; vm_compute; reflexivity.
Qed.

(** ** Leverage *)



(** With no answer to the metadata request the default maximum applies:
    a request for 50 is sent as 10. *)
Example leverage_default_maximum :
  map leverage_of
    (signed_requests
       {| network := [Ok priced_meta_response; Ok unavailable_response; Ok leverage_response];
          posted := []; log := []; now_ms := 1700000000000 |}
       (snd (@Bot.set_leverage toy_account sample_bot "ETH" 50
               {| network := [Ok priced_meta_response; Ok unavailable_response;
                              Ok leverage_response];
                  posted := []; log := []; now_ms := 1700000000000 |})))
  = [Some (VInt 10)].
Proof. vm_compute. reflexivity. Qed.

(** * Further properties *)

(** ** The asset id *)

Lemma find_index_position (coin : string) :
  forall (universe : list value) (start i : Z),
    Bot.find_index coin universe start = Ok (Some i) <->
    exists (k : nat) (asset : value),
      i = start + Z.of_nat k /\
      nth_error universe k = Some asset /\ named coin asset /\
      forall (j : nat) (a : value),
        (j < k)%nat -> nth_error universe j = Some a -> named_otherwise coin a.
Proof.
  induction universe as [|asset rest IH]; intros start i.
  - split; [discriminate|]. intros [[|k] [a [_ [H _]]]]; discriminate.
  - cbn [Bot.find_index]. split.
    + intros H.
      destruct (py_get asset "name" VNone) as [name|e] eqn:En; [|discriminate].
      destruct (eq_str name coin) eqn:Eq.
      * assert (i = start) by congruence. subst i.
        exists O, asset. split; [lia|]. split; [reflexivity|].
        split; [exists name; auto|]. intros j a Hj. lia.
      * apply IH in H. destruct H as [k [a [Hi [Hn [Hnamed Hfirst]]]]].
        exists (S k), a. split; [lia|]. split; [exact Hn|]. split; [exact Hnamed|].
        intros j b Hj Hb. destruct j as [|j].
        -- cbn in Hb. assert (b = asset) by congruence. subst b. exists name. auto.
        -- apply (Hfirst j b); [lia | exact Hb].
    + intros [k [a [Hi [Hn [Hnamed Hfirst]]]]].
      destruct k as [|k].
      * cbn in Hn. assert (a = asset) by congruence. subst a.
        destruct Hnamed as [name [Hg He]]. rewrite Hg, He. f_equal. f_equal. lia.
      * destruct (Hfirst O asset) as [name [Hg He]]; [lia | reflexivity |].
        rewrite Hg, He. apply IH. exists k, a.
        split; [lia|]. split; [exact Hn|]. split; [exact Hnamed|].
        intros j b Hj Hb. apply (Hfirst (S j) b); [lia | exact Hb].
Qed.

(** X1.  [_get_asset_id] returns the id [i] exactly when the metadata
    request is answered with HTTP 200 and a universe whose entry at
    position [i] is the first one named [coin], every entry before it being
    a dict with another name: the asset id is the position in the
    universe. *)
Theorem get_asset_id_position (self : Bot.bot) (coin : string) (w : world) (i : Z) :
  fst (Bot._get_asset_id self coin w) = Ok (Some i) <->
  exists response entries asset,
    hd_error (network w) = Some (Ok response) /\ universe_of response entries /\
    0 <= i /\ nth_error entries (Z.to_nat i) = Some asset /\ named coin asset /\
    forall (j : nat) (a : value),
      (j < Z.to_nat i)%nat -> nth_error entries j = Some a -> named_otherwise coin a.
Proof.
  unfold Bot._get_asset_id, try_except, bind, lift, requests_post, universe_of, emit, ret.
  destruct (network w) as [|[response|e] rest]; cbn [hd_error fst snd].
  - split; [discriminate|]. intros [? [? [? [H _]]]]. discriminate.
  - split.
    + destruct (status_code response =? 200) eqn:E200; [|discriminate].
      apply Z.eqb_eq in E200.
      destruct (json response) as [data|e] eqn:Ej; [|discriminate].
      destruct (py_get data "universe" (VList [])) as [universe|e] eqn:Eu; [|discriminate].
      destruct (py_iter universe) as [entries|e] eqn:Ei; [|discriminate].
      destruct (Bot.find_index coin entries 0) as [[index|]|e] eqn:Ef;
        cbn [fst]; try discriminate.
      intros H. assert (index = i) by congruence. subst index.
      apply find_index_position in Ef.
      destruct Ef as [k [asset [Hi [Hn [Hnamed Hfirst]]]]].
      assert (Z.to_nat i = k) by lia. subst k.
      exists response, entries, asset.
      split; [reflexivity|]. split; [split; [exact E200 | eauto]|].
      split; [lia|]. auto.
    + intros [resp [entries [asset [Hh [[E200 [data [universe [Hj [Hu Hi]]]]]
        [Hpos [Hn [Hnamed Hfirst]]]]]]]].
      assert (resp = response) by congruence. subst resp.
      rewrite E200, Hj. cbn [Z.eqb Pos.eqb]. rewrite Hu, Hi.
      assert (Ef : Bot.find_index coin entries 0 = Ok (Some i)).
      { apply find_index_position. exists (Z.to_nat i), asset.
        split; [lia|]. auto. }
      rewrite Ef. reflexivity.
  - split; [discriminate|]. intros [? [? [? [H _]]]]. discriminate.
Qed.

(** X2.  The script's [get_asset_id] and the bot's [_get_asset_id] post the
    same request and, whenever the script's returns, return the same id;
    where the script's raises (no answer, a body that is not JSON, a
    universe that is not a list of dicts) the bot's returns [None]. *)
Theorem get_asset_id_script_and_bot (self : Bot.bot) (coin : string) (w : world) :
  posted (snd (Bot._get_asset_id self coin w))
  = posted (snd (Minimal.get_asset_id coin w)) /\
  match fst (Minimal.get_asset_id coin w) with
  | Ok r => fst (Bot._get_asset_id self coin w) = Ok r
  | Raise _ => fst (Bot._get_asset_id self coin w) = Ok None
  end.
Proof.
  unfold Bot._get_asset_id, Minimal.get_asset_id, try_except, bind, lift, requests_post,
    emit, ret.
  destruct (network w) as [|[response|e] rest]; cbn [fst snd];
    [split; reflexivity | | split; reflexivity].
  destruct (status_code response =? 200); [|split; reflexivity].
  destruct (json response) as [data|e]; [|split; reflexivity].
  destruct (py_get data "universe" (VList [])) as [universe|e]; [|split; reflexivity].
  destruct (py_iter universe) as [entries|e]; [|split; reflexivity].
  change (Minimal.find_asset coin entries 0) with (Bot.find_index coin entries 0).
  destruct (Bot.find_index coin entries 0) as [[index|]|e]; split; reflexivity.
Qed.

(** ** Errors and round trips of the hashing helpers *)

Lemma to_bytes_big_inv (z : Z) (n : nat) (b : bytes) :
  to_bytes_big z n = Ok b -> 0 <= z < 2 ^ (8 * Z.of_nat n) /\ b = be_bytes n z.
Proof.
  unfold to_bytes_big.
  destruct (z <? 0) eqn:E0; [discriminate|].
  destruct (2 ^ (8 * Z.of_nat n) <=? z) eqn:E1; [discriminate|].
  apply Z.ltb_ge in E0. apply Z.leb_gt in E1. intros H.
  change (Ok (be_bytes n z) = Ok b) in H. split; [lia | congruence].
Qed.

Lemma to_bytes_big_overflow (z : Z) (n : nat) :
  ~ 0 <= z < 2 ^ (8 * Z.of_nat n) -> to_bytes_big z n = Raise OverflowError.
Proof.
  intros H. unfold to_bytes_big.
  destruct (z <? 0) eqn:E0; [reflexivity|].
  destruct (2 ^ (8 * Z.of_nat n) <=? z) eqn:E1; [reflexivity|].
  apply Z.ltb_ge in E0. apply Z.leb_gt in E1. lia.
Qed.

Lemma fromhex_raises_ValueError : forall (s : string) (e : exn),
  fromhex s = Raise e -> e = ValueError.
Proof.
  fix IH 1. intros [|c r] e; cbn [fromhex]; [discriminate|].
  destruct (is_space c); [apply IH|].
  destruct (hex_value c) as [h|]; destruct r as [|c' r']; try congruence.
  destruct (hex_value c') as [l|]; [|congruence].
  destruct (fromhex r') as [bs|e'] eqn:E; [discriminate|].
  intros H. assert (e = e') by congruence. subst e'. now apply (IH r').
Qed.

(** X3.  [action_hash] checks its arguments in the order it appends them.
    A nonce outside 64 unsigned bits raises [OverflowError], whatever the
    vault address; with a nonce in range, a vault address whose digits
    [bytes.fromhex] refuses raises [ValueError]; with both accepted, an
    expiry outside 64 unsigned bits raises [OverflowError]. *)
Theorem action_hash_argument_errors (action : value) (ser : bytes)
    (vault_address : option string) (nonce : Z) (expires_after : option Z) :
  Msgpack.packb action = Ok ser ->
  (~ 0 <= nonce < 2 ^ 64 ->
   Minimal.action_hash action vault_address nonce expires_after = Raise OverflowError) /\
  (forall a,
     0 <= nonce < 2 ^ 64 -> vault_address = Some a ->
     (forall raw, Minimal.address_to_bytes a <> Ok raw) ->
     Minimal.action_hash action vault_address nonce expires_after = Raise ValueError) /\
  (forall e,
     0 <= nonce < 2 ^ 64 -> vault_ok vault_address ->
     expires_after = Some e -> ~ 0 <= e < 2 ^ 64 ->
     Minimal.action_hash action vault_address nonce expires_after = Raise OverflowError).
Proof.
  intros Hser. unfold Minimal.action_hash, rbind. rewrite Hser.
  split; [|split].
  - intros Hn. now rewrite (to_bytes_big_overflow nonce 8 Hn).
  - intros a Hn -> Hraw. rewrite (to_bytes_big_ok nonce 8 Hn).
    destruct (Minimal.address_to_bytes a) as [raw|e] eqn:Ea.
    + now destruct (Hraw raw).
    + apply fromhex_raises_ValueError in Ea. now subst e.
  - intros e Hn Hv -> He. rewrite (to_bytes_big_ok nonce 8 Hn).
    rewrite (to_bytes_big_overflow e 8 He).
    destruct vault_address as [a|]; [|reflexivity].
    destruct (address_to_bytes_raw a Hv) as [raw [Hraw _]]. now rewrite Hraw.
Qed.

Lemma action_hash_argument_errors_witness :
  Minimal.action_hash sample_order None (-1) None = Raise OverflowError /\
  Minimal.action_hash sample_order (Some "0xzz") 0 None = Raise ValueError /\
  Minimal.action_hash sample_order (Some sample_vault) 0 (Some (2 ^ 64))
  = Raise OverflowError.
Proof.
  split; [|split].
  - apply (action_hash_argument_errors sample_order _ None (-1) None eq_refl). lia.
  - apply (action_hash_argument_errors sample_order _ (Some "0xzz") 0 None eq_refl)
      with (a := "0xzz"); [lia | reflexivity |].
    intros raw H. vm_compute in H. discriminate H.
  - apply (action_hash_argument_errors sample_order _ (Some sample_vault) 0
             (Some (2 ^ 64)) eq_refl) with (e := 2 ^ 64);
      [lia | reflexivity | reflexivity | lia].
Defined.

Lemma lower_drop (n : nat) : forall s : string, lower (drop n s) = drop n (lower s).
Proof.
  induction n as [|k IH]; intros s; [reflexivity|].
  destruct s as [|c r]; [reflexivity | apply IH].
Qed.

(** X4.  The vault address is read without regard to the case of its
    letters: two addresses that differ only in case (a checksummed address
    and its lowercase form) give the same hash, or the same error. *)
Theorem action_hash_vault_case (action : value) (a1 a2 : string)
    (nonce : Z) (expires_after : option Z) :
  lower a1 = lower a2 ->
  Minimal.action_hash action (Some a1) nonce expires_after
  = Minimal.action_hash action (Some a2) nonce expires_after.
Proof.
  intros H. unfold Minimal.action_hash, Minimal.address_to_bytes.
  now rewrite !lower_drop, H.
Qed.

Lemma action_hash_vault_case_witness :
  lower sample_vault = lower sample_vault_lower /\
  Minimal.action_hash sample_order (Some sample_vault) 1700000000000 None
  = Minimal.action_hash sample_order (Some sample_vault_lower) 1700000000000 None.
Proof.
  split; [reflexivity|].
  apply (action_hash_vault_case sample_order sample_vault sample_vault_lower). reflexivity.
Defined.

Lemma lower_hex_char_fixed (c : ascii) : is_lower_hex c = true -> lower_char c = c.
Proof.
  unfold is_lower_hex, lower_char. intros H.
  destruct (((65 <=? code c) && (code c <=? 90))
            || ((192 <=? code c) && (code c <=? 222) && negb (code c =? 215))) eqn:E;
    [|reflexivity].
  rewrite ?orb_true_iff, ?andb_true_iff, ?Z.leb_le in H, E. lia.
Qed.

Lemma lower_hex_fixed : forall s : string, all_lower_hex s = true -> lower s = s.
Proof.
  induction s as [|c r IH]; [reflexivity|]. cbn [all_lower_hex lower]. intros H.
  apply andb_prop in H as [Hc Hr]. now rewrite (lower_hex_char_fixed c Hc), (IH Hr).
Qed.

Lemma address_to_bytes_hex (raw : bytes) :
  Minimal.address_to_bytes (append "0x" (bytes_hex raw)) = Ok raw.
Proof.
  unfold Minimal.address_to_bytes. cbn [append drop].
  rewrite (lower_hex_fixed _ (all_lower_hex_bytes_hex raw)). apply fromhex_bytes_hex.
Qed.

(** X5.  The [connectionId] of the phantom agent is a string that
    [address_to_bytes] reads back into the hash bytes it was made from:
    the agent carries the whole digest. *)
Theorem connection_id_round_trip (hash_bytes : bytes) (is_mainnet : bool) :
  exists s,
    field_of "connectionId" (Minimal.construct_phantom_agent hash_bytes is_mainnet)
    = Some (VStr s) /\
    Minimal.address_to_bytes s = Ok hash_bytes /\
    String.length s = (2 + 2 * List.length hash_bytes)%nat.
Proof.
  exists (append "0x" (bytes_hex hash_bytes)).
  split; [reflexivity|]. split; [apply address_to_bytes_hex|].
  cbn [append String.length]. rewrite length_bytes_hex. lia.
Qed.

(** ** The hashed bytes *)

Lemma action_hash_of_data (action : value) (vault_address : option string)
    (nonce : Z) (expires_after : option Z) :
  Minimal.action_hash action vault_address nonce expires_after
  = (data <- action_hash_data action vault_address nonce expires_after ;;
     Ok (Keccak.keccak256 data))%result.
Proof.
  unfold Minimal.action_hash, action_hash_data, rbind.
  destruct (Msgpack.packb action) as [ser|]; [|reflexivity].
  destruct (to_bytes_big nonce 8) as [n|]; [|reflexivity].
  destruct vault_address as [a|].
  - destruct (Minimal.address_to_bytes a) as [b|]; [|reflexivity].
    destruct expires_after as [e|]; [|reflexivity].
    destruct (to_bytes_big e 8); reflexivity.
  - destruct expires_after as [e|]; [|reflexivity].
    destruct (to_bytes_big e 8); reflexivity.
Qed.

(** The hashed bytes of well-formed arguments, piece by piece. *)
Lemma action_hash_data_layout (action : value) (vault_address : option string)
    (nonce : Z) (expires_after : option Z) (d : bytes) :
  vault_ok vault_address ->
  action_hash_data action vault_address nonce expires_after = Ok d ->
  exists ser vb eb,
    Msgpack.packb action = Ok ser /\
    0 <= nonce < 2 ^ 64 /\
    match vault_address with
    | None => vb = [x00]
    | Some a => exists raw, is_raw_address raw a /\ vb = x01 :: raw
    end /\
    match expires_after with
    | None => eb = []
    | Some e => 0 <= e < 2 ^ 64 /\ eb = x00 :: be_bytes 8 e
    end /\
    d = ser ++ be_bytes 8 nonce ++ vb ++ eb.
Proof.
  intros Hv. unfold action_hash_data, rbind.
  destruct (Msgpack.packb action) as [ser|]; [|discriminate].
  destruct (to_bytes_big nonce 8) as [n|] eqn:En; [|discriminate].
  apply to_bytes_big_inv in En. destruct En as [Hn ->].
  assert (Hvb : exists vb,
            match vault_address with
            | None => Ok ((ser ++ be_bytes 8 nonce) ++ [x00])
            | Some a =>
                match Minimal.address_to_bytes a with
                | Ok b => Ok (((ser ++ be_bytes 8 nonce) ++ [x01]) ++ b)
                | Raise e => Raise e
                end
            end = Ok (ser ++ be_bytes 8 nonce ++ vb) /\
            match vault_address with
            | None => vb = [x00]
            | Some a => exists raw, is_raw_address raw a /\ vb = x01 :: raw
            end).
  { destruct vault_address as [a|].
    - destruct (address_to_bytes_raw a Hv) as [raw [Hraw Hr]].
      exists (x01 :: raw). rewrite Hraw. split; [|exists raw; auto].
      rewrite <- !app_assoc. reflexivity.
    - exists [x00]. split; [|reflexivity]. rewrite <- !app_assoc. reflexivity. }
  destruct Hvb as [vb [-> Hvb]].
  destruct expires_after as [e|].
  - destruct (to_bytes_big e 8) as [b|] eqn:Ee; [|discriminate].
    apply to_bytes_big_inv in Ee. destruct Ee as [He ->].
    intros H. exists ser, vb, (x00 :: be_bytes 8 e).
    split; [reflexivity|]. split; [exact Hn|]. split; [exact Hvb|].
    split; [split; [exact He | reflexivity]|].
    assert (d = ((ser ++ be_bytes 8 nonce ++ vb) ++ [x00]) ++ be_bytes 8 e) by congruence.
    subst d. rewrite <- !app_assoc. reflexivity.
  - intros H. exists ser, vb, [].
    split; [reflexivity|]. split; [exact Hn|]. split; [exact Hvb|].
    split; [reflexivity|].
    assert (d = ser ++ be_bytes 8 nonce ++ vb) by congruence.
    subst d. rewrite app_nil_r. reflexivity.
Qed.

Lemma be_bytes_u64_injective (a b : Z) :
  0 <= a < 2 ^ 64 -> 0 <= b < 2 ^ 64 -> be_bytes 8 a = be_bytes 8 b -> a = b.
Proof.
  intros Ha Hb H. rewrite <- (Z_of_be_u64 a Ha), <- (Z_of_be_u64 b Hb). now rewrite H.
Qed.

Lemma is_address_lower (a : string) :
  is_address a = true -> lower a = append "0x" (lower (drop 2 a)).
Proof.
  unfold is_address. intros H. apply andb_prop in H as [H _]. apply andb_prop in H as [H _].
  destruct a as [|c1 a]; [discriminate|].
  cbn [String.prefix] in H.
  destruct (ascii_dec "0" c1) as [E1|]; [|discriminate].
  destruct a as [|c2 r]; cbn [String.prefix] in H; [discriminate|].
  destruct (ascii_dec "x" c2) as [E2|]; [|discriminate].
  subst c1 c2. reflexivity.
Qed.

(** X6.  The bytes that [action_hash] hashes determine its arguments: for
    one action and well-formed vault addresses, two calls that hash the
    same bytes were given the same nonce, the same vault address (up to
    the case of its letters) and the same expiry. *)
Theorem action_hash_data_unambiguous (action : value)
    (v1 v2 : option string) (n1 n2 : Z) (e1 e2 : option Z) (d : bytes) :
  vault_ok v1 -> vault_ok v2 ->
  action_hash_data action v1 n1 e1 = Ok d ->
  action_hash_data action v2 n2 e2 = Ok d ->
  n1 = n2 /\ option_map lower v1 = option_map lower v2 /\ e1 = e2.
Proof.
  intros Hv1 Hv2 H1 H2.
  destruct (action_hash_data_layout _ _ _ _ _ Hv1 H1)
    as [ser1 [vb1 [eb1 [Hs1 [Hn1 [Hvb1 [Heb1 Hd1]]]]]]].
  destruct (action_hash_data_layout _ _ _ _ _ Hv2 H2)
    as [ser2 [vb2 [eb2 [Hs2 [Hn2 [Hvb2 [Heb2 Hd2]]]]]]].
  assert (ser2 = ser1) by congruence. subst ser2.
  rewrite Hd1 in Hd2. apply app_inv_head in Hd2.
  apply app_inv_length in Hd2; [|now rewrite !length_be_bytes].
  destruct Hd2 as [Hnb Hrest].
  split; [now apply be_bytes_u64_injective|].
  assert (Hexp : eb1 = eb2 -> e1 = e2).
  { destruct e1 as [x1|], e2 as [x2|].
    - destruct Heb1 as [R1 ->], Heb2 as [R2 ->]. intros H.
      f_equal. apply be_bytes_u64_injective; [assumption | assumption | congruence].
    - destruct Heb1 as [_ ->]. subst eb2. discriminate.
    - destruct Heb2 as [_ ->]. subst eb1. discriminate.
    - reflexivity. }
  destruct v1 as [a1|], v2 as [a2|].
  - destruct Hvb1 as [raw1 [[L1 X1] ->]], Hvb2 as [raw2 [[L2 X2] ->]].
    assert (Hr : raw1 ++ eb1 = raw2 ++ eb2) by (cbn in Hrest; congruence).
    apply app_inv_length in Hr; [|congruence]. destruct Hr as [Hraw Heb].
    split; [|now apply Hexp].
    cbn [option_map]. f_equal.
    rewrite (is_address_lower a1 Hv1), (is_address_lower a2 Hv2). congruence.
  - destruct Hvb1 as [raw1 [_ ->]]. subst vb2. discriminate.
  - destruct Hvb2 as [raw2 [_ ->]]. subst vb1. discriminate.
  - subst vb1 vb2. split; [reflexivity|]. apply Hexp. cbn in Hrest. congruence.
Qed.

Lemma action_hash_data_unambiguous_witness :
  1700000000000 = 1700000000000 /\
  option_map lower (Some sample_vault) = option_map lower (Some sample_vault_lower) /\
  Some 1700000060000 = Some 1700000060000.
Proof.
  destruct (action_hash_data sample_order (Some sample_vault) 1700000000000
              (Some 1700000060000)) as [d|e] eqn:E.
  - apply (action_hash_data_unambiguous sample_order
             (Some sample_vault) (Some sample_vault_lower)
             1700000000000 1700000000000 (Some 1700000060000) (Some 1700000060000) d);
      [reflexivity | reflexivity | exact E |].
    rewrite <- E. vm_compute. reflexivity.
  - vm_compute in E. discriminate E.
Defined.

(** Without the check of the address the layout is ambiguous: a vault
    address of 29 bytes, which [action_hash] accepts, hashes like a vault
    address of 20 bytes followed by an expiry. *)
Example malformed_vault_collides :
  Minimal.action_hash sample_order
    (Some "0xabcdef0123456789abcdef0123456789abcdef0100000000000000002a")
    1700000000000 None
  = Minimal.action_hash sample_order (Some sample_vault_lower) 1700000000000 (Some 42).
Proof.
  rewrite !action_hash_of_data. reflexivity.
Qed.

(** ** Tick size and rounding *)




Lemma pow10_pos (n : nat) : 0 < pow10 n.
Proof. unfold pow10. apply Z.pow_pos_nonneg; lia. Qed.


(** X7.  Whatever the market answers, [_get_tick_size_and_precision]
    returns a tick size and a precision that agree: the tick size is
    [10 ** -precision], a positive number, so that the division by the tick
    size in [execute_real_order] is always defined. *)
Theorem tick_size_matches_precision (self : Bot.bot) (asset_id : Z) (w : world) :
  exists tick_size precision w',
    Bot._get_tick_size_and_precision self asset_id w = (Ok (tick_size, precision), w') /\
    (num_Q tick_size == 1 # Z.to_pos (pow10 precision))%Q /\
    (0 < num_Q tick_size)%Q.
Proof.
  assert (Hpos : forall (t : num) (p : nat),
            (num_Q t == 1 # Z.to_pos (pow10 p))%Q ->
            (num_Q t == 1 # Z.to_pos (pow10 p))%Q /\ (0 < num_Q t)%Q).
  { intros t p H. split; [exact H|]. rewrite H. reflexivity. }
  assert (Hhandler : forall w1 : world,
    exists tick_size precision w',
      (if asset_id =? 65 then ret (Float (1 # 100000), 5%nat)
       else ret (Float (1 # 100), 2%nat)) w1 = (Ok (tick_size, precision), w') /\
      (num_Q tick_size == 1 # Z.to_pos (pow10 precision))%Q /\
      (0 < num_Q tick_size)%Q).
  { intros w1. destruct (asset_id =? 65);
      (eexists _, _, _; split; [reflexivity|]; apply Hpos; reflexivity). }
  assert (Hdefault : forall w1 : world,
    exists tick_size precision w',
      (@Ok (num * nat) (Bot.default_tick_sizes asset_id, Bot.default_precision asset_id), w1)
      = (Ok (tick_size, precision), w') /\
      (num_Q tick_size == 1 # Z.to_pos (pow10 precision))%Q /\
      (0 < num_Q tick_size)%Q).
  { intros w1. eexists _, _, _. split; [reflexivity|]. apply Hpos.
    unfold Bot.default_tick_sizes, Bot.default_precision.
    destruct (asset_id =? 0); [reflexivity|].
    destruct (asset_id =? 1); [reflexivity|].
    destruct (asset_id =? 5); [reflexivity|].
    destruct (asset_id =? 7); [reflexivity|].
    destruct (asset_id =? 65); reflexivity. }
  unfold Bot._get_tick_size_and_precision, try_except, bind, lift.
  destruct (requests_post Bot.INFO_URL (VDict [("type", VStr "allMids")]) w) as [o w1].
  unfold emit, ret in *. cbv beta iota.
  destruct o as [response|e]; [|apply Hhandler].
  destruct (status_code response =? 200); [|apply Hdefault].
  destruct (json response) as [market_data|e]; [|apply Hhandler].
  destruct (Bot.asset_id_to_coin asset_id) as [coin|]; [|apply Hdefault].
  destruct (py_in coin market_data) as [[|]|e]; [|apply Hdefault|apply Hhandler].
  destruct (py_item market_data coin) as [price_str|e]; [|apply Hhandler].
  destruct (truthy price_str); [|apply Hdefault].
  destruct (py_float price_str) as [price_float|e]; [|apply Hhandler].
  eexists _, _, _. split; [reflexivity|]. apply Hpos.
  destruct (Bot.decimal_places_of price_float); reflexivity.
Qed.



(** ** What a run of the bot posts and reports *)

(** X9.  [execute_real_order] never raises: whatever the network answers
    and whatever the key, it returns a boolean.  It posts the metadata
    request alone, or the three information requests (metadata twice, then
    the market prices), or these three followed by one signed request to
    the exchange; so it sends one order at most, and only after the three
    information requests. *)
Theorem execute_real_order_requests {EA : EthAccount} (self : Bot.bot)
    (coin side : string) (size price : Q) (w : world) :
  exists r w' infos,
    Bot.execute_real_order self coin side size price w = (Ok r, w') /\
    posted w' = posted w ++ infos ++ signed_requests w w' /\
    (infos = [meta_request] \/ infos = [meta_request; meta_request; mids_request]) /\
    (signed_requests w w' = [] \/
     exists payload,
       signed_requests w w' = [(exchange_url self, payload)] /\
       infos = [meta_request; meta_request; mids_request]) /\
    (r = true -> signed_requests w w' <> []).
Proof.
  destruct (execute_real_order_run self coin side size price w)
    as [r [w' [E [[[Hr P] | [[Hr P] | H]] _]]]].
  - exists r, w', [meta_request]. split; [exact E|].
    rewrite (signed_requests_app w w' _ P).
    assert (F : filter carries_action [meta_request] = []) by reflexivity.
    rewrite F. split; [rewrite P, app_nil_r; reflexivity|]. split; [now left|].
    split; [now left | intros K; congruence].
  - exists r, w', [meta_request; meta_request; mids_request]. split; [exact E|].
    rewrite (signed_requests_app w w' _ P).
    assert (F : filter carries_action [meta_request; meta_request; mids_request] = [])
      by reflexivity.
    rewrite F. split; [rewrite P, app_nil_r; reflexivity|]. split; [now right|].
    split; [now left | intros K; congruence].
  - destruct H as [asset_id [reference [limit [tick_size [precision [signature [wallet
      [P _]]]]]]]].
    exists r, w', [meta_request; meta_request; mids_request]. split; [exact E|].
    rewrite (signed_requests_app w w' _ P).
    match type of P with
    | _ = _ ++ [_; _; _; ?o] =>
        assert (F : filter carries_action [meta_request; meta_request; mids_request; o] = [o])
          by reflexivity
    end.
    rewrite F. split; [exact P|]. split; [now right|].
    split; [right; eexists; split; reflexivity | intros _; discriminate].
Qed.

(** X10.  [execute_real_order] reports success exactly when it has posted
    an order and the exchange has accepted it: the answer to the fourth
    request of the run is HTTP 200, its body has the status ok, and no
    entry of its statuses holds an error. *)
Theorem execute_real_order_success {EA : EthAccount} (self : Bot.bot)
    (coin side : string) (size price : Q) (w : world) :
  fst (Bot.execute_real_order self coin side size price w) = Ok true <->
  signed_requests w (snd (Bot.execute_real_order self coin side size price w)) <> [] /\
  exists response,
    nth_error (network w) 3 = Some (Ok response) /\ accepted response.
Proof.
  destruct (execute_real_order_run self coin side size price w)
    as [r [w' [E [[[Hr P] | [[Hr P] | H]] _]]]]; rewrite E; cbn [fst snd].
  - rewrite (signed_requests_app w w' _ P). subst r.
    split; [discriminate | intros [K _]; now destruct K].
  - rewrite (signed_requests_app w w' _ P). subst r.
    split; [discriminate | intros [K _]; now destruct K].
  - destruct H as [asset_id [reference [limit [tick_size [precision [signature [wallet
      [P [_ [_ [_ [_ [_ Hr]]]]]]]]]]]]].
    rewrite (signed_requests_app w w' _ P). split.
    + intros K. assert (r = true) by congruence.
      split; [discriminate | now apply Hr].
    + intros [_ K]. f_equal. now apply Hr.
Qed.

Lemma hd_error_tl2 {A : Type} (l : list A) : hd_error (tl (tl l)) = nth_error l 2.
Proof. destruct l as [|a [|b [|c r]]]; reflexivity. Qed.

(** Every run of [set_leverage] returns; it reports success exactly when
    it has posted the update and the exchange has answered it with HTTP
    200 and the status ok. *)
Lemma set_leverage_answer {EA : EthAccount} (self : Bot.bot) (coin : string)
    (leverage : Z) (w : world) :
  exists r w',
    Bot.set_leverage self coin leverage w = (Ok r, w') /\
    ((r = false /\ posted w' = posted w ++ [meta_request]) \/
     (r = false /\ posted w' = posted w ++ [meta_request; meta_request]) \/
     (exists asset_id sent signature,
        posted w' = posted w ++
          [ meta_request; meta_request;
            (exchange_url self,
             signed_payload (leverage_action asset_id sent) (now_ms w) signature) ] /\
        network w' = tl (tl (tl (network w))) /\ now_ms w' = now_ms w /\
        (r = true <->
         exists response,
           nth_error (network w) 2 = Some (Ok response) /\ leverage_accepted response))).
Proof.
  unfold Bot.set_leverage, try_except, bind.
  destruct (get_asset_id_run self coin w) as [aid [w1 [E1 [[N1 [P1 [T1 _]]] _]]]].
  rewrite E1.
  destruct aid as [asset_id|].
  2:{ unfold emit, ret. cbv beta iota. eexists _, _. split; [reflexivity|].
      cbn [network posted log now_ms]. left. split; [reflexivity | exact P1]. }
  destruct (get_max_leverage_run self coin w1)
    as [max_leverage [w2 [E2 [[N2 [P2 [T2 _]]] _]]]].
  rewrite E2. cbv beta iota.
  unfold lift, py_gt.
  destruct (as_int max_leverage) as [m|] eqn:Em.
  2:{ unfold emit, ret. cbv beta iota. eexists _, _. split; [reflexivity|].
      cbn [network posted log now_ms]. right. left. split; [reflexivity|].
      rewrite P2, P1, <- !app_assoc. reflexivity. }
  cbv beta iota.
  match goal with
  | |- context [?c w2] =>
      lazymatch c with
      | (if m <? leverage then _ else _) =>
          assert (Hsent : exists sent w3, c w2 = (Ok sent, w3) /\ only_logs w2 w3)
      end
  end.
  { destruct (m <? leverage).
    - eexists _, _. unfold emit, ret. cbv beta iota.
      split; [reflexivity | apply (emit_only_logs WARNING "Leverage limited" w2)].
    - eexists _, _. unfold ret. split; [reflexivity | apply only_logs_refl]. }
  destruct Hsent as [sent [w3 [E3 [N3 [P3 [T3 _]]]]]].
  rewrite E3. cbv beta iota. unfold get_time_ms. cbv beta iota.
  match goal with
  | |- context [Bot.sign_l1_action_exact self ?a None ?n None true ?w5] =>
      destruct (bot_sign_run self a None n None true w5)
        as [sg [w6 [E6 [[N6 [P6 [T6 _]]] _]]]]
  end.
  rewrite E6.
  destruct sg as [signature|e].
  2:{ unfold emit, ret. cbv beta iota. eexists _, _. split; [reflexivity|].
      cbn [network posted log now_ms]. right. left. split; [reflexivity|].
      rewrite P6, P3, P2, P1, <- !app_assoc. reflexivity. }
  unfold emit at 1. cbv beta iota.
  match goal with
  | |- context [requests_post ?u ?p ?w7] =>
      pose proof (requests_post_requested u p w7) as R8;
      pose proof (requests_post_outcome u p w7) as O8;
      destruct (requests_post u p w7) as [o w8]
  end.
  cbn [fst snd network posted log now_ms] in R8, O8.
  destruct R8 as [N8 [P8 [T8 _]]].
  cbn [network posted log now_ms] in N8, P8, T8.
  rewrite N6, N3, N2, N1 in O8.
  assert (Hhead : forall response, o = Ok response ->
            nth_error (network w) 2 = Some (Ok response)).
  { intros response ->. rewrite <- hd_error_tl2.
    destruct (tl (tl (network w))) as [|x rest]; [discriminate | now subst x]. }
  assert (Hfinish : forall (r : bool) (w9 : world),
    only_logs w8 w9 ->
    (r = true <->
     exists response,
       nth_error (network w) 2 = Some (Ok response) /\ leverage_accepted response) ->
    (r = false /\ posted w9 = posted w ++ [meta_request]) \/
    (r = false /\ posted w9 = posted w ++ [meta_request; meta_request]) \/
    (exists asset_id sent signature,
       posted w9 = posted w ++
         [ meta_request; meta_request;
           (exchange_url self,
            signed_payload (leverage_action asset_id sent) (now_ms w) signature) ] /\
       network w9 = tl (tl (tl (network w))) /\ now_ms w9 = now_ms w /\
       (r = true <->
        exists response,
          nth_error (network w) 2 = Some (Ok response) /\ leverage_accepted response))).
  { intros r w9 [N9 [P9 [T9 _]]] Hr. right. right. exists asset_id, sent, signature.
    split; [|split; [|split; [|exact Hr]]].
    - rewrite P9, P8, P6, P3, P2, P1, T3, T2, T1, <- !app_assoc. reflexivity.
    - rewrite N9, N8, N6, N3, N2, N1. reflexivity.
    - rewrite T9, T8, T6, T3, T2, T1. reflexivity. }
  assert (Hno : forall response,
            o = Ok response -> ~ leverage_accepted response ->
            false = true <->
            exists response0,
              nth_error (network w) 2 = Some (Ok response0) /\ leverage_accepted response0).
  { intros response Ho Hna. split; [discriminate|].
    intros [resp [Hn Ha]]. rewrite (Hhead response Ho) in Hn.
    assert (resp = response) by congruence. subst resp. contradiction. }
  destruct o as [response|e].
  2:{ unfold emit, ret. cbv beta iota. eexists _, _. split; [reflexivity|].
      apply Hfinish; [apply emit_only_logs|].
      split; [discriminate|]. intros [response [Hn _]].
      rewrite <- hd_error_tl2 in Hn.
      destruct (tl (tl (network w))) as [|x rest]; [discriminate|].
      cbn in Hn. congruence. }
  destruct (status_code response =? 200) eqn:E200.
  2:{ unfold emit, ret. cbv beta iota. eexists _, _. split; [reflexivity|].
      apply Hfinish; [apply emit_only_logs|].
      apply (Hno response eq_refl). intros [K _]. apply Z.eqb_neq in E200. contradiction. }
  apply Z.eqb_eq in E200.
  unfold lift.
  destruct (json response) as [result|e] eqn:Ej.
  2:{ unfold emit, ret. cbv beta iota. eexists _, _. split; [reflexivity|].
      apply Hfinish; [apply emit_only_logs|].
      apply (Hno response eq_refl). intros [_ [x [y [K _]]]]. congruence. }
  destruct (py_get result "status" VNone) as [status|e] eqn:Es.
  2:{ unfold emit, ret. cbv beta iota. eexists _, _. split; [reflexivity|].
      apply Hfinish; [apply emit_only_logs|].
      apply (Hno response eq_refl). intros [_ [x [y [K1 [K2 _]]]]]. congruence. }
  destruct (eq_str status "ok") eqn:Eok.
  - unfold emit, ret. cbv beta iota. eexists _, _. split; [reflexivity|].
    apply Hfinish; [apply emit_only_logs|].
    split; [|reflexivity]. intros _. exists response.
    split; [now apply Hhead|]. split; [exact E200|]. exists result, status. auto.
  - unfold emit, ret. cbv beta iota. eexists _, _. split; [reflexivity|].
    apply Hfinish; [apply emit_only_logs|].
    apply (Hno response eq_refl). intros [_ [x [y [K1 [K2 K3]]]]]. congruence.
Qed.

(** X11.  [set_leverage] never raises.  It posts the metadata request
    once or twice and then one signed update at most; it reports success
    exactly when it has posted the update and the exchange has answered it
    (the third request of the run) with HTTP 200 and a body whose status is
    ok. *)
Theorem set_leverage_requests_and_success {EA : EthAccount} (self : Bot.bot)
    (coin : string) (leverage : Z) (w : world) :
  exists r w',
    Bot.set_leverage self coin leverage w = (Ok r, w') /\
    (exists infos,
       posted w' = posted w ++ infos ++ signed_requests w w' /\
       (infos = [meta_request] \/ infos = [meta_request; meta_request])) /\
    (signed_requests w w' = [] \/
     exists payload, signed_requests w w' = [(exchange_url self, payload)]) /\
    (r = true <->
     signed_requests w w' <> [] /\
     exists response,
       nth_error (network w) 2 = Some (Ok response) /\ leverage_accepted response).
Proof.
  destruct (set_leverage_answer self coin leverage w)
    as [r [w' [E [[Hr P] | [[Hr P] | H]]]]]; exists r, w'; (split; [exact E|]).
  - rewrite (signed_requests_app w w' _ P).
    assert (F : filter carries_action [meta_request] = []) by reflexivity. rewrite F.
    split; [exists [meta_request]; split; [now rewrite app_nil_r | now left]|].
    split; [now left|]. subst r.
    split; [discriminate | intros [K _]; now destruct K].
  - rewrite (signed_requests_app w w' _ P).
    assert (F : filter carries_action [meta_request; meta_request] = []) by reflexivity.
    rewrite F.
    split; [exists [meta_request; meta_request]; split; [now rewrite app_nil_r | now right]|].
    split; [now left|]. subst r.
    split; [discriminate | intros [K _]; now destruct K].
  - destruct H as [asset_id [sent [signature [P [_ [_ Hr]]]]]].
    rewrite (signed_requests_app w w' _ P).
    match type of P with
    | _ = _ ++ [_; _; ?o] =>
        assert (F : filter carries_action [meta_request; meta_request; o] = [o])
          by reflexivity
    end.
    rewrite F.
    split; [exists [meta_request; meta_request]; split; [exact P | now right]|].
    split; [right; eexists; reflexivity|].
    rewrite Hr. split; [intros K; split; [discriminate | exact K] | intros [_ K]; exact K].
Qed.

(** ** The limit price in closed form *)

Lemma clamp_closed_form (is_buy : bool) (price reference : Q) :
  (0 <= reference)%Q ->
  let max_deviation := (reference * (5 # 100))%Q in
  let limit_price :=
    if is_buy
    then py_min price (reference + max_deviation * (5 # 10))%Q
    else py_max price (reference - max_deviation * (5 # 10))%Q in
  let limit_price :=
    py_max (reference - max_deviation)%Q
      (py_min limit_price (reference + max_deviation)%Q) in
  let lowest := ((if is_buy then 95 # 100 else 975 # 1000) * reference)%Q in
  let highest := ((if is_buy then 1025 # 1000 else 105 # 100) * reference)%Q in
  ((price <= lowest)%Q -> (limit_price == lowest)%Q) /\
  ((lowest <= price <= highest)%Q -> (limit_price == price)%Q) /\
  ((highest <= price)%Q -> (limit_price == highest)%Q).
Proof.
  intros Hpos. cbv zeta. destruct is_buy.
  - match goal with
    | |- context [py_max ?a (py_min (py_min ?p ?q) ?c)] =>
        destruct (py_min_cases p q) as [[-> H0] | [-> H0]];
        match goal with
        | |- context [py_max a (py_min ?b c)] =>
            destruct (py_min_cases b c) as [[-> H1] | [-> H1]];
            [ destruct (py_max_cases a b) as [[-> H2] | [-> H2]]
            | destruct (py_max_cases a c) as [[-> H2] | [-> H2]] ]
        end
    end; repeat split; intros; lra.
  - match goal with
    | |- context [py_max ?a (py_min (py_max ?p ?q) ?c)] =>
        destruct (py_max_cases p q) as [[-> H0] | [-> H0]];
        match goal with
        | |- context [py_max a (py_min ?b c)] =>
            destruct (py_min_cases b c) as [[-> H1] | [-> H1]];
            [ destruct (py_max_cases a b) as [[-> H2] | [-> H2]]
            | destruct (py_max_cases a c) as [[-> H2] | [-> H2]] ]
        end
    end; repeat split; intros; lra.
Qed.

(** X12.  When the metadata list a mark price for the asset, not
    negative, the limit price [execute_real_order] computes (before it
    rounds it to the tick) is the caller's price clamped to an interval
    around that reference: from 95 percent to 102.5 percent of it for a
    buy, from 97.5 percent to 105 percent for a sell.  A price inside the
    interval is kept as it is. *)
Theorem limit_price_is_clamped_price (coin : string) (is_buy : bool) (price : Q)
    (w : world) (response : http_response) (entries : list value) (reference : Q) :
  hd_error (network w) = Some (Ok response) ->
  universe_of response entries ->
  Bot.find_mark_price coin entries price = Ok (Some reference) ->
  (0 <= reference)%Q ->
  exists limit_price,
    fst (Bot.limit_price_block coin is_buy price w) = Ok (limit_price, Some reference) /\
    let lowest := ((if is_buy then 95 # 100 else 975 # 1000) * reference)%Q in
    let highest := ((if is_buy then 1025 # 1000 else 105 # 100) * reference)%Q in
    ((price <= lowest)%Q -> (limit_price == lowest)%Q) /\
    ((lowest <= price <= highest)%Q -> (limit_price == price)%Q) /\
    ((highest <= price)%Q -> (limit_price == highest)%Q).
Proof.
  intros Hh [E200 [data [universe [Hj [Hu Hi]]]]] Hf Hpos.
  unfold Bot.limit_price_block, try_except, bind, lift, requests_post.
  destruct (network w) as [|x rest]; [discriminate|].
  cbn [hd_error] in Hh. assert (x = Ok response) by congruence. subst x.
  rewrite E200, Hj. cbn [Z.eqb Pos.eqb]. rewrite Hu, Hi, Hf.
  unfold emit, ret. cbv beta iota. cbn [fst].
  eexists. split; [reflexivity|].
  apply (clamp_closed_form is_buy price reference Hpos).
Qed.

Lemma limit_price_is_clamped_price_witness :
  exists limit_price,
    fst (Bot.limit_price_block "ETH" true 96 trading_world) = Ok (limit_price, Some 100%Q) /\
    let lowest := ((if true then 95 # 100 else 975 # 1000) * 100)%Q in
    let highest := ((if true then 1025 # 1000 else 105 # 100) * 100)%Q in
    ((96 <= lowest)%Q -> (limit_price == lowest)%Q) /\
    ((lowest <= 96 <= highest)%Q -> (limit_price == 96)%Q) /\
    ((highest <= 96)%Q -> (limit_price == highest)%Q).
Proof.
  apply (limit_price_is_clamped_price "ETH" true 96 trading_world priced_meta_response
           [ VDict [ ("name", VStr "BTC"); ("maxLeverage", VInt 40);
                     ("markPx", VStr "100000") ];
             VDict [ ("name", VStr "ETH"); ("maxLeverage", VInt 25);
                     ("markPx", VStr "100") ];
             VDict [ ("name", VStr "XRP"); ("maxLeverage", VInt 20) ] ]
           100%Q).
  - reflexivity.
  - split; [reflexivity|]. eexists _, _. split; [reflexivity|]. split; reflexivity.
  - reflexivity.
  - discriminate.
Defined.

(** ** Runs of the script *)


(** ** The precision read off a market price *)

Lemma hex_digit_decimal (m : Z) :
  0 <= m < 10 ->
  Ascii.eqb (hex_digit m) "." = false /\
  (Ascii.eqb (hex_digit m) "0" = true <-> m = 0).
Proof.
  intros H.
  assert (K : m = 0 \/ m = 1 \/ m = 2 \/ m = 3 \/ m = 4 \/ m = 5 \/ m = 6 \/ m = 7
              \/ m = 8 \/ m = 9) by lia.
  repeat (destruct K as [K | K]; [subst m; split; [reflexivity|];
    split; [reflexivity || discriminate | reflexivity || discriminate]|]).
  subst m. split; [reflexivity|]. split; discriminate.
Qed.

Lemma append_nil_r (s : string) : append s EmptyString = s.
Proof. induction s as [|c r IH]; [reflexivity | cbn; now rewrite IH]. Qed.

Lemma append_assoc (a b c : string) : append (append a b) c = append a (append b c).
Proof. induction a as [|x r IH]; [reflexivity | cbn; now rewrite IH]. Qed.

Lemma length_append (a b : string) :
  String.length (append a b) = (String.length a + String.length b)%nat.
Proof. induction a as [|x r IH]; [reflexivity | cbn; now rewrite IH]. Qed.

Lemma has_char_append (c : ascii) (a b : string) :
  has_char c (append a b) = has_char c a || has_char c b.
Proof.
  induction a as [|x r IH]; [reflexivity|]. cbn. rewrite IH. apply orb_assoc.
Qed.

Lemma length_decimal_digits (n : nat) : forall z : Z,
  String.length (decimal_digits n z) = n.
Proof.
  induction n as [|k IH]; intros z; [reflexivity|].
  cbn [decimal_digits]. rewrite length_append, IH. cbn. lia.
Qed.

Lemma decimal_digits_no_point (n : nat) : forall z : Z,
  has_char "." (decimal_digits n z) = false.
Proof.
  induction n as [|k IH]; intros z; [reflexivity|].
  cbn [decimal_digits]. rewrite has_char_append, IH. cbn [has_char orb].
  destruct (hex_digit_decimal (z mod 10)) as [H _]; [apply Z.mod_pos_bound; lia|].
  now rewrite H.
Qed.

Lemma decimal_digits_zero (n : nat) : decimal_digits n 0 = zeros n.
Proof.
  induction n as [|k IH]; [reflexivity|].
  cbn [decimal_digits]. change (0 / 10) with 0. rewrite IH.
  clear IH. induction k as [|j IH]; [reflexivity|].
  cbn [zeros append]. now rewrite IH.
Qed.

(** More digits than needed are zeros in front. *)
Lemma decimal_digits_pad (j : nat) : forall (k : nat) (z : Z),
  0 <= z < 10 ^ Z.of_nat k ->
  decimal_digits (j + k) z = append (zeros j) (decimal_digits k z).
Proof.
  intros k. induction k as [|k IH]; intros z Hz.
  - change (10 ^ Z.of_nat 0) with 1 in Hz. assert (z = 0) by lia. subst z.
    rewrite Nat.add_0_r, decimal_digits_zero. cbn. now rewrite append_nil_r.
  - replace (j + S k)%nat with (S (j + k)) by lia. cbn [decimal_digits].
    rewrite IH, append_assoc; [reflexivity|].
    rewrite Nat2Z.inj_succ, Z.pow_succ_r in Hz by lia.
    split; [apply Z.div_pos; lia | apply Z.div_lt_upper_bound; lia].
Qed.

(** [digits] writes the decimal digits of a number, without leading
    zeros. *)
Lemma digits_aux_decimal (fuel : nat) : forall (z : Z) (acc : string),
  0 <= z < 10 ^ Z.of_nat fuel -> (0 < fuel)%nat ->
  exists k : nat,
    (0 < k <= fuel)%nat /\ z < 10 ^ Z.of_nat k /\
    (k = 1%nat \/ 10 ^ Z.of_nat (k - 1) <= z) /\
    digits_aux 10 fuel z acc = append (decimal_digits k z) acc.
Proof.
  induction fuel as [|f IH]; intros z acc Hz Hf; [lia|].
  cbn [digits_aux]. destruct (z <? 10) eqn:E.
  - apply Z.ltb_lt in E. exists 1%nat. split; [lia|]. split; [exact E|].
    split; [now left|].
    cbn [decimal_digits append]. now rewrite Z.mod_small by lia.
  - apply Z.ltb_ge in E.
    rewrite Nat2Z.inj_succ, Z.pow_succ_r in Hz by lia.
    assert (Hq : 0 <= z / 10 < 10 ^ Z.of_nat f)
      by (split; [apply Z.div_pos; lia | apply Z.div_lt_upper_bound; lia]).
    assert (Hf' : (0 < f)%nat).
    { destruct f; [|lia]. change (10 ^ Z.of_nat 0) with 1 in Hz. lia. }
    destruct (IH (z / 10) (String (hex_digit (z mod 10)) acc) Hq Hf')
      as [k [Hk [Hlt [Hmin Hd]]]].
    pose proof (Z.div_mod z 10) as D. pose proof (Z.mod_pos_bound z 10) as B.
    exists (S k). split; [lia|]. split; [|split].
    + rewrite Nat2Z.inj_succ, Z.pow_succ_r by lia. lia.
    + right. replace (S k - 1)%nat with (S (k - 1)) by lia.
      rewrite Nat2Z.inj_succ, Z.pow_succ_r by lia.
      destruct Hmin as [-> | Hmin]; [cbn; lia | lia].
    + rewrite Hd. cbn [decimal_digits]. now rewrite append_assoc.
Qed.

Lemma digits_decimal (z : Z) :
  0 <= z ->
  exists k : nat,
    (0 < k)%nat /\ z < 10 ^ Z.of_nat k /\
    (k = 1%nat \/ 10 ^ Z.of_nat (k - 1) <= z) /\
    digits 10 z = decimal_digits k z.
Proof.
  intros Hz. unfold digits.
  destruct (digits_aux_decimal (S (Z.to_nat (Z.log2 z))) z EmptyString)
    as [k [Hk [Hlt [Hmin Hd]]]].
  - split; [exact Hz|].
    destruct (Z.eq_dec z 0) as [-> | Hnz]; [reflexivity|].
    pose proof (Z.log2_spec z) as L. pose proof (Z.log2_nonneg z) as N.
    rewrite Nat2Z.inj_succ, Z2Nat.id by exact N.
    apply Z.lt_le_trans with (2 ^ Z.succ (Z.log2 z)); [lia|].
    apply Z.pow_le_mono_l. lia.
  - lia.
  - exists k. split; [lia|]. split; [exact Hlt|]. split; [exact Hmin|].
    now rewrite Hd, append_nil_r.
Qed.

Lemma pad_digits_decimal (n : nat) (z : Z) :
  0 <= z < 10 ^ Z.of_nat n -> (0 < n)%nat -> pad_digits n z = decimal_digits n z.
Proof.
  intros Hz Hn. unfold pad_digits.
  destruct (digits_decimal z) as [k [Hk [Hlt [Hmin Hd]]]]; [lia|].
  rewrite Hd, length_decimal_digits.
  assert (Hkn : (k <= n)%nat).
  { destruct Hmin as [-> | Hmin]; [lia|].
    assert (H : 10 ^ Z.of_nat (k - 1) < 10 ^ Z.of_nat n) by lia.
    apply Z.pow_lt_mono_r_iff in H; lia. }
  replace n with ((n - k) + k)%nat at 2 by lia.
  symmetry. apply decimal_digits_pad. lia.
Qed.

Lemma rstrip_absent (c : ascii) : forall s : string,
  has_char c s = false -> rstrip c s = s.
Proof.
  induction s as [|a r IH]; [reflexivity|]. cbn [has_char rstrip]. intros H.
  apply orb_false_elim in H as [Ha Hr]. rewrite (IH Hr), Ha. now destruct r.
Qed.

(** [rstrip] stops at the last character that is not the stripped one. *)
Lemma rstrip_app_keep (c a : ascii) (y : string) : forall x : string,
  Ascii.eqb a c = false ->
  rstrip c (append x (String a y)) = append x (String a (rstrip c y)).
Proof.
  intros x Ha. induction x as [|b x IH].
  - cbn [append rstrip]. rewrite Ha. now destruct (rstrip c y).
  - cbn [append rstrip]. rewrite IH. now destruct x.
Qed.

Lemma rstrip_app_strip (c : ascii) (y : string) : forall x : string,
  rstrip c y = EmptyString -> rstrip c (append x y) = rstrip c x.
Proof.
  intros x Hy. induction x as [|b x IH]; [exact Hy|].
  cbn [append rstrip]. now rewrite IH.
Qed.

Lemma rstrip_prefix (c : ascii) : forall s : string,
  exists t, s = append (rstrip c s) t.
Proof.
  induction s as [|a r [t IH]]; [now exists EmptyString|].
  cbn [rstrip]. destruct (rstrip c r) as [|b r'].
  - destruct (Ascii.eqb a c).
    + now exists (String a r).
    + exists r. reflexivity.
  - exists t. cbn [append]. f_equal. exact IH.
Qed.

Lemma rstrip_keeps_absent (c a : ascii) (s : string) :
  has_char a s = false -> has_char a (rstrip c s) = false.
Proof.
  destruct (rstrip_prefix c s) as [t H]. intros K. rewrite H, has_char_append in K.
  now apply orb_false_elim in K.
Qed.

Lemma split_absent (c : ascii) : forall s : string,
  has_char c s = false -> split c s = [s].
Proof.
  induction s as [|a r IH]; [reflexivity|]. cbn [has_char split]. intros H.
  apply orb_false_elim in H as [Ha Hr]. now rewrite Ha, (IH Hr).
Qed.

Lemma split_at_first (c : ascii) (y : string) : forall x : string,
  has_char c x = false -> split c (append x (String c y)) = x :: split c y.
Proof.
  induction x as [|a x IH]; intros H.
  - cbn [append split]. now rewrite Ascii.eqb_refl.
  - cbn [has_char] in H. apply orb_false_elim in H as [Ha Hx].
    cbn [append split]. now rewrite Ha, (IH Hx).
Qed.

(** Stripping the zeros at the end of a run of decimal digits. *)
Lemma rstrip_decimal_digits (k : nat) (z : Z) :
  rstrip "0" (decimal_digits (S k) z)
  = if z mod 10 =? 0 then rstrip "0" (decimal_digits k (z / 10))
    else decimal_digits (S k) z.
Proof.
  cbn [decimal_digits].
  destruct (hex_digit_decimal (z mod 10)) as [_ H0]; [apply Z.mod_pos_bound; lia|].
  destruct (z mod 10 =? 0) eqn:E.
  - apply Z.eqb_eq in E. apply rstrip_app_strip. cbn [rstrip].
    now rewrite (proj2 H0 E).
  - apply Z.eqb_neq in E.
    rewrite rstrip_app_keep; [reflexivity|].
    apply not_true_is_false. intros K. now apply H0 in K.
Qed.

(** The digits that remain are as many as the number needs. *)
Lemma stripped_digits_least (n : nat) : forall z : Z,
  0 <= z < 10 ^ Z.of_nat n ->
  let d := String.length (rstrip "0" (decimal_digits n z)) in
  (d <= n)%nat /\ (10 ^ Z.of_nat (n - d) | z) /\
  forall d' : nat, (d' < d)%nat -> ~ (10 ^ Z.of_nat (n - d') | z).
Proof.
  induction n as [|k IH]; intros z Hz; cbv zeta.
  - cbn [decimal_digits rstrip String.length]. split; [lia|].
    split; [apply Z.divide_1_l | intros d' H; lia].
  - rewrite rstrip_decimal_digits.
    rewrite Nat2Z.inj_succ, Z.pow_succ_r in Hz by lia.
    pose proof (Z.div_mod z 10) as D. pose proof (Z.mod_pos_bound z 10) as B.
    destruct (z mod 10 =? 0) eqn:E.
    + apply Z.eqb_eq in E.
      assert (Hq : 0 <= z / 10 < 10 ^ Z.of_nat k)
        by (split; [apply Z.div_pos; lia | apply Z.div_lt_upper_bound; lia]).
      destruct (IH (z / 10) Hq) as [Hd [Hdiv Hleast]].
      set (d := String.length (rstrip "0" (decimal_digits k (z / 10)))) in *.
      split; [lia|]. split.
      * replace (S k - d)%nat with (S (k - d)) by lia.
        rewrite Nat2Z.inj_succ, Z.pow_succ_r by lia.
        destruct Hdiv as [q Hq']. exists q. lia.
      * intros d' Hd' [q Hq'].
        apply (Hleast d' Hd'). exists q.
        replace (S k - d')%nat with (S (k - d')) in Hq' by lia.
        rewrite Nat2Z.inj_succ, Z.pow_succ_r in Hq' by lia. lia.
    + apply Z.eqb_neq in E. rewrite length_decimal_digits.
      split; [lia|]. split.
      * rewrite Nat.sub_diag. apply Z.divide_1_l.
      * intros d' Hd' [q Hq'].
        replace (S k - d')%nat with (S (k - d' )) in Hq' by lia.
        rewrite Nat2Z.inj_succ, Z.pow_succ_r in Hq' by lia.
        apply E. rewrite Hq'.
        replace (q * (10 * 10 ^ Z.of_nat (k - d'))) with ((q * 10 ^ Z.of_nat (k - d')) * 10)
          by lia.
        apply Z.mod_mul. lia.
Qed.

Lemma round_half_even_nonneg (q : Q) : (0 <= q)%Q -> 0 <= round_half_even q.
Proof.
  intros H. unfold round_half_even.
  assert (K : 0 <= Qfloor q).
  { change 0 with (Qfloor 0). now apply Qfloor_resp_le. }
  destruct (Qltb _ _); [exact K|]. destruct (Qltb _ _); [lia|].
  destruct (Z.even _); lia.
Qed.

(** Lines 1234 and 1235 count the digits that remain of the ten decimals
    once the zeros at the end are removed. *)
Lemma decimal_places_of_digits (price_float : Q) :
  Bot.decimal_places_of price_float
  = String.length
      (rstrip "0"
         (decimal_digits 10
            (round_half_even (Qabs price_float * inject_Z (pow10 10)) mod pow10 10))).
Proof.
  unfold Bot.decimal_places_of, format_fixed.
  set (r := round_half_even (Qabs price_float * inject_Z (pow10 10))).
  assert (Hr : 0 <= r).
  { apply round_half_even_nonneg. apply Qmult_le_0_compat; [apply Qabs_nonneg|].
    change 0%Q with (inject_Z 0). rewrite <- Zle_Qle. pose proof (pow10_pos 10). lia. }
  pose proof (pow10_pos 10) as Hp.
  assert (Hz : 0 <= r mod pow10 10 < 10 ^ Z.of_nat 10)
    by (apply Z.mod_pos_bound; exact Hp).
  rewrite (pad_digits_decimal 10 _ Hz) by lia.
  set (F := decimal_digits 10 (r mod pow10 10)).
  destruct (digits_decimal (r / pow10 10)) as [k [_ [_ [_ Hd]]]];
    [apply Z.div_pos; lia|].
  rewrite Hd.
  set (A := decimal_digits k (r / pow10 10)).
  assert (HA : has_char "." A = false) by apply decimal_digits_no_point.
  assert (HF : has_char "." (rstrip "0" F) = false)
    by (apply rstrip_keeps_absent, decimal_digits_no_point).
  assert (Hgen : forall B : string,
            has_char "." B = false ->
            (if has_char "." (rstrip "." (rstrip "0" (append B (String "." F))))
             then String.length
                    (nth 1 (split "." (rstrip "." (rstrip "0" (append B (String "." F)))))
                       EmptyString)
             else O)
            = String.length (rstrip "0" F)).
  { intros B HB.
    rewrite (rstrip_app_keep "0" "." F B eq_refl).
    destruct (rstrip "0" F) as [|a y] eqn:EF.
    - rewrite (rstrip_app_strip "." (String "." EmptyString) B eq_refl).
      rewrite (rstrip_absent "." B HB), HB. reflexivity.
    - cbn [has_char] in HF. apply orb_false_elim in HF as [Ha Hy].
      replace (append B (String "." (String a y)))
        with (append (append B (String "." EmptyString)) (String a y))
        by (rewrite append_assoc; reflexivity).
      rewrite (rstrip_app_keep "." a y _ Ha), (rstrip_absent "." y Hy).
      rewrite append_assoc. cbn [append].
      rewrite has_char_append. cbn [has_char]. rewrite Ascii.eqb_refl, orb_true_r.
      rewrite (split_at_first "." (String a y) B HB).
      rewrite split_absent by (cbn [has_char]; now rewrite Ha, Hy).
      reflexivity. }
  destruct (Qltb price_float 0).
  - apply (Hgen (String "-" A)). cbn [has_char]. now rewrite HA.
  - apply (Hgen A HA).
Qed.

(** X14.  The precision that [_get_tick_size_and_precision] reads off a
    market price (lines 1234 and 1235) is the least number of decimals, ten
    at most, that write the price exactly once it is rounded to ten
    decimals: with [r] the price in units of 1e-10, [r] is a multiple of
    [10 ** (10 - precision)], and of no higher power of ten up to
    [10 ** 10]. *)
Theorem decimal_places_of_least (price_float : Q) :
  let r := round_half_even (Qabs price_float * inject_Z (pow10 10)) in
  let d := Bot.decimal_places_of price_float in
  (d <= 10)%nat /\
  (10 ^ Z.of_nat (10 - d) | r) /\
  forall d' : nat, (d' < d)%nat -> ~ (10 ^ Z.of_nat (10 - d') | r).
Proof.
  cbv zeta. rewrite decimal_places_of_digits.
  set (r := round_half_even (Qabs price_float * inject_Z (pow10 10))).
  pose proof (pow10_pos 10) as Hp.
  assert (Hz : 0 <= r mod pow10 10 < 10 ^ Z.of_nat 10)
    by (apply Z.mod_pos_bound; exact Hp).
  destruct (stripped_digits_least 10 (r mod pow10 10) Hz) as [Hd [Hdiv Hleast]].
  set (d := String.length (rstrip "0" (decimal_digits 10 (r mod pow10 10)))) in *.
  assert (Hpow : forall j : nat, (j <= 10)%nat -> (10 ^ Z.of_nat j | pow10 10)).
  { intros j Hj. unfold pow10. exists (10 ^ Z.of_nat (10 - j)).
    rewrite <- Z.pow_add_r by lia. f_equal. lia. }
  assert (Hiff : forall j : nat, (j <= 10)%nat ->
            (10 ^ Z.of_nat j | r mod pow10 10) <-> (10 ^ Z.of_nat j | r)).
  { intros j Hj. pose proof (Z.div_mod r (pow10 10)) as D.
    destruct (Hpow j Hj) as [c Hc]. split; intros [q Hq].
    - exists (c * (r / pow10 10) + q). lia.
    - exists (q - c * (r / pow10 10)). lia. }
  split; [exact Hd|]. split.
  - apply Hiff; [lia | exact Hdiv].
  - intros d' Hd' H. apply (Hleast d' Hd'). apply Hiff; [lia | exact H].
Qed.

Example decimal_places_of_examples :
  Bot.decimal_places_of (1000005 # 10) = 1%nat /\
  Bot.decimal_places_of (5231 # 10000) = 4%nat /\
  Bot.decimal_places_of 100000 = 0%nat /\
  Bot.decimal_places_of (1 # 3) = 10%nat.
Proof. vm_compute. repeat split. Qed.

(** ** The indicators *)

Example calculate_ema_example :
  option_map (map Qred) (Analyzer.calculate_ema [1; 2; 3; 6; 2]%Q 3)
  = Some [2; 2; 2; 4; 3]%Q /\
  Analyzer.calculate_ema [1; 2]%Q 3 = Some [0; 0]%Q /\
  Analyzer.calculate_ema [1; 2]%Q 0 = None.
Proof. vm_compute. repeat split. Qed.

Example calculate_rsi_example :
  option_map (map Qred) (Analyzer.calculate_rsi [10; 11; 10; 12; 12]%Q 2)
  = Some [50; 50; 50; 200 # 3; 100]%Q /\
  option_map (map Qred) (Analyzer.calculate_rsi [10; 11; 10; 9]%Q 2)
  = Some [50; 50; 50; 0]%Q /\
  option_map (map Qred) (Analyzer.calculate_rsi [5; 5; 5]%Q 0) = Some [100; 100; 100]%Q.
Proof. vm_compute. repeat split. Qed.

Lemma py_div_defined (a b : Q) : ~ (b == 0)%Q -> Analyzer.py_div a b = Some (a / b)%Q.
Proof.
  intros H. unfold Analyzer.py_div. destruct (Qeq_bool b 0) eqn:E; [|reflexivity].
  apply Qeq_bool_iff in E. contradiction.
Qed.

Lemma inject_nat_succ (n : nat) :
  (inject_Z (Z.of_nat (S n)) == inject_Z (Z.of_nat n) + 1)%Q.
Proof. rewrite Nat2Z.inj_succ, <- Z.add_1_r, inject_Z_plus. reflexivity. Qed.

Lemma inject_nat_nonneg (n : nat) : (0 <= inject_Z (Z.of_nat n))%Q.
Proof. change 0%Q with (inject_Z 0). rewrite <- Zle_Qle. lia. Qed.

Lemma inject_nat_pos (n : nat) : (1 <= n)%nat -> (1 <= inject_Z (Z.of_nat n))%Q.
Proof. intros H. change 1%Q with (inject_Z 1). rewrite <- Zle_Qle. lia. Qed.

Lemma fold_sum_bounds (lo hi : Q) : forall (l : list Q) (acc : Q),
  (forall x, In x l -> (lo <= x <= hi)%Q) ->
  (acc + inject_Z (Z.of_nat (List.length l)) * lo <= fold_left Qplus l acc
   <= acc + inject_Z (Z.of_nat (List.length l)) * hi)%Q.
Proof.
  induction l as [|a r IH]; intros acc H.
  - cbn [fold_left List.length Z.of_nat]. change (inject_Z 0) with 0%Q. lra.
  - cbn [fold_left List.length]. rewrite inject_nat_succ.
    destruct (IH (acc + a)%Q (fun x Hx => H x (or_intror Hx))) as [H1 H2].
    destruct (H a (or_introl eq_refl)) as [Ha1 Ha2]. lra.
Qed.

Lemma sum_bounds (lo hi : Q) (l : list Q) :
  (forall x, In x l -> (lo <= x <= hi)%Q) ->
  (inject_Z (Z.of_nat (List.length l)) * lo <= Analyzer.sum l
   <= inject_Z (Z.of_nat (List.length l)) * hi)%Q.
Proof.
  intros H. destruct (fold_sum_bounds lo hi l 0 H) as [H1 H2].
  unfold Analyzer.sum. lra.
Qed.

Lemma firstn_In {A : Type} (x : A) : forall (n : nat) (l : list A),
  In x (firstn n l) -> In x l.
Proof.
  induction n as [|n IH]; intros [|a l] H; try contradiction.
  cbn [firstn] in H. destruct H as [-> | H]; [now left | right; now apply IH].
Qed.

(** The loop of [calculate_ema] keeps whatever the first values and the
    prices satisfy and a weighted mean preserves. *)
Lemma ema_loop_run (prices : list Q) (multiplier : Q) (P : Q -> Prop) :
  (forall p previous,
     In p prices -> P previous ->
     P (p * multiplier + previous * (1 - multiplier))%Q) ->
  forall (n start : nat) (ema_values : list Q),
    List.length ema_values = start -> (1 <= start)%nat ->
    (start + n <= List.length prices)%nat ->
    Forall P ema_values ->
    exists l,
      Analyzer.ema_loop prices multiplier (seq start n) ema_values = Some l /\
      List.length l = (start + n)%nat /\ Forall P l.
Proof.
  intros Hstep. induction n as [|n IH]; intros start ema_values Hlen Hs Hn HP.
  - exists ema_values. split; [reflexivity|]. split; [lia | exact HP].
  - cbn [seq Analyzer.ema_loop].
    destruct (nth_error prices start) as [p|] eqn:Ep.
    2:{ apply nth_error_None in Ep. lia. }
    destruct (nth_error ema_values (start - 1)) as [previous|] eqn:Ev.
    2:{ apply nth_error_None in Ev. lia. }
    destruct (IH (S start)
                (ema_values ++ [(p * multiplier + previous * (1 - multiplier))%Q]))
      as [l [Hl [Hll HPl]]].
    + rewrite length_app. cbn. lia.
    + lia.
    + lia.
    + apply Forall_app. split; [exact HP|]. constructor; [|constructor].
      apply Hstep; [eapply nth_error_In; exact Ep|].
      rewrite Forall_forall in HP. apply HP. eapply nth_error_In; exact Ev.
    + exists l. split; [exact Hl|]. split; [lia | exact HPl].
Qed.

Lemma calculate_ema_run (prices : list Q) (period : nat) (P : Q -> Prop) :
  (1 <= period <= List.length prices)%nat ->
  (forall multiplier p previous,
     (0 <= multiplier <= 1)%Q -> In p prices -> P previous ->
     P (p * multiplier + previous * (1 - multiplier))%Q) ->
  P (Analyzer.sum (firstn period prices) / inject_Z (Z.of_nat period))%Q ->
  exists l,
    Analyzer.calculate_ema prices period = Some l /\
    List.length l = List.length prices /\ Forall P l.
Proof.
  intros Hp Hstep Hsma. unfold Analyzer.calculate_ema.
  destruct (List.length prices <? period)%nat eqn:E; [apply Nat.ltb_lt in E; lia|].
  pose proof (inject_nat_pos period (proj1 Hp)) as Hpos.
  assert (Hden : (inject_Z (Z.of_nat period + 1) == inject_Z (Z.of_nat period) + 1)%Q)
    by (rewrite inject_Z_plus; reflexivity).
  rewrite py_div_defined by (rewrite Hden; lra).
  rewrite py_div_defined by lra.
  set (multiplier := (2 / inject_Z (Z.of_nat period + 1))%Q).
  assert (Hm : (0 <= multiplier <= 1)%Q).
  { unfold multiplier. split.
    - apply Qle_shift_div_l; [rewrite Hden; lra | lra].
    - apply Qle_shift_div_r; [rewrite Hden; lra | rewrite Hden; lra]. }
  destruct (ema_loop_run prices multiplier P (fun p previous => Hstep multiplier p previous Hm)
              (List.length prices - period) period
              (repeat (Analyzer.sum (firstn period prices) / inject_Z (Z.of_nat period))%Q
                 (period - 1)
               ++ [(Analyzer.sum (firstn period prices) / inject_Z (Z.of_nat period))%Q]))
    as [l [Hl [Hll HPl]]].
  - rewrite length_app, repeat_length. cbn. lia.
  - lia.
  - lia.
  - apply Forall_app. split; [|constructor; [exact Hsma | constructor]].
    apply Forall_forall. intros x Hx. apply repeat_spec in Hx. now subst x.
  - exists l. split; [exact Hl|]. split; [lia | exact HPl].
Qed.

(** X15.  For a period of at least one, [calculate_ema] raises nothing
    and returns one value per price.  When there are at least [period]
    prices every value is a weighted mean of prices: it lies between any
    two bounds that hold all the prices (with fewer prices the values are
    zeros). *)
Theorem calculate_ema_within_prices (prices : list Q) (period : nat) :
  (1 <= period)%nat ->
  exists ema_values,
    Analyzer.calculate_ema prices period = Some ema_values /\
    List.length ema_values = List.length prices /\
    ((period <= List.length prices)%nat ->
     forall lo hi : Q,
       (forall p, In p prices -> (lo <= p <= hi)%Q) ->
       forall x, In x ema_values -> (lo <= x <= hi)%Q) /\
    ((List.length prices < period)%nat -> forall x, In x ema_values -> x = 0%Q).
Proof.
  intros Hp.
  destruct (Nat.lt_ge_cases (List.length prices) period) as [Hshort | Hlong].
  - unfold Analyzer.calculate_ema.
    apply Nat.ltb_lt in Hshort as E. rewrite E.
    exists (repeat 0%Q (List.length prices)).
    split; [reflexivity|]. split; [apply repeat_length|].
    split; [lia|]. intros _ x Hx. now apply repeat_spec in Hx.
  - destruct (calculate_ema_run prices period (fun _ => True)) as [l [Hl [Hll _]]];
      [lia | auto | auto |].
    exists l. split; [exact Hl|]. split; [exact Hll|]. split; [|lia].
    intros _ lo hi Hb.
    destruct (calculate_ema_run prices period (fun x => (lo <= x <= hi)%Q))
      as [l' [Hl' [_ HP]]].
    + lia.
    + intros m p previous [Hm0 Hm1] Hin [Hv0 Hv1].
      destruct (Hb p Hin) as [Hp0 Hp1].
      assert (K1 : (0 <= (p - lo) * m)%Q) by (apply Qmult_le_0_compat; lra).
      assert (K2 : (0 <= (previous - lo) * (1 - m))%Q) by (apply Qmult_le_0_compat; lra).
      assert (K3 : (0 <= (hi - p) * m)%Q) by (apply Qmult_le_0_compat; lra).
      assert (K4 : (0 <= (hi - previous) * (1 - m))%Q) by (apply Qmult_le_0_compat; lra).
      lra.
    + pose proof (inject_nat_pos period Hp) as Hpos.
      assert (Hfl : List.length (firstn period prices) = period)
        by (rewrite length_firstn; lia).
      destruct (sum_bounds lo hi (firstn period prices)) as [S1 S2].
      { intros x Hx. apply Hb. eapply firstn_In; exact Hx. }
      rewrite Hfl in S1, S2. split.
      * apply Qle_shift_div_l; lra.
      * apply Qle_shift_div_r; lra.
    + assert (l' = l) by congruence. subst l'.
      rewrite Forall_forall in HP. exact HP.
Qed.

Lemma calculate_ema_within_prices_witness :
  exists ema_values,
    Analyzer.calculate_ema [1; 2; 3; 6; 2]%Q 3 = Some ema_values /\
    List.length ema_values = List.length [1; 2; 3; 6; 2]%Q /\
    ((3 <= List.length [1; 2; 3; 6; 2]%Q)%nat ->
     forall lo hi : Q,
       (forall p, In p [1; 2; 3; 6; 2]%Q -> (lo <= p <= hi)%Q) ->
       forall x, In x ema_values -> (lo <= x <= hi)%Q) /\
    ((List.length [1; 2; 3; 6; 2]%Q < 3)%nat -> forall x, In x ema_values -> x = 0%Q).
Proof.
  apply (calculate_ema_within_prices [1; 2; 3; 6; 2]%Q 3). lia.
Defined.


Lemma fold_sum_nonneg : forall (l : list Q) (acc : Q),
  Forall (fun x => (0 <= x)%Q) l -> (acc <= fold_left Qplus l acc)%Q.
Proof.
  induction l as [|a r IH]; intros acc H; [cbn; lra|].
  cbn [fold_left]. pose proof (Forall_inv H) as Ha.
  specialize (IH (acc + a)%Q (Forall_inv_tail H)). cbv beta in Ha. lra.
Qed.

Lemma sum_nonneg (l : list Q) :
  Forall (fun x => (0 <= x)%Q) l -> (0 <= Analyzer.sum l)%Q.
Proof. intros H. apply (fold_sum_nonneg l 0 H). Qed.

(** The inner loop of [calculate_rsi]: no index is out of range, every
    change lands in one of the two lists, gains are positive and losses
    are not negative. *)
Lemma rsi_window_run (prices : list Q) : forall (js : list nat) (gains losses : list Q),
  (forall j, In j js -> (j < List.length prices)%nat) ->
  Forall (fun x => (0 <= x)%Q) gains -> Forall (fun x => (0 <= x)%Q) losses ->
  exists gains' losses',
    Analyzer.rsi_window prices js gains losses = Some (gains', losses') /\
    Forall (fun x => (0 <= x)%Q) gains' /\ Forall (fun x => (0 <= x)%Q) losses' /\
    (List.length gains' + List.length losses'
     = List.length gains + List.length losses + List.length js)%nat.
Proof.
  induction js as [|j rest IH]; intros gains losses Hj Hg Hl.
  - exists gains, losses. split; [reflexivity|]. split; [exact Hg|]. split; [exact Hl|].
    cbn. lia.
  - cbn [Analyzer.rsi_window].
    assert (Hc : exists change,
              (if (0 <? j)%nat
               then match nth_error prices j, nth_error prices (j - 1) with
                    | Some a, Some b => Some (a - b)%Q
                    | _, _ => None
                    end
               else Some 0%Q) = Some change).
    { destruct (0 <? j)%nat; [|now exists 0%Q].
      pose proof (Hj j (or_introl eq_refl)) as Hlt.
      destruct (nth_error prices j) as [a|] eqn:Ea.
      2:{ apply nth_error_None in Ea. lia. }
      destruct (nth_error prices (j - 1)) as [b|] eqn:Eb.
      2:{ apply nth_error_None in Eb. lia. }
      now exists (a - b)%Q. }
    destruct Hc as [change ->].
    destruct (Qltb 0 change) eqn:E.
    + apply Qltb_lt in E.
      destruct (IH (gains ++ [change]) losses) as [g [l [Hr [Hg' [Hl' Hn]]]]].
      * intros k Hk. apply Hj. now right.
      * apply Forall_app. split; [exact Hg|]. constructor; [lra | constructor].
      * exact Hl.
      * exists g, l. split; [exact Hr|]. split; [exact Hg'|]. split; [exact Hl'|].
        rewrite length_app in Hn. cbn in Hn |- *. lia.
    + destruct (IH gains (losses ++ [Qabs change])) as [g [l [Hr [Hg' [Hl' Hn]]]]].
      * intros k Hk. apply Hj. now right.
      * exact Hg.
      * apply Forall_app. split; [exact Hl|]. constructor; [apply Qabs_nonneg | constructor].
      * exists g, l. split; [exact Hr|]. split; [exact Hg'|]. split; [exact Hl'|].
        rewrite length_app in Hn. cbn in Hn |- *. lia.
Qed.

Lemma rsi_at_range (prices : list Q) (period i : nat) :
  (period <= i < List.length prices)%nat ->
  exists rsi, Analyzer.rsi_at prices period i = Some rsi /\ (0 <= rsi <= 100)%Q.
Proof.
  intros Hi. unfold Analyzer.rsi_at.
  destruct (rsi_window_run prices (seq (i - period + 1) period) [] [])
    as [gains [losses [Hr [Hg [Hl Hn]]]]].
  - intros j Hj. apply in_seq in Hj. lia.
  - constructor.
  - constructor.
  - rewrite Hr. rewrite length_seq in Hn. cbn [List.length Nat.add] in Hn.
    assert (Havg : forall l : list Q,
              Forall (fun x => (0 <= x)%Q) l -> (List.length l <= period)%nat ->
              exists avg,
                match l with
                | [] => Some 0%Q
                | _ :: _ => Analyzer.py_div (Analyzer.sum l) (inject_Z (Z.of_nat period))
                end = Some avg /\ (0 <= avg)%Q).
    { intros l Hl0 Hlen. destruct l as [|a r]; [exists 0%Q; split; [reflexivity | lra]|].
      cbn [List.length] in Hlen.
      pose proof (inject_nat_pos period ltac:(lia)) as Hpos.
      rewrite py_div_defined by lra. eexists. split; [reflexivity|].
      apply Qle_shift_div_l; [lra|]. pose proof (sum_nonneg _ Hl0). lra. }
    destruct (Havg gains Hg ltac:(lia)) as [avg_gain [-> Hag]].
    destruct (Havg losses Hl ltac:(lia)) as [avg_loss [-> Hal]].
    destruct (Qeq_bool avg_loss 0) eqn:E0.
    + exists 100%Q. split; [reflexivity | lra].
    + assert (Hne : ~ (avg_loss == 0)%Q).
      { intros K. apply Qeq_bool_iff in K. congruence. }
      assert (Hpos : (0 < avg_loss)%Q).
      { destruct (Qlt_le_dec 0 avg_loss) as [K | K]; [exact K|].
        exfalso. apply Hne. lra. }
      rewrite py_div_defined by exact Hne.
      assert (Hrs : (0 <= avg_gain / avg_loss)%Q) by (apply Qle_shift_div_l; lra).
      rewrite py_div_defined by lra.
      eexists. split; [reflexivity|].
      assert (H1 : (0 <= 100 / (1 + avg_gain / avg_loss))%Q)
        by (apply Qle_shift_div_l; lra).
      assert (H2 : (100 / (1 + avg_gain / avg_loss) <= 100)%Q)
        by (apply Qle_shift_div_r; lra).
      lra.
Qed.

Lemma rsi_loop_run (prices : list Q) (period : nat) :
  forall (n start : nat) (rsi_values : list Q),
    (period <= start)%nat -> (start + n <= List.length prices)%nat ->
    Forall (fun x => (0 <= x <= 100)%Q) rsi_values ->
    exists l,
      Analyzer.rsi_loop prices period (seq start n) rsi_values = Some l /\
      List.length l = (List.length rsi_values + n)%nat /\
      Forall (fun x => (0 <= x <= 100)%Q) l.
Proof.
  induction n as [|n IH]; intros start rsi_values Hs Hn HP.
  - exists rsi_values. split; [reflexivity|]. split; [lia | exact HP].
  - cbn [seq Analyzer.rsi_loop].
    destruct (rsi_at_range prices period start) as [rsi [-> Hr]]; [lia|].
    destruct (IH (S start) (rsi_values ++ [rsi])) as [l [Hl [Hll HPl]]].
    + lia.
    + lia.
    + apply Forall_app. split; [exact HP|]. constructor; [exact Hr | constructor].
    + exists l. split; [exact Hl|]. split; [|exact HPl].
      rewrite length_app in Hll. cbn in Hll. lia.
Qed.

(** X16.  Whatever the prices and the period, [calculate_rsi] raises
    nothing (no index out of range, no division by zero) and returns one
    value per price, each between 0 and 100. *)
Theorem calculate_rsi_range (prices : list Q) (period : nat) :
  exists rsi_values,
    Analyzer.calculate_rsi prices period = Some rsi_values /\
    List.length rsi_values = List.length prices /\
    forall x, In x rsi_values -> (0 <= x <= 100)%Q.
Proof.
  unfold Analyzer.calculate_rsi.
  destruct (List.length prices <=? period)%nat eqn:E.
  - exists (repeat 50%Q (List.length prices)).
    split; [reflexivity|]. split; [apply repeat_length|].
    intros x Hx. apply repeat_spec in Hx. subst x. lra.
  - apply Nat.leb_gt in E.
    destruct (rsi_loop_run prices period (List.length prices - period) period
                (repeat 50%Q period)) as [l [Hl [Hll HP]]].
    + lia.
    + lia.
    + apply Forall_forall. intros x Hx. apply repeat_spec in Hx. subst x. lra.
    + exists l. split; [exact Hl|]. split.
      * rewrite Hll, repeat_length. lia.
      * rewrite Forall_forall in HP. exact HP.
Qed.

Lemma calculate_ema_length (prices : list Q) (period : nat) :
  (1 <= period)%nat ->
  exists l,
    Analyzer.calculate_ema prices period = Some l /\ List.length l = List.length prices.
Proof.
  intros Hp.
  destruct (Nat.lt_ge_cases (List.length prices) period) as [Hshort | Hlong].
  - unfold Analyzer.calculate_ema. apply Nat.ltb_lt in Hshort as E. rewrite E.
    eexists. split; [reflexivity | apply repeat_length].
  - destruct (calculate_ema_run prices period (fun _ => True)) as [l [Hl [Hll _]]];
      [lia | auto | auto |].
    now exists l.
Qed.

Lemma length_macd_map (f : Q * Q -> Q) (a b : list Q) :
  List.length a = List.length b -> List.length (map f (combine a b)) = List.length a.
Proof. intros H. rewrite length_map, length_combine. lia. Qed.

(** X17.  For periods of at least one, [calculate_macd] raises nothing
    and returns three series aligned with the prices: the MACD line, the
    signal line and the histogram have one value per price each. *)
Theorem calculate_macd_aligned (prices : list Q) (fast slow signal : nat) :
  (1 <= fast)%nat -> (1 <= slow)%nat -> (1 <= signal)%nat ->
  exists macd_line signal_line histogram,
    Analyzer.calculate_macd prices fast slow signal
    = Some (macd_line, signal_line, histogram) /\
    List.length macd_line = List.length prices /\
    List.length signal_line = List.length prices /\
    List.length histogram = List.length prices.
Proof.
  intros Hf Hs Hg. unfold Analyzer.calculate_macd.
  destruct (calculate_ema_length prices fast Hf) as [ef [-> Lf]].
  destruct (calculate_ema_length prices slow Hs) as [es [-> Ls]].
  set (macd_line := map (fun '(fast_val, slow_val) => (fast_val - slow_val)%Q)
                      (combine ef es)).
  assert (Lm : List.length macd_line = List.length prices).
  { unfold macd_line. rewrite length_macd_map; congruence. }
  destruct (calculate_ema_length macd_line signal Hg) as [sl [-> Lsl]].
  eexists _, _, _. split; [reflexivity|]. split; [exact Lm|].
  split; [congruence|]. rewrite length_macd_map; congruence.
Qed.

Lemma calculate_macd_aligned_witness :
  exists macd_line signal_line histogram,
    Analyzer.calculate_macd [100; 101; 103; 102]%Q 2 3 2
    = Some (macd_line, signal_line, histogram) /\
    List.length macd_line = List.length [100; 101; 103; 102]%Q /\
    List.length signal_line = List.length [100; 101; 103; 102]%Q /\
    List.length histogram = List.length [100; 101; 103; 102]%Q.
Proof.
  apply (calculate_macd_aligned [100; 101; 103; 102]%Q 2 3 2); lia.
Defined.

(** ** The portfolio *)

Example read_portfolio_example :
  match json portfolio_response with
  | Ok data =>
      match Orders.read_portfolio data with
      | Ok state =>
          Qred (Orders.total_balance state) = (501 # 2)%Q /\
          Qred (Orders.available_balance state) = (1002 # 5)%Q /\
          Qred (Orders.margin_usage state) = (1 # 5)%Q /\
          match Orders.positions state with
          | [(VStr "ETH", p)] =>
              Qred (Orders.position_size p) = (1 # 2)%Q /\
              Qred (Orders.position_leverage p) = 5%Q
          | _ => False
          end
      | Raise _ => False
      end
  | Raise _ => False
  end.
Proof. vm_compute. repeat split. Qed.

(** An answer without balances reads as a balance of 5. *)
Example read_portfolio_defaults :
  Orders.read_portfolio (VDict [])
  = Ok {| Orders.total_balance := 5; Orders.available_balance := 5;
          Orders.margin_usage := 0 / 5; Orders.positions := [] |}.
Proof. reflexivity. Qed.

Lemma log_each_position_only_logs (positions : list (value * Orders.position)) :
  forall w : world,
    exists w', Orders.log_each_position positions w = (Ok tt, w') /\ only_logs w w'.
Proof.
  induction positions as [|p rest IH]; intros w.
  - exists w. split; [reflexivity | apply only_logs_refl].
  - cbn [Orders.log_each_position]. unfold bind, emit. cbv beta iota.
    match goal with
    | |- context [Orders.log_each_position rest ?w3] =>
        destruct (IH w3) as [w' [E L]]; exists w'; split; [exact E|];
        destruct L as [N [P [T [l Hl]]]]
    end.
    cbn [network posted log now_ms] in N, P, T, Hl.
    split; [exact N|]. split; [exact P|]. split; [exact T|].
    eexists. rewrite Hl, <- !app_assoc. reflexivity.
Qed.

Lemma log_positions_only_logs (positions : list (value * Orders.position)) (w : world) :
  exists w', Orders.log_positions positions w = (Ok tt, w') /\ only_logs w w'.
Proof.
  destruct positions as [|p rest].
  - eexists. split; [reflexivity | apply emit_only_logs].
  - unfold Orders.log_positions, bind. unfold emit at 1. cbv beta iota.
    match goal with
    | |- context [Orders.log_each_position ?ps ?w1] =>
        destruct (log_each_position_only_logs ps w1) as [w2 [E L]]
    end.
    rewrite E. eexists. split; [reflexivity|].
    eapply only_logs_trans; [|apply emit_only_logs].
    eapply only_logs_trans; [|exact L].
    apply (emit_only_logs INFO "=== POSICIONES REALES ACTUALES ===" w).
Qed.

(** Every run of [get_portfolio_state] returns; it posts one request, and
    what it returns is read off the answer. *)
Lemma get_portfolio_state_run (self : Bot.bot) (w : world) :
  exists w',
    Orders.get_portfolio_state self w = (Ok (portfolio_of (hd_error (network w))), w') /\
    requested (portfolio_request self) w w'.
Proof.
  unfold Orders.get_portfolio_state, try_except, bind, lift, portfolio_of.
  match goal with
  | |- context [requests_post ?u ?p w] =>
      pose proof (requests_post_requested u p w) as Hreq;
      pose proof (requests_post_outcome u p w) as Hout;
      destruct (requests_post u p w) as [o w1]
  end.
  cbn [fst snd] in Hreq, Hout.
  assert (Hlog : forall l msg, requested (portfolio_request self) w (snd (emit l msg w1)))
    by (intros; eapply requested_only_logs; [exact Hreq | apply emit_only_logs]).
  destruct (network w) as [|x rest]; cbn [hd_error]; subst o.
  - eexists. split; [reflexivity | apply Hlog].
  - destruct x as [response|e]; [|eexists; split; [reflexivity | apply Hlog]].
    destruct (status_code response =? 200);
      [|eexists; split; [reflexivity | apply Hlog]].
    destruct (json response) as [data|e]; [|eexists; split; [reflexivity | apply Hlog]].
    destruct (Orders.read_portfolio data) as [state|e];
      [|eexists; split; [reflexivity | apply Hlog]].
    destruct (log_positions_only_logs (Orders.positions state) w1) as [w2 [E L]].
    rewrite E. unfold emit, ret. cbv beta iota. eexists. split; [reflexivity|].
    eapply requested_only_logs; [exact Hreq|].
    eapply only_logs_trans; [exact L|].
    destruct L as [N [P [T [l Hl]]]].
    split; [reflexivity|]. split; [reflexivity|]. split; [reflexivity|].
    cbn [log]. eexists. rewrite <- !app_assoc. reflexivity.
Qed.

(** X18.  [get_portfolio_state] never raises and posts one request.  When
    the request fails, is answered with another status than 200, or with a
    body it cannot read (not JSON, a balance that is not a decimal, a
    malformed position), it returns the empty portfolio: balances of zero
    and no position.  Otherwise it returns what [read_portfolio] reads. *)
Theorem get_portfolio_state_fails_closed (self : Bot.bot) (w : world) :
  exists state w',
    Orders.get_portfolio_state self w = (Ok state, w') /\
    requested (portfolio_request self) w w' /\
    (fetch_fails w -> state = Orders.empty_portfolio) /\
    (forall response,
       hd_error (network w) = Some (Ok response) -> status_code response = 200 ->
       match json response with
       | Ok data =>
           match Orders.read_portfolio data with
           | Ok read => state = read
           | Raise _ => state = Orders.empty_portfolio
           end
       | Raise _ => state = Orders.empty_portfolio
       end).
Proof.
  destruct (get_portfolio_state_run self w) as [w' [E R]].
  exists (portfolio_of (hd_error (network w))), w'.
  split; [exact E|]. split; [exact R|]. split.
  - unfold fetch_fails, portfolio_of.
    destruct (network w) as [|[response|e] rest]; cbn [hd_error]; try reflexivity.
    intros H. apply Z.eqb_neq in H. now rewrite H.
  - intros response Hh E200. rewrite Hh. unfold portfolio_of. rewrite E200.
    cbn [Z.eqb Pos.eqb].
    destruct (json response) as [data|e]; [|reflexivity].
    destruct (Orders.read_portfolio data); reflexivity.
Qed.

(** ** The risk check *)

Ltac q_bools :=
  repeat match goal with
  | H : Qltb _ _ = true |- _ => apply Qltb_lt in H
  | H : Qltb _ _ = false |- _ => apply Qltb_ge in H
  end.

(** X19.  What the risk check does with the portfolio of a failed fetch.
    When the request for the state of the account fails,
    [get_portfolio_state] returns a portfolio with which
    [risk_management_check] rejects every order that is not a sell, a
    close or a reduce (a hold too), and approves those three exactly when
    their confidence is at least 0.1. *)
Theorem risk_check_without_portfolio (self : Bot.bot) (o : Orders.order)
    (coin : string) (w0 w : world) :
  fetch_fails w0 ->
  exists state w1,
    Orders.get_portfolio_state self w0 = (Ok state, w1) /\
    (Orders.sell_side (lower (Orders.action o)) = false ->
     fst (Orders.risk_management_check self o state coin w) = Orders.Returns false) /\
    (Orders.sell_side (lower (Orders.action o)) = true ->
     (fst (Orders.risk_management_check self o state coin w) = Orders.Returns true
      <-> (1 # 10 <= Orders.confidence o)%Q)).
Proof.
  intros Hf. destruct (get_portfolio_state_run self w0) as [w1 [E _]].
  assert (Hs : portfolio_of (hd_error (network w0)) = Orders.empty_portfolio).
  { unfold fetch_fails in Hf. unfold portfolio_of.
    destruct (network w0) as [|[response|e] rest]; cbn [hd_error]; try reflexivity.
    apply Z.eqb_neq in Hf. now rewrite Hf. }
  rewrite Hs in E. exists Orders.empty_portfolio, w1. split; [exact E|].
  unfold Orders.risk_management_check. split; intros Hside; rewrite Hside.
  - reflexivity.
  - cbn [Orders.margin_usage Orders.empty_portfolio].
    change (Qltb 1 0) with false. cbv iota.
    destruct (Qltb (Orders.confidence o) (1 # 10)) eqn:Ec; q_bools; cbn [fst Orders.rejected].
    + split; [discriminate | intros H; lra].
    + split; [intros _; exact Ec | reflexivity].
Qed.

Lemma risk_check_without_portfolio_witness :
  exists state w1,
    Orders.get_portfolio_state sample_bot empty_world = (Ok state, w1) /\
    (Orders.sell_side (lower (Orders.action buy_order)) = false ->
     fst (Orders.risk_management_check sample_bot buy_order state "ETH" empty_world)
     = Orders.Returns false) /\
    (Orders.sell_side (lower (Orders.action buy_order)) = true ->
     (fst (Orders.risk_management_check sample_bot buy_order state "ETH" empty_world)
      = Orders.Returns true
      <-> (1 # 10 <= Orders.confidence buy_order)%Q)).
Proof.
  apply (risk_check_without_portfolio sample_bot buy_order "ETH" empty_world empty_world).
  exact Logic.I.
Defined.

(** X20.  The risk check is monotone: with the same action, size,
    leverage and total balance, an order that is approved stays approved
    with more available balance, less margin usage and more confidence. *)
Theorem risk_check_monotone (self : Bot.bot) (o o' : Orders.order)
    (p p' : Orders.PortfolioState) (coin : string) (w w' : world) :
  Orders.action o' = Orders.action o ->
  Orders.size o' = Orders.size o ->
  Orders.leverage o' = Orders.leverage o ->
  Orders.total_balance p' = Orders.total_balance p ->
  (Orders.confidence o <= Orders.confidence o')%Q ->
  (Orders.margin_usage p' <= Orders.margin_usage p)%Q ->
  (Orders.available_balance p <= Orders.available_balance p')%Q ->
  fst (Orders.risk_management_check self o p coin w) = Orders.Returns true ->
  fst (Orders.risk_management_check self o' p' coin w') = Orders.Returns true.
Proof.
  intros Ha Hs Hl Ht Hc Hm Hb.
  unfold Orders.risk_management_check, Orders.confidence_check, Orders.rejected.
  rewrite Ha, Hs, Hl, Ht.
  destruct (Orders.sell_side (lower (Orders.action o))).
  - destruct (Qltb 1 (Orders.margin_usage p)) eqn:E1; [discriminate|].
    destruct (Qltb (Orders.confidence o) (1 # 10)) eqn:E2; [discriminate|].
    intros _.
    destruct (Qltb 1 (Orders.margin_usage p')) eqn:E3; [q_bools; lra|].
    destruct (Qltb (Orders.confidence o') (1 # 10)) eqn:E4; [q_bools; lra|].
    reflexivity.
  - destruct (Qltb Orders.max_margin_usage (Orders.margin_usage p)) eqn:E1; [discriminate|].
    destruct (Qltb (Orders.available_balance p) Orders.min_balance) eqn:E2; [discriminate|].
    destruct (Qltb Orders.max_margin_usage (Orders.margin_usage p')) eqn:E3;
      [q_bools; lra|].
    destruct (Qltb (Orders.available_balance p') Orders.min_balance) eqn:E4;
      [q_bools; lra|].
    assert (Hconf : forall v v' : world,
              fst (if Qltb (Orders.confidence o) (1 # 10)
                   then (Orders.Returns false, snd (emit WARNING "Confidence too low" v))
                   else (Orders.Returns true, v)) = Orders.Returns true ->
              fst (if Qltb (Orders.confidence o') (1 # 10)
                   then (Orders.Returns false, snd (emit WARNING "Confidence too low" v'))
                   else (Orders.Returns true, v')) = Orders.Returns true).
    { intros v v'.
      destruct (Qltb (Orders.confidence o) (1 # 10)) eqn:E5; [discriminate|].
      destruct (Qltb (Orders.confidence o') (1 # 10)) eqn:E6; [q_bools; lra|].
      reflexivity. }
    destruct (Orders.buy_side (lower (Orders.action o))); [|apply Hconf].
    destruct (float_of_str (float_repr (Orders.size o))) as [size|e]; [|discriminate].
    destruct (Qltb (Orders.total_balance p) 10); [apply Hconf|].
    destruct (Orders.decimal_div (size * 100) (inject_Z (Orders.leverage o)))
      as [required_margin|s]; [|discriminate].
    destruct (Qltb (Orders.available_balance p) required_margin) eqn:E7; [discriminate|].
    destruct (Qltb (Orders.available_balance p') required_margin) eqn:E8;
      [q_bools; lra|].
    apply Hconf.
Qed.

Lemma risk_check_monotone_witness :
  fst (Orders.risk_management_check sample_bot surer_buy_order richer_portfolio "ETH"
         empty_world) = Orders.Returns true.
Proof.
  apply (risk_check_monotone sample_bot buy_order surer_buy_order
           funded_portfolio richer_portfolio "ETH" empty_world empty_world);
    try reflexivity; try (unfold Qle; cbn; lia).
Defined.

(** The check is not monotone in the total balance: under 10 the size of
    the order is not looked at. *)
Example small_balance_skips_the_margin_check :
  let huge := {| Orders.action := "buy"; Orders.size := 1000; Orders.leverage := 1;
                 Orders.confidence := 8 # 10; Orders.reasoning := "" |} in
  let poor := {| Orders.total_balance := 9; Orders.available_balance := 9;
                 Orders.margin_usage := 0; Orders.positions := [] |} in
  let less_poor := {| Orders.total_balance := 10; Orders.available_balance := 10;
                      Orders.margin_usage := 0; Orders.positions := [] |} in
  fst (Orders.risk_management_check sample_bot huge poor "ETH" empty_world)
  = Orders.Returns true /\
  fst (Orders.risk_management_check sample_bot huge less_poor "ETH" empty_world)
  = Orders.Returns false.
Proof. vm_compute. split; reflexivity. Qed.

(** X21.  What an approval guarantees.  An approved order has a
    confidence of at least 0.1.  A sell, a close or a reduce is approved
    with any balance when the margin usage is at most 100 percent.  Any
    other order needs a margin usage of at most 95 percent and an
    available balance of at least 0.01; a buy or an increase with a total
    balance of at least 10 needs besides a margin, computed at the fixed
    price of 100 for every coin (size * 100 / leverage), within the
    available balance. *)
Theorem risk_check_approval (self : Bot.bot) (o : Orders.order)
    (p : Orders.PortfolioState) (coin : string) (w : world) :
  fst (Orders.risk_management_check self o p coin w) = Orders.Returns true ->
  (1 # 10 <= Orders.confidence o)%Q /\
  (Orders.sell_side (lower (Orders.action o)) = true ->
   (Orders.margin_usage p <= 1)%Q) /\
  (Orders.sell_side (lower (Orders.action o)) = false ->
   (Orders.margin_usage p <= 95 # 100)%Q /\
   (1 # 100 <= Orders.available_balance p)%Q /\
   (Orders.buy_side (lower (Orders.action o)) = true ->
    (10 <= Orders.total_balance p)%Q ->
    exists size,
      float_of_str (float_repr (Orders.size o)) = Ok size /\
      Orders.leverage o <> 0 /\
      (size * 100 / inject_Z (Orders.leverage o) <= Orders.available_balance p)%Q)).
Proof.
  unfold Orders.risk_management_check, Orders.confidence_check, Orders.rejected,
    Orders.max_margin_usage, Orders.min_balance.
  destruct (Orders.sell_side (lower (Orders.action o))).
  - destruct (Qltb 1 (Orders.margin_usage p)) eqn:E1; [discriminate|].
    destruct (Qltb (Orders.confidence o) (1 # 10)) eqn:E2; [discriminate|].
    intros _. q_bools. split; [exact E2|]. split; [intros _; exact E1 | discriminate].
  - destruct (Qltb (95 # 100) (Orders.margin_usage p)) eqn:E1; [discriminate|].
    destruct (Qltb (Orders.available_balance p) (1 # 100)) eqn:E2; [discriminate|].
    assert (Hconf : forall v : world,
              fst (if Qltb (Orders.confidence o) (1 # 10)
                   then (Orders.Returns false, snd (emit WARNING "Confidence too low" v))
                   else (Orders.Returns true, v)) = Orders.Returns true ->
              (1 # 10 <= Orders.confidence o)%Q).
    { intros v. destruct (Qltb (Orders.confidence o) (1 # 10)) eqn:E5; [discriminate|].
      intros _. now apply Qltb_ge. }
    q_bools.
    destruct (Orders.buy_side (lower (Orders.action o))).
    + destruct (float_of_str (float_repr (Orders.size o))) as [size|e]; [|discriminate].
      destruct (Qltb (Orders.total_balance p) 10) eqn:E3.
      * intros H. apply Hconf in H. split; [exact H|]. split; [discriminate|].
        intros _. split; [exact E1|]. split; [exact E2|]. intros _ K. q_bools. lra.
      * unfold Orders.decimal_div.
        destruct (Qeq_bool (inject_Z (Orders.leverage o)) 0) eqn:E4;
          [destruct (Qeq_bool (size * 100) 0); discriminate|].
        destruct (Qltb (Orders.available_balance p)
                    (size * 100 / inject_Z (Orders.leverage o))) eqn:E5; [discriminate|].
        intros H. apply Hconf in H. split; [exact H|]. split; [discriminate|].
        intros _. split; [exact E1|]. split; [exact E2|]. intros _ _.
        exists size. split; [reflexivity|]. split; [|now apply Qltb_ge].
        intros K. rewrite K in E4. discriminate.
    + intros H. apply Hconf in H. split; [exact H|]. split; [discriminate|].
      intros _. split; [exact E1|]. split; [exact E2|]. discriminate.
Qed.

Lemma risk_check_approval_witness :
  (1 # 10 <= Orders.confidence buy_order)%Q /\
  (Orders.sell_side (lower (Orders.action buy_order)) = true ->
   (Orders.margin_usage funded_portfolio <= 1)%Q) /\
  (Orders.sell_side (lower (Orders.action buy_order)) = false ->
   (Orders.margin_usage funded_portfolio <= 95 # 100)%Q /\
   (1 # 100 <= Orders.available_balance funded_portfolio)%Q /\
   (Orders.buy_side (lower (Orders.action buy_order)) = true ->
    (10 <= Orders.total_balance funded_portfolio)%Q ->
    exists size,
      float_of_str (float_repr (Orders.size buy_order)) = Ok size /\
      Orders.leverage buy_order <> 0 /\
      (size * 100 / inject_Z (Orders.leverage buy_order)
       <= Orders.available_balance funded_portfolio)%Q)).
Proof.
  apply (risk_check_approval sample_bot buy_order funded_portfolio "ETH" empty_world).
  vm_compute. reflexivity.
Defined.

(** ** Runs of [execute_executable_order] *)

Lemma order_posted_only_logs (self : Bot.bot) (coin side : string)
    (amount : Q) (w0 w1 w2 w3 : world) (r : bool) :
  only_logs w0 w1 -> only_logs w2 w3 ->
  order_posted self coin side amount w1 w2 r -> order_posted self coin side amount w0 w3 r.
Proof.
  intros [N0 [P0 [T0 _]]] [N2 [P2 [T2 _]]]. unfold order_posted.
  rewrite N0, P0, T0, P2. exact (fun H => H).
Qed.

Lemma leverage_posted_only_logs (self : Bot.bot) (w0 w1 w2 w3 : world) (r : bool) :
  only_logs w0 w1 -> only_logs w2 w3 ->
  leverage_posted self w1 w2 r -> leverage_posted self w0 w3 r.
Proof.
  intros [N0 [P0 [T0 _]]] [N2 [P2 [T2 _]]]. unfold leverage_posted.
  rewrite N0, P0, T0, P2, N2, T2. exact (fun H => H).
Qed.

Lemma execute_real_order_posted {EA : EthAccount} (self : Bot.bot) (coin side : string)
    (amount price : Q) (w1 : world) :
  exists r w',
    Bot.execute_real_order self coin side amount price w1 = (Ok r, w') /\
    order_posted self coin side amount w1 w' r.
Proof.
  destruct (execute_real_order_run self coin side amount price w1)
    as [r [w' [E [[H | [H | H]] _]]]]; exists r, w'; (split; [exact E|]).
  - now left.
  - right. now left.
  - right. right.
    destruct H as [asset_id [reference [limit [tick_size [precision [signature [wallet
      [P [_ [_ [_ [_ [_ Hr]]]]]]]]]]]]].
    eexists asset_id, _, signature. split; [exact P | exact Hr].
Qed.

(** The block that places an order and logs its outcome, with the
    messages of any of the branches. *)
Lemma order_block_run {EA : EthAccount} (self : Bot.bot) (coin side : string)
    (amount price : Q) (m1 m2 m3 : string) (w1 : world) :
  exists r w',
    try_except
      (bind (Bot.execute_real_order self coin side amount price)
         (fun success : bool =>
            if success then bind (emit INFO m1) (fun _ => ret true)
            else bind (emit ERROR m2) (fun _ => ret false)))
      (fun _ : exn => bind (emit ERROR m3) (fun _ => ret false)) w1 = (Ok r, w') /\
    order_posted self coin side amount w1 w' r.
Proof.
  unfold try_except, bind.
  destruct (execute_real_order_posted self coin side amount price w1) as [r [w2 [E H]]].
  rewrite E. destruct r; unfold emit, ret; cbv beta iota;
    (eexists _, _; split; [reflexivity|]);
    (eapply order_posted_only_logs; [apply only_logs_refl | | exact H]).
  - apply (emit_only_logs INFO m1 w2).
  - apply (emit_only_logs ERROR m2 w2).
Qed.

Lemma set_leverage_posted {EA : EthAccount} (self : Bot.bot) (coin : string)
    (leverage : Z) (w1 : world) :
  exists r w',
    Bot.set_leverage self coin leverage w1 = (Ok r, w') /\ leverage_posted self w1 w' r.
Proof.
  destruct (set_leverage_answer self coin leverage w1) as [r [w' [E H]]].
  exists r, w'. split; [exact E | exact H].
Qed.

(** The block that sets the leverage and then places an order. *)
Lemma leverage_then_order_run {EA : EthAccount} (self : Bot.bot) (coin side : string)
    (leverage : Z) (amount price : Q) (m0 m1 m2 m3 m4 : string) (w1 : world) :
  exists r w',
    bind (Bot.set_leverage self coin leverage)
      (fun leverage_success : bool =>
         if negb leverage_success then bind (emit ERROR m0) (fun _ => ret false)
         else
           try_except
             (bind (emit INFO m4)
                (fun _ =>
                   bind (Bot.execute_real_order self coin side amount price)
                     (fun success : bool =>
                        if success then bind (emit INFO m1) (fun _ => ret true)
                        else bind (emit ERROR m2) (fun _ => ret false))))
             (fun _ : exn => bind (emit ERROR m3) (fun _ => ret false))) w1 = (Ok r, w') /\
    exists (lr : bool) (w2 : world),
      leverage_posted self w1 w2 lr /\
      ((lr = false /\ r = false /\ posted w' = posted w2) \/
       (lr = true /\ order_posted self coin side amount w2 w' r)).
Proof.
  unfold bind at 1.
  destruct (set_leverage_posted self coin leverage w1) as [lr [w2 [E H]]].
  rewrite E. destruct lr; cbn [negb].
  - unfold try_except. unfold bind at 1. unfold emit at 1. cbv beta iota.
    match goal with
    | |- context [bind (Bot.execute_real_order self coin side amount price) ?k ?w3] =>
        destruct (order_block_run self coin side amount price m1 m2 m3 w3)
          as [r [w' [Eb Hb]]]
    end.
    unfold try_except in Eb.
    match type of Eb with
    | match ?c with _ => _ end = _ => destruct c as [[b|e] w4] eqn:Ec
    end.
    + exists r, w'. split; [exact Eb|]. exists true, w2. split; [exact H|].
      right. split; [reflexivity|].
      eapply order_posted_only_logs; [apply (emit_only_logs INFO m4 w2) | apply only_logs_refl
                                      | exact Hb].
    + exists r, w'. split; [exact Eb|]. exists true, w2. split; [exact H|].
      right. split; [reflexivity|].
      eapply order_posted_only_logs; [apply (emit_only_logs INFO m4 w2) | apply only_logs_refl
                                      | exact Hb].
  - unfold bind, emit, ret. cbv beta iota. eexists _, _. split; [reflexivity|].
    exists false, w2. split; [exact H|]. left. auto.
Qed.

Lemma in_positions_item (coin : string) (state : Orders.PortfolioState) :
  Orders.in_positions coin state = true ->
  exists p, Orders.positions_item state coin = Ok p.
Proof.
  unfold Orders.in_positions, Orders.positions_item.
  destruct (Orders.dict_get (Orders.positions state) coin) as [p|]; [|discriminate].
  intros _. now exists p.
Qed.

Lemma execute_executable_order_run {EA : EthAccount} (self : Bot.bot) (coin : string)
    (o : Orders.order) (last_price : Q) (w : world) :
  exists r w' w1,
    Orders.execute_executable_order self coin o last_price w = (Ok r, w') /\
    requested (portfolio_request self) w w1 /\
    let state := portfolio_of (hd_error (network w)) in
    let leverage_then (side : string) :=
      exists (lr : bool) (w2 : world),
        leverage_posted self w1 w2 lr /\
        ((lr = false /\ r = false /\ posted w' = posted w2) \/
         (lr = true /\ order_posted self coin side (Orders.size o) w2 w' r)) in
    match branch_of (lower (Orders.action o)) (Orders.in_positions coin state) with
    | Hold => r = false /\ posted w' = posted w1
    | ClosePosition =>
        exists p,
          Orders.positions_item state coin = Ok p /\
          order_posted self coin "sell" (Orders.position_size p) w1 w' r
    | ReducePosition =>
        exists p,
          Orders.positions_item state coin = Ok p /\
          order_posted self coin "sell"
            (py_min (Orders.size o) (Orders.position_size p)) w1 w' r
    | IncreasePosition => leverage_then "buy"
    | ChangeLeverage => r = true /\ posted w' = posted w1
    | NewOrder =>
        leverage_then (if String.eqb (lower (Orders.action o)) "buy" then "buy" else "sell")
    end.
Proof.
  unfold Orders.execute_executable_order. unfold try_except at 1. unfold bind at 1.
  destruct (get_portfolio_state_run self w) as [w1 [E R]]. rewrite E.
  set (state := portfolio_of (hd_error (network w))).
  cbv zeta.
  unfold bind at 1. unfold emit at 1. cbv beta iota.
  unfold bind at 1. unfold emit at 1. cbv beta iota.
  cbn [network posted log now_ms].
  match goal with
  | |- context [{| network := network w1; posted := posted w1; log := ?l;
                   now_ms := now_ms w1 |}] =>
      set (w3 := {| network := network w1; posted := posted w1; log := l;
                    now_ms := now_ms w1 |})
  end.
  assert (L3 : only_logs w1 w3).
  { split; [reflexivity|]. split; [reflexivity|]. split; [reflexivity|].
    eexists. unfold w3. cbn [log]. rewrite <- app_assoc. reflexivity. }
  assert (R3 : requested (portfolio_request self) w w3)
    by (eapply requested_only_logs; [exact R | exact L3]).
  unfold branch_of.
  destruct (String.eqb (lower (Orders.action o)) "hold") eqn:Eh.
  { unfold bind, emit, ret. cbv beta iota. eexists false, _, w3.
    split; [reflexivity|]. split; [exact R3|]. split; reflexivity. }
  destruct (String.eqb (lower (Orders.action o)) "close_position"
            && Orders.in_positions coin state) eqn:Ec.
  { apply andb_prop in Ec as [_ Hheld].
    destruct (in_positions_item coin state Hheld) as [p Hp].
    unfold bind at 1. unfold lift. rewrite Hp. cbv beta iota.
    unfold bind at 1. unfold emit at 1. cbv beta iota.
    edestruct (order_block_run self coin "sell" (Orders.position_size p) last_price)
      as [r [w' [Eb Hb]]].
    rewrite Eb. exists r, w', w3. split; [reflexivity|]. split; [exact R3|].
    exists p. split; [reflexivity|].
    eapply order_posted_only_logs; [|apply only_logs_refl | exact Hb].
    apply (emit_only_logs INFO "CLOSING EXISTING POSITION" w3). }
  destruct (String.eqb (lower (Orders.action o)) "reduce_position"
            && Orders.in_positions coin state) eqn:Er.
  { apply andb_prop in Er as [_ Hheld].
    destruct (in_positions_item coin state Hheld) as [p Hp].
    unfold bind at 1. unfold lift. rewrite Hp. cbv beta iota.
    unfold bind at 1. unfold emit at 1. cbv beta iota.
    edestruct (order_block_run self coin "sell"
                 (py_min (Orders.size o) (Orders.position_size p)) last_price)
      as [r [w' [Eb Hb]]].
    rewrite Eb. exists r, w', w3. split; [reflexivity|]. split; [exact R3|].
    exists p. split; [reflexivity|].
    eapply order_posted_only_logs; [|apply only_logs_refl | exact Hb].
    apply (emit_only_logs INFO "REDUCING POSITION" w3). }
  assert (Hopen : forall (side m5 m6 m0 m1 m2 m3 m4 : string),
    exists r w',
      bind (emit INFO m5)
        (fun _ =>
           bind (emit INFO m6)
             (fun _ =>
                bind (Bot.set_leverage self coin (Orders.leverage o))
                  (fun leverage_success : bool =>
                     if negb leverage_success
                     then bind (emit ERROR m0) (fun _ => ret false)
                     else
                       try_except
                         (bind (emit INFO m4)
                            (fun _ =>
                               bind (Bot.execute_real_order self coin side (Orders.size o)
                                       last_price)
                                 (fun success : bool =>
                                    if success
                                    then bind (emit INFO m1) (fun _ => ret true)
                                    else bind (emit ERROR m2) (fun _ => ret false))))
                         (fun _ : exn => bind (emit ERROR m3) (fun _ => ret false)))))
        w3 = (Ok r, w') /\
      exists (lr : bool) (w2 : world),
        leverage_posted self w3 w2 lr /\
        ((lr = false /\ r = false /\ posted w' = posted w2) \/
         (lr = true /\ order_posted self coin side (Orders.size o) w2 w' r))).
  { intros side m5 m6 m0 m1 m2 m3 m4.
    unfold bind at 1. unfold emit at 1. cbv beta iota.
    unfold bind at 1. unfold emit at 1. cbv beta iota.
    cbn [network posted log now_ms].
    match goal with
    | |- context [bind (Bot.set_leverage self coin (Orders.leverage o)) _ ?w5] =>
        destruct (leverage_then_order_run self coin side (Orders.leverage o) (Orders.size o)
                    last_price m0 m1 m2 m3 m4 w5) as [r [w' [Eb [lr [w2 [Hl Hc]]]]]];
        assert (L5 : only_logs w3 w5)
    end.
    { split; [reflexivity|]. split; [reflexivity|]. split; [reflexivity|].
      eexists. cbn [log]. rewrite <- app_assoc. reflexivity. }
    exists r, w'. split; [exact Eb|]. exists lr, w2. split; [|exact Hc].
    eapply leverage_posted_only_logs; [exact L5 | apply only_logs_refl | exact Hl]. }
  destruct (String.eqb (lower (Orders.action o)) "increase_position"
            && Orders.in_positions coin state) eqn:Ei.
  { destruct (Hopen "buy" "INCREASING POSITION"
                "Setting leverage before increasing position"
                "Failed to set leverage, cannot increase position"
                "REAL ORDER SUCCESS: Position increased"
                "REAL ORDER FAILED: Could not increase position"
                "Error executing real order"
                "REAL ORDER: Increasing position") as [r [w' [Eb Hb]]].
    rewrite Eb. exists r, w', w3. split; [reflexivity|]. split; [exact R3 | exact Hb]. }
  destruct (String.eqb (lower (Orders.action o)) "change_leverage"
            && Orders.in_positions coin state) eqn:El.
  { unfold try_except, bind, emit, ret. cbv beta iota. eexists true, _, w3.
    split; [reflexivity|]. split; [exact R3|]. split; reflexivity. }
  destruct (Hopen (if String.eqb (lower (Orders.action o)) "buy" then "buy" else "sell")
              "Executing order"
              "Setting leverage before executing order"
              "Failed to set leverage, cannot execute order"
              "REAL ORDER SUCCESS"
              "REAL ORDER FAILED"
              "Error executing real order"
              "REAL ORDER: Executing") as [r [w' [Eb Hb]]].
  rewrite Eb. exists r, w', w3. split; [reflexivity|]. split; [exact R3 | exact Hb].
Qed.

Lemma nth_error_tl {A : Type} (l : list A) (n : nat) :
  nth_error (tl l) n = nth_error l (S n).
Proof. destruct l as [|a r]; [now destruct n | reflexivity]. Qed.

(** The signed requests of a run of [set_leverage] and of
    [execute_real_order]. *)
Lemma leverage_posted_signed (self : Bot.bot) (w1 w2 : world) (lr : bool) :
  leverage_posted self w1 w2 lr ->
  exists L,
    posted w2 = posted w1 ++ L /\
    ((filter carries_action L = [] /\ lr = false) \/
     (exists req,
        filter carries_action L = [req] /\ is_leverage_update req /\
        network w2 = tl (tl (tl (network w1))) /\ now_ms w2 = now_ms w1 /\
        (lr = true <->
         exists response,
           nth_error (network w1) 2 = Some (Ok response) /\ leverage_accepted response))).
Proof.
  intros [[Hr P] | [[Hr P] | [asset_id [sent [signature [P [N [T Hr]]]]]]]].
  - eexists. split; [exact P|]. left. split; [reflexivity | exact Hr].
  - eexists. split; [exact P|]. left. split; [reflexivity | exact Hr].
  - eexists. split; [exact P|]. right. eexists. split; [reflexivity|].
    split; [|auto]. now exists asset_id, sent, (now_ms w1), signature.
Qed.

Lemma order_posted_signed (self : Bot.bot) (coin side : string)
    (amount : Q) (w2 w' : world) (r : bool) :
  order_posted self coin side amount w2 w' r ->
  exists O,
    posted w' = posted w2 ++ O /\
    ((filter carries_action O = [] /\ r = false) \/
     (exists req,
        filter carries_action O = [req] /\ is_order_for coin side amount req /\
        (r = true <->
         exists response,
           nth_error (network w2) 3 = Some (Ok response) /\ accepted response))).
Proof.
  intros [[Hr P] | [[Hr P] | [asset_id [limit_price [signature [P Hr]]]]]].
  - eexists. split; [exact P|]. left. split; [reflexivity | exact Hr].
  - eexists. split; [exact P|]. left. split; [reflexivity | exact Hr].
  - eexists. split; [exact P|]. right. eexists. split; [reflexivity|].
    split; [|exact Hr]. now exists asset_id, limit_price, (now_ms w2), signature.
Qed.

Lemma signed_after_portfolio (self : Bot.bot) (w w1 w' : world)
    (l : list (string * value)) :
  requested (portfolio_request self) w w1 -> posted w' = posted w1 ++ l ->
  posted w' = posted w ++ portfolio_request self :: l /\
  signed_requests w w' = filter carries_action l.
Proof.
  intros [_ [P1 _]] P.
  assert (E : posted w' = posted w ++ portfolio_request self :: l)
    by (rewrite P, P1, <- app_assoc; reflexivity).
  split; [exact E|]. now rewrite (signed_requests_app w w' _ E).
Qed.

(** X22.  [execute_executable_order] never raises: it returns a boolean.
    It first asks for the state of the account, and posts two signed
    requests at most.  On a hold it posts nothing else and returns
    [False].  On a change of leverage for a coin that is held it posts
    nothing else either, and returns [True]: the change is simulated. *)
Theorem execute_executable_order_requests {EA : EthAccount} (self : Bot.bot)
    (coin : string) (o : Orders.order) (last_price : Q) (w : world) :
  exists r w',
    Orders.execute_executable_order self coin o last_price w = (Ok r, w') /\
    (exists rest, posted w' = posted w ++ portfolio_request self :: rest) /\
    (List.length (signed_requests w w') <= 2)%nat /\
    (lower (Orders.action o) = "hold" ->
     r = false /\ posted w' = posted w ++ [portfolio_request self]) /\
    (lower (Orders.action o) = "change_leverage" ->
     Orders.in_positions coin (portfolio_of (hd_error (network w))) = true ->
     r = true /\ posted w' = posted w ++ [portfolio_request self]).
Proof.
  destruct (execute_executable_order_run self coin o last_price w)
    as [r [w' [w1 [E [R H]]]]].
  exists r, w'. split; [exact E|]. cbv zeta in H.
  assert (Hstill : posted w' = posted w1 ->
            (exists rest, posted w' = posted w ++ portfolio_request self :: rest) /\
            (List.length (signed_requests w w') <= 2)%nat /\
            posted w' = posted w ++ [portfolio_request self]).
  { intros P. rewrite <- (app_nil_r (posted w1)) in P.
    destruct (signed_after_portfolio self w w1 w' [] R P) as [P' S].
    split; [now exists []|]. split; [rewrite S; cbn; lia | exact P']. }
  assert (Horder : forall side amount,
            order_posted self coin side amount w1 w' r ->
            (exists rest, posted w' = posted w ++ portfolio_request self :: rest) /\
            (List.length (signed_requests w w') <= 2)%nat).
  { intros side amount Ho.
    destruct (order_posted_signed self coin side amount w1 w' r Ho) as [O [P HO]].
    destruct (signed_after_portfolio self w w1 w' O R P) as [P' S].
    split; [now exists O|]. rewrite S.
    destruct HO as [[-> _] | [req [-> _]]]; cbn; lia. }
  assert (Hlev : forall side,
            (exists (lr : bool) (w2 : world),
               leverage_posted self w1 w2 lr /\
               ((lr = false /\ r = false /\ posted w' = posted w2) \/
                (lr = true /\ order_posted self coin side (Orders.size o) w2 w' r))) ->
            (exists rest, posted w' = posted w ++ portfolio_request self :: rest) /\
            (List.length (signed_requests w w') <= 2)%nat).
  { intros side [lr [w2 [Hl Hc]]].
    destruct (leverage_posted_signed self w1 w2 lr Hl) as [L [PL HL]].
    assert (HlenL : (List.length (filter carries_action L) <= 1)%nat)
      by (destruct HL as [[-> _] | [req [-> _]]]; cbn; lia).
    destruct Hc as [[_ [_ P]] | [_ Ho]].
    - rewrite PL in P.
      destruct (signed_after_portfolio self w w1 w' L R P) as [P' S].
      split; [now exists L|]. rewrite S. lia.
    - destruct (order_posted_signed self coin side (Orders.size o) w2 w' r Ho)
        as [O [PO HO]].
      rewrite PL, <- app_assoc in PO.
      destruct (signed_after_portfolio self w w1 w' (L ++ O) R PO) as [P' S].
      split; [now exists (L ++ O)|]. rewrite S, filter_app, length_app.
      destruct HO as [[-> _] | [req [-> _]]]; cbn; lia. }
  unfold branch_of in H.
  destruct (String.eqb (lower (Orders.action o)) "hold") eqn:Eh.
  { destruct H as [Hr P]. destruct (Hstill P) as [H1 [H2 H3]].
    split; [exact H1|]. split; [exact H2|]. split; [auto|].
    intros K. rewrite K in Eh. discriminate. }
  assert (Hnothold : lower (Orders.action o) = "hold" ->
            r = false /\ posted w' = posted w ++ [portfolio_request self])
    by (intros K; rewrite K in Eh; discriminate).
  destruct (String.eqb (lower (Orders.action o)) "close_position"
            && Orders.in_positions coin (portfolio_of (hd_error (network w)))) eqn:Ec.
  { apply andb_prop in Ec as [Ea _]. apply String.eqb_eq in Ea.
    destruct H as [p [_ Ho]]. destruct (Horder _ _ Ho) as [H1 H2].
    split; [exact H1|]. split; [exact H2|]. split; [exact Hnothold|].
    intros K. rewrite K in Ea. discriminate. }
  destruct (String.eqb (lower (Orders.action o)) "reduce_position"
            && Orders.in_positions coin (portfolio_of (hd_error (network w)))) eqn:Er.
  { apply andb_prop in Er as [Ea _]. apply String.eqb_eq in Ea.
    destruct H as [p [_ Ho]]. destruct (Horder _ _ Ho) as [H1 H2].
    split; [exact H1|]. split; [exact H2|]. split; [exact Hnothold|].
    intros K. rewrite K in Ea. discriminate. }
  destruct (String.eqb (lower (Orders.action o)) "increase_position"
            && Orders.in_positions coin (portfolio_of (hd_error (network w)))) eqn:Ei.
  { apply andb_prop in Ei as [Ea _]. apply String.eqb_eq in Ea.
    destruct (Hlev _ H) as [H1 H2].
    split; [exact H1|]. split; [exact H2|]. split; [exact Hnothold|].
    intros K. rewrite K in Ea. discriminate. }
  destruct (String.eqb (lower (Orders.action o)) "change_leverage"
            && Orders.in_positions coin (portfolio_of (hd_error (network w)))) eqn:El.
  { destruct H as [Hr P]. destruct (Hstill P) as [H1 [H2 H3]].
    split; [exact H1|]. split; [exact H2|]. split; [exact Hnothold | auto]. }
  destruct (Hlev _ H) as [H1 H2].
  split; [exact H1|]. split; [exact H2|]. split; [exact Hnothold|].
  intros K Hheld. rewrite K, Hheld in El. discriminate.
Qed.

(** X23.  An order that opens or increases a position follows an accepted
    update of the leverage.  On every action but a hold, and but a close,
    a reduce or a change of leverage for a coin that is held,
    [execute_executable_order] posts no signed request, or the leverage
    update alone, or the leverage update and then one order; the order is
    posted only when the exchange has answered the update with HTTP 200
    and the status ok, and the method reports success exactly when the
    exchange accepts the order.  The order buys on the action buy or on an
    increase of a held position, and sells on any other action. *)
Theorem order_follows_leverage {EA : EthAccount} (self : Bot.bot)
    (coin : string) (o : Orders.order) (last_price : Q) (w : world) :
  let held := Orders.in_positions coin (portfolio_of (hd_error (network w))) in
  let a := lower (Orders.action o) in
  branch_of a held = IncreasePosition \/ branch_of a held = NewOrder ->
  exists r w',
    Orders.execute_executable_order self coin o last_price w = (Ok r, w') /\
    ((r = false /\ signed_requests w w' = []) \/
     (r = false /\ exists update, signed_requests w w' = [update] /\ is_leverage_update update) \/
     (exists update placed response,
        signed_requests w w' = [update; placed] /\
        is_leverage_update update /\
        is_order_for coin (side_of a held) (Orders.size o) placed /\
        nth_error (network w) 3 = Some (Ok response) /\ leverage_accepted response /\
        (r = true <->
         exists answer, nth_error (network w) 7 = Some (Ok answer) /\ accepted answer))).
Proof.
  cbv zeta. intros Hb.
  destruct (execute_executable_order_run self coin o last_price w)
    as [r [w' [w1 [E [R H]]]]].
  exists r, w'. split; [exact E|]. cbv zeta in H. unfold side_of.
  assert (Hmain : forall side,
            (exists (lr : bool) (w2 : world),
               leverage_posted self w1 w2 lr /\
               ((lr = false /\ r = false /\ posted w' = posted w2) \/
                (lr = true /\ order_posted self coin side (Orders.size o) w2 w' r))) ->
            (r = false /\ signed_requests w w' = []) \/
            (r = false /\
             exists update, signed_requests w w' = [update] /\ is_leverage_update update) \/
            (exists update placed response,
               signed_requests w w' = [update; placed] /\
               is_leverage_update update /\
               is_order_for coin side (Orders.size o) placed /\
               nth_error (network w) 3 = Some (Ok response) /\ leverage_accepted response /\
               (r = true <->
                exists answer,
                  nth_error (network w) 7 = Some (Ok answer) /\ accepted answer))).
  { intros side [lr [w2 [Hl Hc]]].
    destruct (leverage_posted_signed self w1 w2 lr Hl) as [L [PL HL]].
    assert (N1 : network w1 = tl (network w)) by (destruct R as [N _]; exact N).
    destruct Hc as [[Hlr [Hr P]] | [Hlr Ho]].
    - rewrite PL in P.
      destruct (signed_after_portfolio self w w1 w' L R P) as [_ S]. rewrite S.
      destruct HL as [[-> _] | [req [-> [Hu _]]]].
      + left. auto.
      + right. left. split; [exact Hr|]. now exists req.
    - destruct HL as [[_ K] | [req [FL [Hu [N2 [_ Hacc]]]]]]; [congruence|].
      destruct (proj1 Hacc Hlr) as [response [Hn Ha]].
      rewrite N1, nth_error_tl in Hn.
      destruct (order_posted_signed self coin side (Orders.size o) w2 w' r Ho)
        as [O [PO HO]].
      rewrite PL, <- app_assoc in PO.
      destruct (signed_after_portfolio self w w1 w' (L ++ O) R PO) as [_ S].
      rewrite S, filter_app, FL.
      destruct HO as [[-> Hr] | [placed [-> [Hp Hr]]]].
      + right. left. split; [exact Hr|]. now exists req.
      + right. right. exists req, placed, response.
        split; [reflexivity|]. split; [exact Hu|]. split; [exact Hp|].
        split; [exact Hn|]. split; [exact Ha|].
        rewrite N2, N1, !nth_error_tl in Hr. exact Hr. }
  destruct Hb as [Hb | Hb]; rewrite Hb in H |- *; now apply Hmain.
Qed.

Lemma order_follows_leverage_witness :
  exists r w',
    @Orders.execute_executable_order toy_account sample_bot "BTC" btc_buy_order 100000
      opening_world = (Ok r, w') /\
    ((r = false /\ signed_requests opening_world w' = []) \/
     (r = false /\
      exists update, signed_requests opening_world w' = [update] /\ is_leverage_update update) \/
     (exists update placed response,
        signed_requests opening_world w' = [update; placed] /\
        is_leverage_update update /\
        is_order_for "BTC"
          (side_of (lower (Orders.action btc_buy_order))
             (Orders.in_positions "BTC"
                (portfolio_of (hd_error (network opening_world)))))
          (Orders.size btc_buy_order) placed /\
        nth_error (network opening_world) 3 = Some (Ok response) /\
        leverage_accepted response /\
        (r = true <->
         exists answer,
           nth_error (network opening_world) 7 = Some (Ok answer) /\ accepted answer))).
Proof.
  apply (@order_follows_leverage toy_account sample_bot "BTC" btc_buy_order 100000
           opening_world).
  right. vm_compute. reflexivity.
Defined.

Example buy_order_runs :
  fst (@Orders.execute_executable_order toy_account sample_bot "BTC" btc_buy_order 100000
         opening_world) = Ok true.
Proof. vm_compute. reflexivity. Qed.

(** Closing a position that is not held opens a short: the action falls
    through to the last branch, which sells. *)
Example close_without_position_sells :
  side_of "close_position" false = "sell" /\
  side_of "increase_position" false = "sell".
Proof. split; reflexivity. Qed.

Lemma positions_item_in (coin : string) (state : Orders.PortfolioState)
    (p : Orders.position) :
  Orders.positions_item state coin = Ok p -> Orders.in_positions coin state = true.
Proof.
  unfold Orders.in_positions, Orders.positions_item.
  destruct (Orders.dict_get (Orders.positions state) coin); [reflexivity | discriminate].
Qed.

(** X24.  A close or a reduce of a position that is held sells what is
    held and no more.  [execute_executable_order] then posts one signed
    request at most, a sell order: of the size of the position on a close,
    of the smaller of the requested size and the size of the position on a
    reduce.  It sets no leverage, and it reports success exactly when the
    exchange accepts the order. *)
Theorem closing_order_sells_the_position {EA : EthAccount} (self : Bot.bot)
    (coin : string) (o : Orders.order) (last_price : Q) (w : world)
    (p : Orders.position) :
  let a := lower (Orders.action o) in
  let amount :=
    if String.eqb a "close_position" then Orders.position_size p
    else py_min (Orders.size o) (Orders.position_size p) in
  Orders.positions_item (portfolio_of (hd_error (network w))) coin = Ok p ->
  a = "close_position" \/ a = "reduce_position" ->
  exists r w',
    Orders.execute_executable_order self coin o last_price w = (Ok r, w') /\
    ((r = false /\ signed_requests w w' = []) \/
     (exists placed,
        signed_requests w w' = [placed] /\ is_order_for coin "sell" amount placed /\
        (r = true <->
         exists answer, nth_error (network w) 4 = Some (Ok answer) /\ accepted answer))) /\
    (amount <= Orders.position_size p)%Q /\
    (a = "reduce_position" -> (amount <= Orders.size o)%Q).
Proof.
  cbv zeta. intros Hp Ha.
  destruct (execute_executable_order_run self coin o last_price w)
    as [r [w' [w1 [E [R H]]]]].
  exists r, w'. split; [exact E|]. cbv zeta in H.
  rewrite (positions_item_in _ _ _ Hp) in H.
  assert (N1 : network w1 = tl (network w)) by (destruct R as [N _]; exact N).
  assert (Hmain : forall amount,
            order_posted self coin "sell" amount w1 w' r ->
            (r = false /\ signed_requests w w' = []) \/
            (exists placed,
               signed_requests w w' = [placed] /\ is_order_for coin "sell" amount placed /\
               (r = true <->
                exists answer,
                  nth_error (network w) 4 = Some (Ok answer) /\ accepted answer))).
  { intros amount Ho.
    destruct (order_posted_signed self coin "sell" amount w1 w' r Ho) as [O [PO HO]].
    destruct (signed_after_portfolio self w w1 w' O R PO) as [_ S]. rewrite S.
    destruct HO as [[-> Hr] | [placed [-> [Hpl Hr]]]]; [left; auto|].
    right. exists placed. split; [reflexivity|]. split; [exact Hpl|].
    rewrite N1, nth_error_tl in Hr. exact Hr. }
  destruct Ha as [Ha | Ha]; rewrite Ha in H |- *; cbn in H;
    destruct H as [p' [Hp' Ho]];
    assert (p' = p) by congruence; subst p'.
  - split; [now apply Hmain|]. split; [apply Qle_refl | discriminate].
  - split; [now apply Hmain|].
    destruct (py_min_cases (Orders.size o) (Orders.position_size p)) as [[-> K] | [-> K]].
    + split; [exact K | intros _; apply Qle_refl].
    + split; [apply Qle_refl | intros _; now apply Qlt_le_weak].
Qed.

Lemma closing_order_sells_the_position_witness :
  exists p,
    Orders.positions_item (portfolio_of (hd_error (network closing_world))) "ETH" = Ok p /\
    exists r w',
      @Orders.execute_executable_order toy_account sample_bot "ETH" eth_reduce_order 100
        closing_world = (Ok r, w') /\
      ((r = false /\ signed_requests closing_world w' = []) \/
       (exists placed,
          signed_requests closing_world w' = [placed] /\
          is_order_for "ETH" "sell"
            (if String.eqb (lower (Orders.action eth_reduce_order)) "close_position"
             then Orders.position_size p
             else py_min (Orders.size eth_reduce_order) (Orders.position_size p)) placed /\
          (r = true <->
           exists answer,
             nth_error (network closing_world) 4 = Some (Ok answer) /\ accepted answer))) /\
      ((if String.eqb (lower (Orders.action eth_reduce_order)) "close_position"
        then Orders.position_size p
        else py_min (Orders.size eth_reduce_order) (Orders.position_size p))
       <= Orders.position_size p)%Q /\
      (lower (Orders.action eth_reduce_order) = "reduce_position" ->
       ((if String.eqb (lower (Orders.action eth_reduce_order)) "close_position"
         then Orders.position_size p
         else py_min (Orders.size eth_reduce_order) (Orders.position_size p))
        <= Orders.size eth_reduce_order)%Q).
Proof.
  destruct (Orders.positions_item (portfolio_of (hd_error (network closing_world))) "ETH")
    as [p|e] eqn:Ep.
  - exists p. split; [reflexivity|].
    apply (@closing_order_sells_the_position toy_account sample_bot "ETH" eth_reduce_order
             100 closing_world p Ep).
    right. reflexivity.
  - vm_compute in Ep. discriminate Ep.
Defined.

Example reduce_order_runs :
  fst (@Orders.execute_executable_order toy_account sample_bot "ETH" eth_reduce_order 100
         closing_world) = Ok true /\
  option_map price_of (hd_error (signed_requests closing_world
     (snd (@Orders.execute_executable_order toy_account sample_bot "ETH" eth_reduce_order 100
             closing_world)))) = Some (Some (VStr "100.0")) /\
  option_map (fun req => match wire_of req with
                         | Some wire => field_of "s" wire
                         | None => None
                         end)
    (hd_error (signed_requests closing_world
       (snd (@Orders.execute_executable_order toy_account sample_bot "ETH" eth_reduce_order
               100 closing_world)))) = Some (Some (VStr "0.5")).
Proof. vm_compute. repeat split. Qed.
